(** * LVISDetection: a shallow embedding of [mmeval/metrics/lvis_detection.py]

    The metric object is a thin wrapper around the LVIS evaluation engine.
    Its own code is control flow: accumulating predictions, a stateless
    call that swaps the prediction buffer, and [compute_metric], which
    drives the engine once per configured metric and assembles the
    reporting dictionary.

    The engine ([lvis.LVIS], [lvis.LVISResults], [lvis.LVISEval]), the base
    class helper [results2json], numpy, [tempfile] and [os.path] are
    collaborators of the wrapper: they are gathered in the record [Backend]
    and every definition below is parametric in it.  Python floats are IEEE
    binary64 numbers and are modelled by Rocq's primitive floats; the
    builtins [round], [str], [format] and [float] that the wrapper applies
    to them are defined on these. *)

From Stdlib Require Import Floats ZArith.
From stdpp Require Import gmap strings list pretty.

(** A decimal literal stands for the nearest binary64 number, as in
    Python. *)
Set Warnings "-inexact-float".

(** ** Python floats: rounding, printing and reading

    A finite binary64 number is [m * 2 ^ e] up to its sign; the functions
    below work on this exact value. *)

(** The exact value [m * 2 ^ e] as a fraction. *)
Definition ratio_of (m : positive) (e : Z) : Z * Z :=
  if (0 <=? e)%Z then (Z.pos m * 2 ^ e, 1)%Z else (Z.pos m, 2 ^ (- e))%Z.

(** The integer nearest to [n / d], ties going to the even one. *)
Definition round_half_even (n d : Z) : Z :=
  let q := (n / d)%Z in
  match (2 * (n mod d) ?= d)%Z with
  | Lt => q
  | Gt => (q + 1)%Z
  | Eq => if Z.even q then q else (q + 1)%Z
  end.

(** The binary64 number nearest to [n / d], with the sign [s]. *)
Definition nearest_float (s : bool) (n d : Z) : float :=
  match n with
  | Z.pos p =>
      SF2Prim (SFdiv prec emax (S754_finite s p 0)
                 (S754_finite false (Z.to_pos d) 0))
  | _ => SF2Prim (S754_zero s)
  end.

(** [x] rounded to [ndigits] decimals: the exact value of [x] is rounded
    to a multiple of [10 ^ -ndigits], ties to even, and the result is the
    binary64 number nearest to that decimal.  Zeros, infinities and NaN
    are kept. *)
Definition decimal_round (x : float) (ndigits : nat) : float :=
  match Prim2SF x with
  | S754_finite s m e =>
      let '(n, d) := ratio_of m e in
      let p := (10 ^ Z.of_nat ndigits)%Z in
      nearest_float s (round_half_even (n * p) d) p
  | _ => x
  end.

(** [round(x, ndigits)] of a [float], for [ndigits >= 0]; beyond 323
    decimals every binary64 number is its own rounding. *)
Definition py_round (x : float) (ndigits : nat) : float :=
  if (323 <? ndigits)%nat then x else decimal_round x ndigits.

Definition digit_char (d : Z) : Ascii.ascii :=
  Ascii.ascii_of_nat (48 + Z.to_nat d).

Definition digit_val (c : Ascii.ascii) : option Z :=
  let n := Z.of_nat (Ascii.nat_of_ascii c) in
  if ((48 <=? n) && (n <=? 57))%Z%bool then Some (n - 48)%Z else None.

(** The [n] lowest decimal digits of [v], put before [acc]. *)
Fixpoint fixed_digits (n : nat) (v : Z) (acc : string) : string :=
  match n with
  | O => acc
  | S n' => fixed_digits n' (v / 10) (String (digit_char (v mod 10)) acc)
  end.

Fixpoint count_digits (fuel : nat) (v : Z) : nat :=
  match fuel with
  | O => 1
  | S f => if (v <? 10)%Z then 1 else S (count_digits f (v / 10))
  end.

(** A natural number in decimal. *)
Definition decimal (v : Z) : string :=
  fixed_digits (count_digits (Z.to_nat (Z.log2 v)) v) v "".

Definition sign_str (s : bool) : string := if s then "-" else "".

(** [f'{x:.nf}'] *)
Definition py_format_f (x : float) (n : nat) : string :=
  let body (s : bool) (v : Z) :=
    let p := (10 ^ Z.of_nat n)%Z in
    sign_str s +:+ decimal (v / p) +:+
    match n with O => "" | _ => "." +:+ fixed_digits n (v mod p) "" end in
  match Prim2SF x with
  | S754_nan => "nan"
  | S754_infinity s => sign_str s +:+ "inf"
  | S754_zero s => body s 0%Z
  | S754_finite s m e =>
      let '(num, den) := ratio_of m e in
      body s (round_half_even (num * 10 ^ Z.of_nat n) den)
  end.

(** The digits at the head of [s]: their value after [acc], their number
    after [n], and what follows them. *)
Fixpoint read_digits (s : string) (acc : Z) (n : nat) : Z * nat * string :=
  match s with
  | String c s' =>
      match digit_val c with
      | Some d => read_digits s' (10 * acc + d) (S n)
      | None => (acc, n, s)
      end
  | EmptyString => (acc, n, s)
  end.

(** [float(s)] for a string in fixed-point notation (an optional sign,
    digits, and possibly a point and digits) or one of [nan], [inf] and
    [infinity]; [None] for any other string. *)
Definition py_float (s : string) : option float :=
  let '(neg, s) :=
    match s with
    | String c s' =>
        if Ascii.eqb c (Ascii.ascii_of_nat 45) then (true, s')
        else if Ascii.eqb c (Ascii.ascii_of_nat 43) then (false, s')
        else (false, s)
    | EmptyString => (false, s)
    end in
  let '(i, ni, rest) := read_digits s 0 0 in
  match rest with
  | EmptyString =>
      match ni with O => None | _ => Some (nearest_float neg i 1) end
  | String c rest' =>
      if Ascii.eqb c (Ascii.ascii_of_nat 46) then
        let '(f, nf, rest) := read_digits rest' 0 0 in
        match rest, (ni + nf)%nat with
        | EmptyString, S _ =>
            let p := (10 ^ Z.of_nat nf)%Z in
            Some (nearest_float neg (i * p + f) p)
        | _, _ => None
        end
      else
        match ni with
        | O =>
            if String.eqb s "nan" then Some nan
            else if (String.eqb s "inf" || String.eqb s "infinity")%bool
            then Some (if neg then neg_infinity else infinity)
            else None
        | _ => None
        end
  end.

(** The shortest decimal that reads back as the number: [lo], [x] and
    [hi] are the ends of the rounding interval and the number itself, in
    units of [pn / pd]; the result is [(k, q)] for the decimal
    [k * 10 ^ q], with [q] the largest exponent for which the interval
    holds a multiple of [10 ^ q] and [k] the multiple nearest to [x]. *)
Fixpoint shortest_go (fuel : nat) (q : Z) (lo x hi : Z) (pn pd : Z)
    (incl : bool) : Z * Z :=
  let '(tn, td) :=
    if (0 <=? q)%Z then (10 ^ q, 1)%Z else (1, 10 ^ (- q))%Z in
  let num (v : Z) := (v * pn * td)%Z in
  let den := (tn * pd)%Z in
  let kmin0 := (- ((- num lo) / den))%Z in
  let kmin := if incl then kmin0
              else if (kmin0 * den =? num lo)%Z then (kmin0 + 1)%Z
              else kmin0 in
  let kmax0 := (num hi / den)%Z in
  let kmax := if incl then kmax0
              else if (kmax0 * den =? num hi)%Z then (kmax0 - 1)%Z
              else kmax0 in
  if ((1 <=? kmax) && (kmin <=? kmax))%Z%bool then
    let k0 := round_half_even (num x) den in
    (Z.max (Z.max kmin 1) (Z.min k0 kmax), q)
  else
    match fuel with
    | O => (0, 0)%Z
    | S f => shortest_go f (q - 1) lo x hi pn pd incl
    end.

(** The rounding interval of [m * 2 ^ e] reaches half way to its
    neighbours (the lower one is nearer at a power of two); its ends read
    back as the number when [m] is even.  The search starts above the
    decimal exponent of the number. *)
Definition shortest_digits (m : positive) (e : Z) : Z * Z :=
  let boundary := ((Z.pos m =? 2 ^ 52) && (-1074 <? e))%Z%bool in
  let lo := if boundary then (4 * Z.pos m - 1)%Z else (4 * Z.pos m - 2)%Z in
  let x := (4 * Z.pos m)%Z in
  let hi := (4 * Z.pos m + 2)%Z in
  let '(pn, pd) := if (0 <=? e - 2)%Z then (2 ^ (e - 2), 1)%Z
                   else (1, 2 ^ (2 - e))%Z in
  let q0 := ((Z.log2 (Z.pos m) + e + 2) * 30103 / 100000 + 2)%Z in
  shortest_go 40 q0 lo x hi pn pd (Z.even (Z.pos m)).

Definition zeros (n : Z) : string := fixed_digits (Z.to_nat n) 0 "".

(** [str(x)] of a [float], which is also [f'{x}']: the shortest digits
    that read back as [x], in exponent notation when the decimal point
    would be more than 16 places to the right of the first digit or more
    than 4 to its left. *)
Definition py_str (x : float) : string :=
  match Prim2SF x with
  | S754_nan => "nan"
  | S754_infinity s => sign_str s +:+ "inf"
  | S754_zero s => sign_str s +:+ "0.0"
  | S754_finite s m e =>
      let '(k, q) := shortest_digits m e in
      let ds := decimal k in
      let n := Z.of_nat (String.length ds) in
      let decpt := (n + q)%Z in
      sign_str s +:+
      (if ((decpt <=? -4) || (16 <? decpt))%Z%bool then
         let ex := (decpt - 1)%Z in
         let mant := match ds with
                     | String c EmptyString => String c EmptyString
                     | String c rest => String c ("." +:+ rest)
                     | EmptyString => EmptyString
                     end in
         mant +:+ "e" +:+ (if (ex <? 0)%Z then "-" else "+") +:+
         (if (Z.abs ex <? 10)%Z then "0" else "") +:+ decimal (Z.abs ex)
       else if (decpt <=? 0)%Z then "0." +:+ zeros (- decpt) +:+ ds
       else if (n <=? decpt)%Z then ds +:+ zeros (decpt - n) +:+ ".0"
       else String.substring 0 (Z.to_nat decpt) ds +:+ "." +:+
            String.substring (Z.to_nat decpt) (Z.to_nat (n - decpt)) ds)
  end.

(** ** Python values *)

(** A float carries its dynamic type: the builtin [float] or [numpy.float64]
    (what [np.mean] returns).  Both hold a binary64 number; [round] and
    [str] dispatch on the dynamic type. *)
Inductive pyfloat :=
| PyFloat (x : float)
| NpFloat64 (x : float).

Definition float_of (a : pyfloat) : float :=
  match a with PyFloat x | NpFloat64 x => x end.

(** [a * 100]: the int is converted to binary64, the product keeps the
    dynamic type of [a]. *)
Definition times100 (a : pyfloat) : pyfloat :=
  match a with
  | PyFloat x => PyFloat (x * 100)%float
  | NpFloat64 x => NpFloat64 (x * 100)%float
  end.

(** The values a caller can put in a prediction sequence. *)
#[warnings="-register-all"] Inductive pyval :=
| PNone
| PInt (n : Z)
| PFloat (x : float)
| PStr (s : string)
| PList (l : list pyval)
| PDict (d : list (string * pyval)).

(** [isinstance(v, dict)] *)
Definition is_dict (v : pyval) : bool :=
  match v with PDict _ => true | _ => false end.

(** [f'{type(v)}'] *)
Definition type_repr (v : pyval) : string :=
  match v with
  | PNone => "<class 'NoneType'>"
  | PInt _ => "<class 'int'>"
  | PFloat _ => "<class 'float'>"
  | PStr _ => "<class 'str'>"
  | PList _ => "<class 'list'>"
  | PDict _ => "<class 'dict'>"
  end.

(** ** Exceptions and outcomes *)

Inductive exn :=
| AssertionError (msg : string)
| IndexError
| KeyError (key : string)
| RuntimeError (msg : string)
| OtherError (name : string).

Inductive outcome (A : Type) :=
| Ret (a : A)
| Raise (e : exn).
Arguments Ret {A} a.
Arguments Raise {A} e.

Definition is_Ret {A} (o : outcome A) : bool :=
  match o with Ret _ => true | Raise _ => false end.

#[export] Instance outcome_ret : MRet outcome := λ A a, Ret a.

#[export] Instance outcome_bind : MBind outcome := λ A A' f o,
  match o with
  | Ret a => f a
  | Raise e => Raise e
  end.

(** ** Ordered dictionaries

    [eval_results] is an [OrderedDict]: assigning to a key that is present
    replaces its value in place, assigning to a new key appends it. *)
Definition odict (V : Type) := list (string * V).

Fixpoint od_set {V} (d : odict V) (k : string) (v : V) : odict V :=
  match d with
  | [] => [(k, v)]
  | (k', v') :: d' =>
      if String.eqb k' k then (k, v) :: d' else (k', v') :: od_set d' k v
  end.

Fixpoint od_get {V} (d : odict V) (k : string) : option V :=
  match d with
  | [] => None
  | (k', v') :: d' => if String.eqb k' k then Some v' else od_get d' k
  end.

Definition od_keys {V} (d : odict V) : list string := d.*1.

(** [k in l] for a list of strings *)
Definition str_in (k : string) (l : list string) : bool :=
  existsb (String.eqb k) l.

(** The values stored in [eval_results]. *)
Inductive value :=
| VFloat (x : pyfloat)
| VStrList (l : list string)
| VPairList (l : list (string * string)).

(** ** Arrays

    [lvis_eval.eval['precision']] is a 4-dimensional array indexed by
    (IoU threshold, recall level, category, area range). *)
Record ndarray4 := {
  shape4 : nat * nat * nat * nat;
  at4 : nat → nat → nat → nat → float
}.

Definition shape_0 (a : ndarray4) : nat := a.(shape4).1.1.1.
Definition shape_1 (a : ndarray4) : nat := a.(shape4).1.1.2.
Definition shape_2 (a : ndarray4) : nat := a.(shape4).1.2.
Definition shape_3 (a : ndarray4) : nat := a.(shape4).2.

(** [a[:, :, idx, j]] flattened in row-major order; an index outside its
    axis raises [IndexError]. *)
Definition slice_cat_area (a : ndarray4) (idx j : nat) : outcome (list float) :=
  if bool_decide (idx < shape_2 a ∧ j < shape_3 a) then
    Ret (t ← seq 0 (shape_0 a); r ← seq 0 (shape_1 a); [at4 a t r idx j])
  else Raise IndexError.

(** [precision[precision > -1]] *)
Definition valid_samples (precision : list float) : list float :=
  filter (λ p, PrimFloat.ltb (-1)%float p = true) precision.

(** ** Events

    The observable effects of the wrapper, in the order they happen. *)
Inductive event :=
| LogInfo (msg : string)
| LogWarning (msg : string)
| TmpDirCreated (name : string)
| TmpDirCleanup (name : string)
| Results2Json (outfile_prefix : string)
| Evaluate (iou_type : string) (imgIds : list Z) (max_dets : Z).

Record Category := { cat_name : string }.

(** The [LVISEval] object: the two parameters the wrapper assigns, and the
    engine's own state. *)
Record LVISEval (I : Type) := {
  params_imgIds : list Z;
  params_max_dets : Z;
  internals : I
}.
Arguments params_imgIds {I} _.
Arguments params_max_dets {I} _.
Arguments internals {I} _.

Definition set_imgIds {I} (ids : list Z) (e : LVISEval I) : LVISEval I :=
  {| params_imgIds := ids; params_max_dets := params_max_dets e;
     internals := internals e |}.

Definition set_max_dets {I} (n : Z) (e : LVISEval I) : LVISEval I :=
  {| params_imgIds := params_imgIds e; params_max_dets := n;
     internals := internals e |}.

(** Result of the base class constructor, [COCODetection.__init__]. *)
Record BaseInit := {
  b_metrics : list string;
  b_classwise : bool;
  b_metric_items : option (list string);
  b_format_only : bool;
  b_outfile_prefix : option string;
  b_cat_ids : list Z;
  b_img_ids : list Z
}.

(** Arguments of [LVISDetection.__init__]; [None] in [arg_proposal_nums]
    stands for an argument that is not passed. *)
Record InitArgs := {
  ann_file : string;
  arg_metric : list string;
  arg_classwise : bool;
  arg_proposal_nums : option Z;
  arg_metric_items : option (list string);
  arg_format_only : bool;
  arg_outfile_prefix : option string
}.

(** ** Collaborators *)
Record Backend := {
  LVIS : Type;
  LVISResults : Type;
  EvalState : Type;
  FS : Type;
  (* lvis.LVIS *)
  LVIS_new : string → FS → outcome LVIS;
  get_cat_ids : LVIS → list Z;
  get_img_ids : LVIS → list Z;
  load_cats : LVIS → list Z → outcome (list Category);
  (* lvis.LVISResults(lvis_gt, path) *)
  LVISResults_new : LVIS → string → FS → outcome LVISResults;
  (* lvis.LVISEval *)
  LVISEval_new : LVIS → LVISResults → string → outcome (LVISEval EvalState);
  evaluate : LVISEval EvalState → outcome (LVISEval EvalState);
  accumulate : LVISEval EvalState → outcome (LVISEval EvalState);
  summarize : LVISEval EvalState → outcome (LVISEval EvalState);
  get_results : LVISEval EvalState → list (string * float);
  eval_precision : LVISEval EvalState → outcome ndarray4;
  print_results : LVISEval EvalState → string;
  (* COCODetection *)
  COCODetection_init : InitArgs → outcome BaseInit;
  results2json :
    list Z → list pyval → string → FS → outcome (gmap string string) * FS;
  (* mmeval.fileio, tempfile, os.path *)
  get_local_path : string → FS → outcome string;
  TemporaryDirectory : FS → string * FS;
  cleanup : string → FS → FS;
  osp_join : string → string → string;
  osp_dirname : string → string;
  (* numpy: round(a, ndigits) and str(a) of a float64, np.mean *)
  np_round : float → nat → float;
  np_str : float → string;
  np_mean : list float → float
}.

(** ** The metric object and the world around it *)

Definition loc := positive.

Section Wrapper.
Context (B : Backend).

(** The attributes of the metric object.  [_results] is a reference to a
    list object in the heap: [add] mutates that list in place. *)
Record Self := {
  _results : loc;
  _lvis_api : LVIS B;
  cat_ids : list Z;
  img_ids : list Z;
  metrics : list string;
  metric_items : option (list string);
  classwise : bool;
  format_only : bool;
  outfile_prefix : option string;
  proposal_nums : Z
}.

Record World := {
  self : Self;
  heap : gmap loc (list pyval);
  files : FS B;
  trace : list event
}.

Definition set_results (l : loc) (s : Self) : Self :=
  {| _results := l; _lvis_api := _lvis_api s; cat_ids := cat_ids s;
     img_ids := img_ids s; metrics := metrics s;
     metric_items := metric_items s; classwise := classwise s;
     format_only := format_only s; outfile_prefix := outfile_prefix s;
     proposal_nums := proposal_nums s |}.

Definition set_lvis_api (a : LVIS B) (s : Self) : Self :=
  {| _results := _results s; _lvis_api := a; cat_ids := cat_ids s;
     img_ids := img_ids s; metrics := metrics s;
     metric_items := metric_items s; classwise := classwise s;
     format_only := format_only s; outfile_prefix := outfile_prefix s;
     proposal_nums := proposal_nums s |}.

Definition set_cat_ids (c : list Z) (s : Self) : Self :=
  {| _results := _results s; _lvis_api := _lvis_api s; cat_ids := c;
     img_ids := img_ids s; metrics := metrics s;
     metric_items := metric_items s; classwise := classwise s;
     format_only := format_only s; outfile_prefix := outfile_prefix s;
     proposal_nums := proposal_nums s |}.

Definition set_img_ids (i : list Z) (s : Self) : Self :=
  {| _results := _results s; _lvis_api := _lvis_api s; cat_ids := cat_ids s;
     img_ids := i; metrics := metrics s;
     metric_items := metric_items s; classwise := classwise s;
     format_only := format_only s; outfile_prefix := outfile_prefix s;
     proposal_nums := proposal_nums s |}.

Definition with_self (f : Self → Self) (w : World) : World :=
  {| self := f (self w); heap := heap w; files := files w; trace := trace w |}.

Definition with_heap (h : gmap loc (list pyval)) (w : World) : World :=
  {| self := self w; heap := h; files := files w; trace := trace w |}.

Definition with_files (fs : FS B) (w : World) : World :=
  {| self := self w; heap := heap w; files := fs; trace := trace w |}.

Definition emit (e : event) (w : World) : World :=
  {| self := self w; heap := heap w; files := files w;
     trace := trace w ++ [e] |}.

(** ** A state and exception monad

    A Python statement transforms the world and either completes with a
    value or raises; the world reached when it raises is kept, since the
    caller observes it. *)
Definition M (A : Type) : Type := World → outcome A * World.

#[export] Instance M_ret : MRet M := λ A a w, (Ret a, w).

#[export] Instance M_bind : MBind M := λ A A' f m w,
  match m w with
  | (Ret a, w') => f a w'
  | (Raise e, w') => (Raise e, w')
  end.

Definition raise {A} (e : exn) : M A := λ w, (Raise e, w).
Definition get_self : M Self := λ w, (Ret (self w), w).
Definition modify (f : World → World) : M unit := λ w, (Ret tt, f w).
Definition lift {A} (o : outcome A) : M A := λ w, (o, w).
Definition log_info (msg : string) : M unit := modify (emit (LogInfo msg)).
Definition log_warning (msg : string) : M unit :=
  modify (emit (LogWarning msg)).

(** [try: m except Exception as e: ...]: the outcome of [m] as a value. *)
Definition try {A} (m : M A) : M (outcome A) := λ w,
  let '(o, w') := m w in (Ret o, w').

(** The list object behind a reference. *)
Definition read_list (l : loc) : M (list pyval) := λ w,
  (Ret (default [] (heap w !! l)), w).

(** [l.append(v)] on the list object at [l] *)
Definition list_append (l : loc) (v : pyval) : M unit :=
  modify (λ w, with_heap (<[l := default [] (heap w !! l) ++ [v]]> (heap w)) w).

(** [[]]: a new, empty list object *)
Definition new_list : M loc := λ w,
  let l := fresh (dom (heap w)) in (Ret l, with_heap (<[l := []]> (heap w)) w).

(** ** [add] and [add_predictions] *)

Definition not_a_dict_msg (prediction : pyval) : string :=
  "The prediciton should be a sequence of dict, but got a sequence of "
  +:+ type_repr prediction +:+ ".".

Fixpoint add (predictions : list pyval) : M unit :=
  match predictions with
  | [] => mret tt
  | prediction :: rest =>
      if is_dict prediction then
        s ← get_self;
        list_append (_results s) prediction;;
        add rest
      else raise (AssertionError (not_a_dict_msg prediction))
  end.

Definition add_predictions (predictions : list pyval) : M unit :=
  add predictions.

(** ** [compute_metric] *)

(** [f'{round(a * 100, 2)}']: [round] and the formatting are those of the
    dynamic type of [a]. *)
Definition percent (a : pyfloat) : string :=
  match times100 a with
  | PyFloat y => py_str (py_round y 2)
  | NpFloat64 y => np_str B (np_round B y 2)
  end.

(** [float(f'{float(v):.3f}')]; [float] raises [ValueError] on a string
    that is not a number, which the formatting never produces
    ([py_float_fixed]). *)
Definition round3 (v : float) : pyfloat :=
  PyFloat (default nan (py_float (py_format_f v 3))).

Definition default_ap_items : list string :=
  ["AP"; "AP50"; "AP75"; "APs"; "APm"; "APl"; "APr"; "APc"; "APf"].

Definition default_proposal_items (n : Z) : list string :=
  ["AR@" +:+ pretty n; "ARs@" +:+ pretty n;
   "ARm@" +:+ pretty n; "ARl@" +:+ pretty n].

(** The loop over [lvis_eval.get_results().items()] of the proposal
    branch. *)
Fixpoint collect_proposal (metric_items : list string)
    (lvis_results : list (string * float)) (eval_results : odict value)
    : odict value :=
  match lvis_results with
  | [] => eval_results
  | (k, v) :: rest =>
      if str_in k metric_items then
        let val := round3 v in
        collect_proposal metric_items rest (od_set eval_results k (VFloat val))
      else collect_proposal metric_items rest eval_results
  end.

(** The loop over [lvis_results.items()] of the bbox/segm branch. *)
Fixpoint collect_items (metric : string) (metric_items : list string)
    (lvis_results : list (string * float)) (results_list : list string)
    (eval_results : odict value) : list string * odict value :=
  match lvis_results with
  | [] => (results_list, eval_results)
  | (metric_item, v) :: rest =>
      if str_in metric_item metric_items then
        let key := metric +:+ "_" +:+ metric_item in
        let val := PyFloat v in
        collect_items metric metric_items rest
          (results_list ++ [percent val])
          (od_set eval_results key (VFloat val))
      else collect_items metric metric_items rest results_list eval_results
  end.

(** Per-category precision: the mean of the valid samples of the
    area-range-0 slice, or NaN when there is none. *)
Definition category_ap (precisions : ndarray4) (idx : nat) : outcome pyfloat :=
  precision ← slice_cat_area precisions idx 0;
  let precision := valid_samples precision in
  if bool_decide (length precision ≠ 0) then
    mret (NpFloat64 (np_mean B precision))
  else mret (PyFloat nan).

(** The loop over [enumerate(self.cat_ids)], from index [idx] on. *)
Fixpoint classwise_loop (api : LVIS B) (metric : string)
    (precisions : ndarray4) (idx : nat) (cats : list Z)
    (results_per_category : list (string * string))
    (eval_results : odict value)
    : outcome (list (string * string) * odict value) :=
  match cats with
  | [] => mret (results_per_category, eval_results)
  | catId :: rest =>
      nms ← load_cats B api [catId];
      nm ← match nms with [] => Raise IndexError | nm :: _ => Ret nm end;
      ap ← category_ap precisions idx;
      classwise_loop api metric precisions (S idx) rest
        (results_per_category ++ [(cat_name nm, percent ap)])
        (od_set eval_results
           (metric +:+ "_" +:+ cat_name nm +:+ "_precision") (VFloat ap))
  end.

(** [evaluate(); accumulate(); summarize()] on the engine object. *)
Definition run_eval (iou_type : string) (lvis_eval : LVISEval (EvalState B))
    : M (LVISEval (EvalState B)) :=
  modify (emit (Evaluate iou_type (params_imgIds lvis_eval)
                  (params_max_dets lvis_eval)));;
  lvis_eval ← lift (evaluate B lvis_eval);
  lvis_eval ← lift (accumulate B lvis_eval);
  lift (summarize B lvis_eval).

Definition newline : string := String (Ascii.ascii_of_nat 10) EmptyString.

(** The body of the loop over [self.metrics], after [lvis_dt] is built. *)
Definition eval_metric (lvis_gt : LVIS B) (lvis_dt : LVISResults B)
    (metric : string) (eval_results : odict value) : M (odict value) :=
  s ← get_self;
  let iou_type := if String.eqb metric "proposal" then "bbox" else metric in
  lvis_eval ← lift (LVISEval_new B lvis_gt lvis_dt iou_type);
  let lvis_eval := set_imgIds (img_ids s) lvis_eval in
  let metric_items := metric_items s in
  '(lvis_eval, eval_results) ←
    (if String.eqb metric "proposal" then
       let lvis_eval := set_max_dets (proposal_nums s) lvis_eval in
       lvis_eval ← run_eval iou_type lvis_eval;
       let metric_items :=
         default (default_proposal_items (proposal_nums s)) metric_items in
       mret (lvis_eval,
             collect_proposal metric_items (get_results B lvis_eval)
               eval_results)
     else
       lvis_eval ← run_eval iou_type lvis_eval;
       let lvis_results := get_results B lvis_eval in
       let metric_items := default default_ap_items metric_items in
       let '(results_list, eval_results) :=
         collect_items metric metric_items lvis_results [] eval_results in
       let eval_results :=
         od_set eval_results (metric +:+ "_result") (VStrList results_list) in
       if classwise s then
         precisions ← lift (eval_precision B lvis_eval);
         if bool_decide (length (cat_ids s) = shape_2 precisions) then
           '(results_per_category, eval_results) ←
             lift (classwise_loop (_lvis_api s) metric precisions 0
                     (cat_ids s) [] eval_results);
           mret (lvis_eval,
                 od_set eval_results (metric +:+ "_classwise_result")
                   (VPairList results_per_category))
         else raise (AssertionError "")
       else mret (lvis_eval, eval_results));
  log_info (newline +:+ print_results B lvis_eval);;
  mret eval_results.

(** [result_files[metric]] *)
Definition getitem (result_files : gmap string string) (metric : string)
    : outcome string :=
  match result_files !! metric with
  | Some path => Ret path
  | None => Raise (KeyError metric)
  end.

(** The engine reads the result file at [path]. *)
Definition load_results (lvis_gt : LVIS B) (path : string)
    : M (LVISResults B) :=
  λ w, (LVISResults_new B lvis_gt path (files w), w).

(** [LVISResults(lvis_gt, result_files[metric])] *)
Definition new_LVISResults (lvis_gt : LVIS B)
    (result_files : gmap string string) (metric : string)
    : M (LVISResults B) :=
  path ← lift (getitem result_files metric);
  load_results lvis_gt path.

Definition empty_msg : string :=
  "The testing results of the whole dataset is empty.".

(** The loop over [self.metrics]; [break] ends it. *)
Fixpoint metrics_loop (lvis_gt : LVIS B) (result_files : gmap string string)
    (ms : list string) (eval_results : odict value) : M (odict value) :=
  match ms with
  | [] => mret eval_results
  | metric :: rest =>
      log_info ("Evaluating " +:+ metric +:+ "...");;
      r ← try (new_LVISResults lvis_gt result_files metric);
      match r with
      | Raise IndexError => log_warning empty_msg;; mret eval_results
      | Raise e => raise e
      | Ret lvis_dt =>
          eval_results ← eval_metric lvis_gt lvis_dt metric eval_results;
          metrics_loop lvis_gt result_files rest eval_results
      end
  end.

(** [tempfile.TemporaryDirectory()]; the result is the directory's name. *)
Definition new_TemporaryDirectory : M string := λ w,
  let '(name, fs) := TemporaryDirectory B (files w) in
  (Ret name, emit (TmpDirCreated name) (with_files fs w)).

(** [tmp_dir.cleanup()] *)
Definition tmp_cleanup (name : string) : M unit :=
  modify (λ w, emit (TmpDirCleanup name)
                 (with_files (cleanup B name (files w)) w)).

(** A [TemporaryDirectory] object that dies without [cleanup()] having
    been called removes its directory when it is finalised.  [tmp_dir] is
    a local of [compute_metric]: when the function returns it is dropped
    with the frame.  (When the function raises, the traceback keeps the
    frame, and the directory, until the exception is dropped.)  No call of
    the source does this, so no event is recorded. *)
Definition drop_local (tmp_dir : option string) : M unit :=
  match tmp_dir with
  | Some name => modify (λ w, with_files (cleanup B name (files w)) w)
  | None => mret tt
  end.

(** The base class helper converts and dumps [rs] under [outfile_prefix]
    and returns the names of the files it wrote, keyed by metric. *)
Definition dump_results (cats : list Z) (rs : list pyval)
    (outfile_prefix : string) : M (gmap string string) :=
  λ w, let '(o, fs) := results2json B cats rs outfile_prefix (files w) in
       (o, with_files fs w).

(** [self.results2json(results, outfile_prefix)] *)
Definition call_results2json (results : loc) (outfile_prefix : string)
    : M (gmap string string) :=
  s ← get_self;
  rs ← read_list results;
  modify (emit (Results2Json outfile_prefix));;
  dump_results (cat_ids s) rs outfile_prefix.

Definition when (b : bool) (m : M unit) : M unit :=
  if b then m else mret tt.

Definition compute_metric (results : loc) : M (odict value) :=
  s ← get_self;
  '(tmp_dir, outfile_prefix) ←
    match outfile_prefix s with
    | None =>
        tmp_dir ← new_TemporaryDirectory;
        mret (Some tmp_dir, osp_join B tmp_dir "results")
    | Some p => mret (None, p)
    end;
  when (bool_decide (length (cat_ids s) = 0))
    (modify (with_self (set_cat_ids (get_cat_ids B (_lvis_api s)))));;
  when (bool_decide (length (img_ids s) = 0))
    (modify (with_self (set_img_ids (get_img_ids B (_lvis_api s)))));;
  result_files ← call_results2json results outfile_prefix;
  let eval_results : odict value := [] in
  s ← get_self;
  if format_only s then
    log_info ("results are saved in " +:+ osp_dirname B outfile_prefix);;
    drop_local tmp_dir;;
    mret eval_results
  else
    let lvis_gt := _lvis_api s in
    eval_results ← metrics_loop lvis_gt result_files (metrics s) eval_results;
    match tmp_dir with
    | Some d => tmp_cleanup d
    | None => mret tt
    end;;
    mret eval_results.

(** ** [__call__] *)
Definition __call__ (predictions : list pyval) : M (odict value) :=
  s ← get_self;
  let cache_results := _results s in
  let cache_lvis_api := _lvis_api s in
  let cache_cat_ids := cat_ids s in
  let cache_img_ids := img_ids s in
  l ← new_list;
  modify (with_self (set_results l));;
  add predictions;;
  s' ← get_self;
  metric_result ← compute_metric (_results s');
  modify (with_self (set_results cache_results));;
  modify (with_self (set_lvis_api cache_lvis_api));;
  modify (with_self (set_cat_ids cache_cat_ids));;
  modify (with_self (set_img_ids cache_img_ids));;
  mret metric_result.

(** ** [__init__]

    The constructor runs the base class constructor, stores
    [proposal_nums] (300 unless given) and loads the annotation file. *)
Definition default_proposal_nums : Z := 300.

Definition dquote : string := String (Ascii.ascii_of_nat 34) EmptyString.

Definition no_lvis_msg : string :=
  "Package lvis is not installed. Please run " +:+ dquote +:+
  "pip install git+https://github.com/lvis-dataset/lvis-api.git" +:+
  dquote +:+ ".".

Definition __init__ (HAS_LVISAPI : bool) (args : InitArgs)
    (h : gmap loc (list pyval)) (fs : FS B) : outcome World :=
  if negb HAS_LVISAPI then Raise (RuntimeError no_lvis_msg)
  else
    b ← COCODetection_init B args;
    let l := fresh (dom h) in
    let proposal_nums :=
      default default_proposal_nums (arg_proposal_nums args) in
    local_path ← get_local_path B (ann_file args) fs;
    api ← LVIS_new B local_path fs;
    mret {| self := {| _results := l; _lvis_api := api;
                       cat_ids := b_cat_ids b; img_ids := b_img_ids b;
                       metrics := b_metrics b;
                       metric_items := b_metric_items b;
                       classwise := b_classwise b;
                       format_only := b_format_only b;
                       outfile_prefix := b_outfile_prefix b;
                       proposal_nums := proposal_nums |};
            heap := <[l := []]> h; files := fs; trace := [] |}.

End Wrapper.

Arguments self {B} _.
Arguments heap {B} _.
Arguments files {B} _.
Arguments trace {B} _.
Arguments _results {B} _.
Arguments _lvis_api {B} _.
Arguments cat_ids {B} _.
Arguments img_ids {B} _.
Arguments metrics {B} _.
Arguments metric_items {B} _.
Arguments classwise {B} _.
Arguments format_only {B} _.
Arguments outfile_prefix {B} _.
Arguments proposal_nums {B} _.
Arguments with_self {B} _ _.
Arguments with_heap {B} _ _.
Arguments with_files {B} _ _.
Arguments emit {B} _ _.
Arguments set_results {B} _ _.
Arguments set_lvis_api {B} _ _.
Arguments set_cat_ids {B} _ _.
Arguments set_img_ids {B} _ _.

(** ** A small backend

    A concrete instance of the collaborators, used to run the wrapper on
    examples: result files live in a finite map from path to the dumped
    detections, temporary directories are numbered, and the engine reports
    fixed scores. *)
Module Demo.

Record gt := { categories : list (Z * string); images : list Z }.

Definition fsys : Type := nat * gmap string (list pyval).

(** [d[k]], [l[i]] and [cat_ids[label]]; a negative index counts from the
    end. *)
Definition key (d : list (string * pyval)) (k : string) : outcome pyval :=
  match od_get d k with Some v => Ret v | None => Raise (KeyError k) end.

Definition item {A} (l : list A) (i : nat) : outcome A :=
  match l !! i with Some v => Ret v | None => Raise IndexError end.

Definition category_id (cats : list Z) (label : pyval) : outcome pyval :=
  match label with
  | PInt n =>
      let i := if (0 <=? n)%Z then n else (Z.of_nat (length cats) + n)%Z in
      if (0 <=? i)%Z then c ← item cats (Z.to_nat i); Ret (PInt c)
      else Raise IndexError
  | _ => Raise (OtherError "TypeError")
  end.

Definition xyxy2xywh (bbox : pyval) : outcome pyval :=
  match bbox with
  | PList (PFloat x1 :: PFloat y1 :: PFloat x2 :: PFloat y2 :: _) =>
      Ret (PList [PFloat x1; PFloat y1; PFloat (x2 - x1); PFloat (y2 - y1)])
  | PList _ => Raise IndexError
  | _ => Raise (OtherError "AttributeError")
  end.

Definition as_list (v : pyval) : outcome (list pyval) :=
  match v with PList l => Ret l | _ => Raise (OtherError "TypeError") end.

(** The detections of one prediction, one per label from the [i]-th on:
    the [i]-th box and score go with the [i]-th label. *)
Fixpoint labelled (cats : list Z) (image_id : pyval)
    (bboxes scores : list pyval) (masks : option (list pyval)) (i : nat)
    (labels : list pyval) : outcome (list pyval) :=
  match labels with
  | [] => Ret []
  | label :: rest =>
      bbox ← item bboxes i;
      bbox ← xyxy2xywh bbox;
      score ← item scores i;
      cat ← category_id cats label;
      mask ← match masks with
              | Some ms => m ← item ms i; Ret [("segmentation", m)]
              | None => Ret []
              end;
      dets ← labelled cats image_id bboxes scores masks (S i) rest;
      Ret (PDict ([("image_id", image_id); ("bbox", bbox); ("score", score);
                   ("category_id", cat)] ++ mask) :: dets)
  end.

(** The loop of [results2json] over the predictions, from the [idx]-th on:
    the box detections and, when [segm] is set, the mask detections. *)
Fixpoint convert (cats : list Z) (segm : bool) (idx : nat) (rs : list pyval)
    : outcome (list pyval * list pyval) :=
  match rs with
  | [] => Ret ([], [])
  | PDict d :: rest =>
      let image_id := default (PInt (Z.of_nat idx)) (od_get d "img_id") in
      labels ← key d "labels"; labels ← as_list labels;
      bboxes ← key d "bboxes"; bboxes ← as_list bboxes;
      scores ← key d "scores"; scores ← as_list scores;
      bs ← labelled cats image_id bboxes scores None 0 labels;
      ss ← (if segm then
              masks ← key d "masks"; masks ← as_list masks;
              mask_scores ← as_list (default (PList scores)
                                       (od_get d "mask_scores"));
              labelled cats image_id bboxes mask_scores (Some masks) 0 labels
            else Ret []);
      '(bs', ss') ← convert cats segm (S idx) rest;
      Ret (bs ++ bs', ss ++ ss')
  | _ :: _ => Raise (OtherError "AttributeError")
  end.

(** ['masks' in results[0]] *)
Definition has_masks (rs : list pyval) : outcome bool :=
  match rs with
  | [] => Raise IndexError
  | PDict d :: _ => Ret (bool_decide (is_Some (od_get d "masks")))
  | _ :: _ => Raise (OtherError "TypeError")
  end.

(** [results2json]: the detections are converted first, then dumped; the
    proposal metric reads the file of the boxes. *)
Definition dump (cats : list Z) (rs : list pyval) (prefix : string)
    (fs : fsys) : outcome (gmap string string) * fsys :=
  let bbox := prefix +:+ ".bbox.json" in
  let segm := prefix +:+ ".segm.json" in
  let names : gmap string string :=
    <["bbox" := bbox]> (<["proposal" := bbox]> ∅) in
  match (segm_on ← has_masks rs;
         dets ← convert cats segm_on 0 rs;
         Ret (segm_on, dets)) with
  | Raise e => (Raise e, fs)
  | Ret (true, (bs, ss)) =>
      (Ret (<["segm" := segm]> names),
       (fs.1, <[segm := ss]> (<[bbox := bs]> fs.2)))
  | Ret (false, (bs, _)) => (Ret names, (fs.1, <[bbox := bs]> fs.2))
  end.

(** [LVISResults(lvis_gt, path)] looks at the first detection of the
    file. *)
Definition load (g : gt) (path : string) (fs : fsys)
    : outcome (list pyval) :=
  match fs.2 !! path with
  | None => Raise (OtherError "FileNotFoundError")
  | Some [] => Raise IndexError
  | Some dets => Ret dets
  end.

Definition lookup_cats (g : gt) (ids : list Z) : outcome (list Category) :=
  mapM (M := outcome) (λ i : Z,
    match list_find (λ c : Z * string, c.1 = i) (categories g) with
    | Some (_, c) => Ret {| cat_name := c.2 |}
    | None => Raise (KeyError (pretty i))
    end) ids.

Definition new_eval (g : gt) (dt : list pyval) (iou_type : string)
    : outcome (LVISEval nat) :=
  if str_in iou_type ["bbox"; "segm"] then
    Ret {| params_imgIds := []; params_max_dets := 300;
           internals := length (categories g) |}
  else Raise (OtherError "ValueError").

(** The scores the engine reports; -1 stands for a score without data.
    Some of them lie half way between two roundings. *)
Definition scores (e : LVISEval nat) : list (string * float) :=
  let k := pretty (params_max_dets e) in
  [("AP", 0.3712345); ("AP50", 0.56789); ("AP75", 0.4); ("APs", 0.123456);
   ("APm", 0.00375); ("APl", 0.99999); ("APr", -1); ("APc", 0.00125);
   ("APf", 1); ("AR@" +:+ k, 0.45678); ("ARs@" +:+ k, 0.1875);
   ("ARm@" +:+ k, 0.0625); ("ARl@" +:+ k, -1)]%float.

(** Two thresholds and two recall levels; category 0 has samples, one of
    them zero, the other categories have none. *)
Definition samples (t r c : nat) : float :=
  match c, t, r with
  | O, O, O => 0.5
  | O, O, _ => 0.75
  | O, _, O => 0
  | O, _, _ => 0.2349
  | _, _, _ => -1
  end%float.

Definition precision_of (e : LVISEval nat) : outcome ndarray4 :=
  Ret {| shape4 := (2, 2, internals e, 1); at4 := λ t r c a, samples t r c |}.

Definition mkdtemp (fs : fsys) : string * fsys :=
  ("/tmp/tmp" +:+ pretty fs.1, (S fs.1, fs.2)).

Definition rmtree (name : string) (fs : fsys) : fsys :=
  (fs.1, filter (λ kv, String.prefix name kv.1 = false) fs.2).

Fixpoint drop_to_slash (s : string) : string :=
  match s with
  | EmptyString => EmptyString
  | String c s' => if Ascii.eqb c (Ascii.ascii_of_nat 47) then s' else drop_to_slash s'
  end.

Definition dirname (p : string) : string :=
  String.rev (drop_to_slash (String.rev p)).

(** [numpy.rint], and numpy's rounding to decimals: the number is scaled,
    rounded to an integer and scaled back. *)
Definition rint (x : float) : float :=
  match Prim2SF x with
  | S754_finite s m e =>
      let '(n, d) := ratio_of m e in nearest_float s (round_half_even n d) 1
  | _ => x
  end.

Definition around (x : float) (decimals : nat) : float :=
  let p :=
    PrimFloat.of_uint63 (Uint63Axioms.of_Z (10 ^ Z.of_nat decimals)) in
  (rint (x * p) / p)%float.

(** The mean as numpy computes it for less than eight samples: they are
    added up in order and the sum is divided by their number. *)
Definition mean (l : list float) : float :=
  (foldl PrimFloat.add 0 l
   / PrimFloat.of_uint63 (Uint63Axioms.of_Z (Z.of_nat (length l))))%float.

Definition lvis_v1 : gt :=
  {| categories := [(7, "cat"); (9, "dog")]%Z; images := [1; 2]%Z |}.

(** The base class constructor checks the names of the metrics and refuses
    the format-only mode without a prefix. *)
Definition allowed_metrics : list string :=
  ["bbox"; "segm"; "proposal"; "proposal_fast"].

Definition base_init (a : InitArgs) : outcome BaseInit :=
  match filter (λ m, str_in m allowed_metrics = false) (arg_metric a) with
  | m :: _ =>
      Raise (KeyError ("metric should be one of 'bbox', 'segm', 'proposal', "
                       +:+ "'proposal_fast', but got " +:+ m +:+ "."))
  | [] =>
      if arg_format_only a && bool_decide (arg_outfile_prefix a = None) then
        Raise (AssertionError "outfile_prefix must be not")
      else
        Ret {| b_metrics := arg_metric a; b_classwise := arg_classwise a;
               b_metric_items := arg_metric_items a;
               b_format_only := arg_format_only a;
               b_outfile_prefix := arg_outfile_prefix a;
               b_cat_ids := []; b_img_ids := [] |}
  end.

Definition backend : Backend :=
  {| LVIS := gt; LVISResults := list pyval; EvalState := nat; FS := fsys;
     LVIS_new := λ _ _, Ret lvis_v1;
     get_cat_ids := λ g, (categories g).*1;
     get_img_ids := images;
     load_cats := lookup_cats;
     LVISResults_new := load;
     LVISEval_new := new_eval;
     evaluate := Ret; accumulate := Ret; summarize := Ret;
     get_results := scores;
     eval_precision := precision_of;
     print_results := λ _, "summary";
     COCODetection_init := base_init;
     results2json := dump;
     get_local_path := λ p _, Ret p;
     TemporaryDirectory := mkdtemp;
     cleanup := rmtree;
     osp_join := λ a b, a +:+ "/" +:+ b;
     osp_dirname := dirname;
     np_round := around;
     np_str := py_str;
     np_mean := mean |}.

(** A prediction for image 1 with two detections, one with none, and one
    whose boxes, scores and labels disagree in length. *)
Definition pred1 : pyval :=
  PDict [("img_id", PInt 1);
         ("bboxes", PList [PList [PFloat 0; PFloat 0; PFloat 1; PFloat 1];
                           PList [PFloat 0; PFloat 0; PFloat 2; PFloat 2]]);
         ("scores", PList [PFloat 0.75; PFloat 0.5]);
         ("labels", PList [PInt 0; PInt 1])].

Definition pred_empty : pyval :=
  PDict [("img_id", PInt 2); ("bboxes", PList []); ("scores", PList []);
         ("labels", PList [])].

Definition pred_mismatch : pyval :=
  PDict [("img_id", PInt 2);
         ("bboxes", PList [PList [PFloat 0; PFloat 0; PFloat 1; PFloat 1]]);
         ("scores", PList []);
         ("labels", PList [PInt 0; PInt 1])].

Definition args (ms : list string) : InitArgs :=
  {| ann_file := "lvis_v1_val.json"; arg_metric := ms;
     arg_classwise := false; arg_proposal_nums := None;
     arg_metric_items := None; arg_format_only := false;
     arg_outfile_prefix := None |}.

(** The world right after construction (the constructor cannot fail on
    this backend). *)
Definition world_of (a : InitArgs) : World backend :=
  match __init__ backend true a ∅ (0, ∅) with
  | Ret w => w
  | Raise _ =>
      Build_World backend
        (Build_Self backend 1%positive lvis_v1 [] [] [] None false false
           None 300)
        ∅ (0, ∅) []
  end.

(** Worlds used in the examples: an evaluator of bbox and proposal that
    has accumulated a prediction without detections, one that has
    accumulated a prediction with detections, one that reports per
    category, and one in format-only mode. *)
Definition accumulated : World backend :=
  snd (add backend [pred_empty] (world_of (args ["bbox"; "proposal"]))).

Definition classwise_args : InitArgs :=
  {| ann_file := "lvis_v1_val.json"; arg_metric := ["bbox"];
     arg_classwise := true; arg_proposal_nums := Some 100%Z;
     arg_metric_items := None; arg_format_only := false;
     arg_outfile_prefix := Some "out/results" |}.

Definition classwise_world : World backend :=
  snd (add backend [pred1] (world_of classwise_args)).

Definition scored : World backend :=
  snd (add backend [pred1] (world_of (args ["bbox"; "proposal"]))).

(** An evaluator of bbox and proposal with 100 proposals. *)
Definition proposal_args : InitArgs :=
  {| ann_file := "lvis_v1_val.json"; arg_metric := ["bbox"; "proposal"];
     arg_classwise := false; arg_proposal_nums := Some 100%Z;
     arg_metric_items := None; arg_format_only := false;
     arg_outfile_prefix := None |}.

Definition proposal_world : World backend :=
  snd (add backend [pred1] (world_of proposal_args)).

Definition format_only_args : InitArgs :=
  {| ann_file := "lvis_v1_val.json"; arg_metric := ["bbox"];
     arg_classwise := false; arg_proposal_nums := None;
     arg_metric_items := None; arg_format_only := true;
     arg_outfile_prefix := Some "out/results" |}.

Definition format_only_world : World backend :=
  snd (add backend [pred1] (world_of format_only_args)).

(** An evaluator whose [format_only] attribute was set after it was made:
    the constructor gives no evaluator in format-only mode without a
    prefix. *)
Definition set_format_only (b : bool) (s : Self backend) : Self backend :=
  {| _results := _results s; _lvis_api := _lvis_api s; cat_ids := cat_ids s;
     img_ids := img_ids s; metrics := metrics s;
     metric_items := metric_items s; classwise := classwise s;
     format_only := b; outfile_prefix := outfile_prefix s;
     proposal_nums := proposal_nums s |}.

Definition format_only_forced : World backend :=
  with_self (set_format_only true) scored.

(** The detections the engine loads for [pred1]. *)
Definition dets1 : list pyval :=
  [PDict [("image_id", PInt 1);
          ("bbox", PList [PFloat 0; PFloat 0; PFloat 1; PFloat 1]);
          ("score", PFloat 0.75); ("category_id", PInt 7)];
   PDict [("image_id", PInt 1);
          ("bbox", PList [PFloat 0; PFloat 0; PFloat 2; PFloat 2]);
          ("score", PFloat 0.5); ("category_id", PInt 9)]].

(** The classwise evaluator once its category and image ids are set. *)
Definition classwise_ready : World backend :=
  with_self (λ s, set_img_ids [1; 2]%Z (set_cat_ids [7; 9]%Z s))
    classwise_world.

(** Result files of which the one for segm holds detections and the one
    for bbox and proposal holds none, and a world that has them on disk. *)
Definition mixed_files : gmap string string :=
  <["segm" := "out.segm.json"]>
    (<["bbox" := "out.bbox.json"]> (<["proposal" := "out.bbox.json"]> ∅)).

Definition mixed_disk : fsys :=
  (0, <["out.segm.json" := dets1]> (<["out.bbox.json" := []]> ∅)).

Definition mixed_dump : World backend :=
  @with_files backend mixed_disk accumulated.

(** An evaluator that has accumulated nothing yet. *)
Definition new_world : World backend := world_of (args ["bbox"; "proposal"]).

(** An evaluator of segm that has accumulated a prediction without masks:
    the conversion writes no segm file. *)
Definition segm_world : World backend :=
  snd (add backend [pred1] (world_of (args ["segm"]))).

(** An evaluator whose allow-list names an item the engine does not
    report. *)
Definition items_args : InitArgs :=
  {| ann_file := "lvis_v1_val.json"; arg_metric := ["bbox"; "proposal"];
     arg_classwise := false; arg_proposal_nums := None;
     arg_metric_items := Some ["mAP"]; arg_format_only := false;
     arg_outfile_prefix := None |}.

Definition items_world : World backend :=
  snd (add backend [pred1] (world_of items_args)).

(** The engine object the backend makes, and its precision array. *)
Definition eval0 : LVISEval nat :=
  {| params_imgIds := []; params_max_dets := 300; internals := 2 |}.

Definition precisions0 : ndarray4 :=
  {| shape4 := (2, 2, 2, 1); at4 := λ t r c a, samples t r c |}.

(** A precision array whose second category has only NaN and -1. *)
Definition sparse_precisions : ndarray4 :=
  {| shape4 := (2, 2, 2, 1);
     at4 := λ t r c a,
       match c with
       | O => 0.5%float
       | _ => if bool_decide (t = r) then nan else (-1)%float
       end |}.

End Demo.


(** * Notions used in the statements *)

Section Notions.
Context (B : Backend).

(** Two worlds that differ by their trace only. *)
Definition same_but_trace (w w' : World B) : Prop :=
  self w' = self w ∧ heap w' = heap w ∧ files w' = files w.

(** What the engine loads for [metric] from the files named by
    [result_files]. *)
Definition loaded (lvis_gt : LVIS B) (result_files : gmap string string)
    (fs : FS B) (metric : string) : outcome (LVISResults B) :=
  path ← getitem result_files metric;
  LVISResults_new B lvis_gt path fs.

(** The attributes after the lazy initialisation of [cat_ids] and
    [img_ids]. *)
Definition lazy_init (s : Self B) : Self B :=
  let s1 :=
    if bool_decide (length (cat_ids s) = 0)
    then set_cat_ids (get_cat_ids B (_lvis_api s)) s else s in
  if bool_decide (length (img_ids s) = 0)
  then set_img_ids (get_img_ids B (_lvis_api s)) s1 else s1.

(** The temporary directory (if one is made), the prefix of the result
    files and the file system once the prefix is chosen. *)
Definition choose_prefix (w : World B) : option string * string * FS B :=
  match outfile_prefix (self w) with
  | None =>
      let '(name, fs) := TemporaryDirectory B (files w) in
      (Some name, osp_join B name "results", fs)
  | Some p => (None, p, files w)
  end.

(** The world in which the loop over the metrics starts. *)
Definition after_dump (w : World B) (l : loc) : outcome (gmap string string) * World B :=
  let '(tmp_dir, prefix, fs1) := choose_prefix w in
  let s1 := lazy_init (self w) in
  let '(o, fs2) :=
    results2json B (cat_ids s1) (default [] (heap w !! l)) prefix fs1 in
  (o, {| self := s1; heap := heap w; files := fs2;
         trace := trace w ++ from_option (λ d, [TmpDirCreated d]) [] tmp_dir
                    ++ [Results2Json prefix] |}).

(** What the engine loads after a dump does not depend on where the dump
    was written, nor on what the file system held before. *)
Definition dump_load_stable : Prop :=
  ∀ gt cats rs prefix fs prefix' fs',
    match results2json B cats rs prefix fs,
          results2json B cats rs prefix' fs' with
    | (Ret rf, fs1), (Ret rf', fs1') =>
        ∀ m, loaded gt rf fs1 m = loaded gt rf' fs1' m
    | (Raise e, _), (Raise e', _) => e = e'
    | _, _ => False
    end.

(** The attributes other than the reference to the accumulated list. *)
Definition attrs (s : Self B) :=
  (_lvis_api s, cat_ids s, img_ids s, metrics s, metric_items s,
   classwise s, format_only s, outfile_prefix s, proposal_nums s).

(** The records [add] appends before it meets one that is not a dict, and
    whether it meets one. *)
Fixpoint leading_dicts (predictions : list pyval) : list pyval :=
  match predictions with
  | [] => []
  | p :: rest => if is_dict p then p :: leading_dicts rest else []
  end.

Fixpoint add_outcome (predictions : list pyval) : outcome unit :=
  match predictions with
  | [] => Ret tt
  | p :: rest =>
      if is_dict p then add_outcome rest
      else Raise (AssertionError (not_a_dict_msg p))
  end.

(** The world in which [__call__] runs [compute_metric]: a new list object
    holds the records that were added. *)
Definition one_off (w : World B) (predictions : list pyval) : World B :=
  let l := fresh (dom (heap w)) in
  with_self (set_results l)
    (with_heap (<[l := leading_dicts predictions]> (heap w)) w).

(** [__call__] puts the four cached attributes back. *)
Definition restore (s : Self B) (w : World B) : World B :=
  with_self (λ s2, set_img_ids (img_ids s)
                     (set_cat_ids (cat_ids s)
                        (set_lvis_api (_lvis_api s)
                           (set_results (_results s) s2)))) w.

(** [evaluate(); accumulate(); summarize()] as the engine computes it. *)
Definition engine_run (lvis_eval : LVISEval (EvalState B))
    : outcome (LVISEval (EvalState B)) :=
  lvis_eval ← evaluate B lvis_eval;
  lvis_eval ← accumulate B lvis_eval;
  summarize B lvis_eval.

(** The engine object on which [evaluate()] is called for [metric]. *)
Definition configured (s : Self B) (metric : string)
    (lvis_eval : LVISEval (EvalState B)) : LVISEval (EvalState B) :=
  let lvis_eval := set_imgIds (img_ids s) lvis_eval in
  if String.eqb metric "proposal"
  then set_max_dets (proposal_nums s) lvis_eval else lvis_eval.

(** The items of the engine's results that are on the allow-list, in the
    order the engine lists them. *)
Definition selected (metric_items : list string)
    (lvis_results : list (string * float)) : list (string * float) :=
  filter (λ kv, str_in kv.1 metric_items = true) lvis_results.

(** Assigning a list of entries, one after the other. *)
Definition od_update {V} (d : odict V) (entries : list (string * V))
    : odict V :=
  foldl (λ d kv, od_set d kv.1 kv.2) d entries.

(** The float entries of a bbox/segm metric, and the entries of the
    proposal metric. *)
Definition item_entries (metric : string) (sel : list (string * float))
    : list (string * value) :=
  map (λ kv, (metric +:+ "_" +:+ kv.1, VFloat (PyFloat kv.2))) sel.

Definition proposal_entries (sel : list (string * float))
    : list (string * value) :=
  map (λ kv, (kv.1, VFloat (round3 kv.2))) sel.

(** One row of the classwise report: the name of the category and its
    precision. *)
Definition category_row (api : LVIS B) (precisions : ndarray4) (idx : nat)
    (catId : Z) : outcome (string * pyfloat) :=
  nms ← load_cats B api [catId];
  nm ← match nms with [] => Raise IndexError | nm :: _ => Ret nm end;
  ap ← category_ap B precisions idx;
  Ret (cat_name nm, ap).

Fixpoint category_rows (api : LVIS B) (precisions : ndarray4) (idx : nat)
    (cats : list Z) : outcome (list (string * pyfloat)) :=
  match cats with
  | [] => Ret []
  | catId :: rest =>
      r ← category_row api precisions idx catId;
      rs ← category_rows api precisions (S idx) rest;
      Ret (r :: rs)
  end.

Definition classwise_list (rows : list (string * pyfloat))
    : list (string * string) :=
  map (λ r, (r.1, percent B r.2)) rows.

Definition classwise_entries (metric : string)
    (rows : list (string * pyfloat)) : list (string * value) :=
  map (λ r, (metric +:+ "_" +:+ r.1 +:+ "_precision", VFloat r.2)) rows.

(** The entries [eval_metric] writes for [metric], given the summarised
    engine object. *)
Definition report (s : Self B) (metric : string)
    (lvis_eval : LVISEval (EvalState B)) (eval_results : odict value)
    : outcome (odict value) :=
  if String.eqb metric "proposal" then
    Ret (collect_proposal
           (default (default_proposal_items (proposal_nums s))
              (metric_items s))
           (get_results B lvis_eval) eval_results)
  else
    let '(results_list, eval_results) :=
      collect_items B metric (default default_ap_items (metric_items s))
        (get_results B lvis_eval) [] eval_results in
    let eval_results :=
      od_set eval_results (metric +:+ "_result") (VStrList results_list) in
    if classwise s then
      precisions ← eval_precision B lvis_eval;
      if bool_decide (length (cat_ids s) = shape_2 precisions) then
        '(results_per_category, eval_results) ←
          classwise_loop B (_lvis_api s) metric precisions 0 (cat_ids s) []
            eval_results;
        Ret (od_set eval_results (metric +:+ "_classwise_result")
               (VPairList results_per_category))
      else Raise (AssertionError "")
    else Ret eval_results.

(** Whether the iteration of the loop for [metric] can assign [key]: a
    bbox/segm metric assigns keys that start with ['<metric>_'], the
    proposal metric assigns names of its allow-list. *)
Definition may_assign (s : Self B) (metric key : string) : bool :=
  if String.eqb metric "proposal" then
    str_in key
      (default (default_proposal_items (proposal_nums s)) (metric_items s))
  else String.prefix (metric +:+ "_") key.

Definition is_evaluate (e : event) : bool :=
  match e with Evaluate _ _ _ => true | _ => false end.

Definition is_cleanup (e : event) : bool :=
  match e with TmpDirCleanup _ => true | _ => false end.

(** The events of the loop over the metrics: log lines and evaluations. *)
Definition is_loop_event (e : event) : bool :=
  match e with
  | LogInfo _ | LogWarning _ | Evaluate _ _ _ => true
  | _ => false
  end.

Definition evaluating (metric : string) : event :=
  LogInfo ("Evaluating " +:+ metric +:+ "...").

(** The reading of the spec under which an empty result set skips one
    metric: every configured metric is started. *)
Definition every_metric_is_started (w : World B) (l : loc) : Prop :=
  ∀ m, m ∈ metrics (self w) →
       evaluating m ∈ trace (snd (compute_metric B l w)).

(** The reading of the spec under which [add] rejects invalid records one
    by one: it completes, and the dicts of the sequence are appended. *)
Definition skips_invalid_records (w : World B) (predictions : list pyval)
    : Prop :=
  ∃ w', add B predictions w = (Ret tt, w') ∧
        heap w' !! _results (self w') =
        Some (default [] (heap w !! _results (self w))
              ++ filter (λ p, is_dict p = true) predictions).

End Notions.

Arguments same_but_trace {B} _ _.

(** * Properties *)

Section Properties.
Context (B : Backend).

Implicit Types (w : World B) (l : loc) (predictions : list pyval).

(** ** Floats *)

Lemma digit_val_char d :
  (0 <= d < 10)%Z → digit_val (digit_char d) = Some d.
Proof.
  intros Hd.
  assert (d = 0 ∨ d = 1 ∨ d = 2 ∨ d = 3 ∨ d = 4 ∨ d = 5 ∨ d = 6 ∨ d = 7
          ∨ d = 8 ∨ d = 9)%Z as Hc by lia.
  destruct Hc as [->|[->|[->|[->|[->|[->|[->|[->|[->| ->]]]]]]]]]; reflexivity.
Qed.

Lemma read_fixed_digits n : ∀ v rest acc k,
  (0 <= v < 10 ^ Z.of_nat n)%Z →
  read_digits (fixed_digits n v rest) acc k =
  read_digits rest (acc * 10 ^ Z.of_nat n + v) (k + n).
Proof.
  induction n as [|n IH]; intros v rest acc k Hv.
  - simpl in *. assert (v = 0)%Z as -> by lia.
    f_equal; [lia|lia].
  - cbn [fixed_digits]. rewrite Nat2Z.inj_succ, Z.pow_succ_r in Hv by lia.
    rewrite IH by (split; [apply Z.div_pos; lia|apply Z.div_lt_upper_bound; lia]).
    cbn [read_digits]. rewrite digit_val_char by (apply Z.mod_pos_bound; lia).
    f_equal; [|lia].
    rewrite Nat2Z.inj_succ, Z.pow_succ_r by lia.
    pose proof (Z.div_mod v 10 ltac:(lia)). lia.
Qed.

Lemma count_digits_bound fuel : ∀ v,
  (0 <= v < 10 * 2 ^ Z.of_nat fuel)%Z →
  (v < 10 ^ Z.of_nat (count_digits fuel v))%Z ∧ count_digits fuel v ≠ 0.
Proof.
  induction fuel as [|f IH]; intros v Hv.
  - simpl in *. lia.
  - cbn [count_digits]. destruct (Z.ltb_spec v 10); [simpl; lia|].
    rewrite Nat2Z.inj_succ, Z.pow_succ_r in Hv by lia.
    destruct (IH (v / 10)%Z) as [Hb _].
    { split; [apply Z.div_pos; lia|].
      apply Z.div_lt_upper_bound; [lia|].
      assert (0 < 2 ^ Z.of_nat f)%Z by (apply Z.pow_pos_nonneg; lia). lia. }
    split; [|done]. rewrite Nat2Z.inj_succ, Z.pow_succ_r by lia.
    pose proof (Z.div_mod v 10 ltac:(lia)).
    pose proof (Z.mod_pos_bound v 10 ltac:(lia)). lia.
Qed.


Lemma fixed_digits_app n : ∀ v acc rest,
  fixed_digits n v acc +:+ rest = fixed_digits n v (acc +:+ rest).
Proof. induction n as [|n IH]; intros v acc rest; [done|]. apply IH. Qed.

Lemma fixed_digits_head n : ∀ v c acc,
  is_Some (digit_val c) →
  ∃ c' r, fixed_digits n v (String c acc) = String c' r ∧
          is_Some (digit_val c').
Proof.
  induction n as [|n IH]; intros v c acc Hc; [by exists c, acc|].
  cbn [fixed_digits]. apply IH.
  rewrite digit_val_char by (apply Z.mod_pos_bound; lia). by eexists.
Qed.

Lemma decimal_bound v :
  (0 <= v)%Z →
  (v < 10 ^ Z.of_nat (count_digits (Z.to_nat (Z.log2 v)) v))%Z ∧
  count_digits (Z.to_nat (Z.log2 v)) v ≠ 0.
Proof.
  intros Hv. apply count_digits_bound. split; [done|].
  rewrite Z2Nat.id by apply Z.log2_nonneg.
  destruct (Z.eq_dec v 0%Z) as [->|Hne]; [simpl; lia|].
  pose proof (Z.log2_spec v ltac:(lia)) as [_ Hlt].
  rewrite Z.pow_succ_r in Hlt by apply Z.log2_nonneg. lia.
Qed.

Lemma decimal_head v rest :
  (0 <= v)%Z →
  ∃ c r, decimal v +:+ rest = String c r ∧ is_Some (digit_val c).
Proof.
  intros Hv. unfold decimal. destruct (decimal_bound v Hv) as [_ Hn].
  destruct (count_digits _ v) as [|n]; [done|].
  rewrite fixed_digits_app. cbn [fixed_digits].
  apply fixed_digits_head.
  rewrite digit_val_char by (apply Z.mod_pos_bound; lia). by eexists.
Qed.

Lemma read_decimal v rest acc k :
  (0 <= v)%Z →
  ∃ n, n ≠ 0 ∧
       read_digits (decimal v +:+ rest) acc k =
       read_digits rest (acc * 10 ^ Z.of_nat n + v) (k + n).
Proof.
  intros Hv. destruct (decimal_bound v Hv) as [Hb Hn].
  exists (count_digits (Z.to_nat (Z.log2 v)) v). split; [done|].
  unfold decimal. rewrite fixed_digits_app. by apply read_fixed_digits.
Qed.

(** [float] reads back what fixed-point formatting prints. *)
Lemma py_float_fixed s i f n :
  (0 <= i)%Z → (0 <= f < 10 ^ Z.of_nat (S n))%Z →
  py_float (sign_str s +:+ decimal i +:+ "." +:+ fixed_digits (S n) f "")
  = Some (nearest_float s (i * 10 ^ Z.of_nat (S n) + f) (10 ^ Z.of_nat (S n))).
Proof.
  intros Hi Hf. unfold py_float.
  set (body := decimal i +:+ "." +:+ fixed_digits (S n) f "").
  assert ((let '(neg, s0) :=
             match sign_str s +:+ body with
             | String c s' =>
                 if Ascii.eqb c (Ascii.ascii_of_nat 45) then (true, s')
                 else if Ascii.eqb c (Ascii.ascii_of_nat 43) then (false, s')
                 else (false, sign_str s +:+ body)
             | EmptyString => (false, sign_str s +:+ body)
             end in (neg, s0)) = (s, body)) as Hsign.
  { destruct s; [done|]. change (sign_str false +:+ body) with body.
    destruct (decimal_head i ("." +:+ fixed_digits (S n) f "") Hi)
      as (c&r&Hc&Hd). fold body in Hc. rewrite Hc.
    destruct (Ascii.eqb_spec c (Ascii.ascii_of_nat 45)) as [->|_];
      [by destruct Hd|].
    destruct (Ascii.eqb_spec c (Ascii.ascii_of_nat 43)) as [->|_];
      [by destruct Hd|].
    done. }
  destruct (match sign_str s +:+ body with
            | String c s' => _ | EmptyString => _ end) as [neg s0].
  injection Hsign as -> ->. subst body.
  destruct (read_decimal i ("." +:+ fixed_digits (S n) f "") 0 0 Hi)
    as (ni&Hni&->).
  change ("." +:+ fixed_digits (S n) f "")
    with (String (Ascii.ascii_of_nat 46) (fixed_digits (S n) f "")).
  cbn [read_digits].
  change (digit_val (Ascii.ascii_of_nat 46)) with (@None Z). cbv iota.
  change (Ascii.eqb (Ascii.ascii_of_nat 46) (Ascii.ascii_of_nat 46)) with true.
  cbv iota.
  rewrite read_fixed_digits by done. cbn [read_digits].
  destruct ni as [|ni]; [done|]. cbn [Nat.add].
  by rewrite !Z.mul_0_l, !Z.add_0_l.
Qed.

Lemma round_half_even_nonneg n d :
  (0 <= n)%Z → (0 < d)%Z → (0 <= round_half_even n d)%Z.
Proof.
  intros Hn Hd. unfold round_half_even.
  pose proof (Z.div_pos n d Hn Hd).
  destruct (_ ?= _)%Z; [destruct (Z.even _)|..]; lia.
Qed.

Lemma ratio_of_pos m e :
  (0 <= (ratio_of m e).1)%Z ∧ (0 < (ratio_of m e).2)%Z.
Proof.
  unfold ratio_of. destruct (Z.leb_spec 0 e); simpl.
  - split; [|lia]. apply Z.mul_nonneg_nonneg; [lia|].
    apply Z.pow_nonneg. lia.
  - split; [lia|]. apply Z.pow_pos_nonneg; lia.
Qed.

(** [float(f'{v:.3f}')] is the double nearest to [v] rounded to three
    decimals, ties to even. *)
Lemma round3_spec v : round3 v = PyFloat (decimal_round v 3).
Proof.
  unfold round3, decimal_round, py_format_f. f_equal.
  destruct (Prim2SF v) as [s|s| |s m e] eqn:Hv.
  - rewrite <-(SF2Prim_Prim2SF v), Hv. by destruct s.
  - rewrite <-(SF2Prim_Prim2SF v), Hv. by destruct s.
  - by rewrite <-(SF2Prim_Prim2SF v), Hv.
  - destruct (ratio_of_pos m e) as [Hn Hd].
    destruct (ratio_of m e) as [num den]. simpl in Hn, Hd.
    set (N := round_half_even (num * 10 ^ Z.of_nat 3) den).
    assert (0 <= N)%Z as HN
      by (apply round_half_even_nonneg; [apply Z.mul_nonneg_nonneg|]; lia).
    rewrite py_float_fixed.
    + simpl. f_equal.
      pose proof (Z.div_mod N 1000 ltac:(lia)).
      change (10 ^ Z.of_nat 3)%Z with 1000%Z. lia.
    + apply Z.div_pos; [done|]. by apply Z.pow_pos_nonneg.
    + apply Z.mod_pos_bound. by apply Z.pow_pos_nonneg.
Qed.

(** ** Reasoning about the monad *)

Ltac munfold :=
  unfold mbind, mret, M_bind, M_ret, raise, get_self, modify, lift,
    log_info, log_warning, try, when, read_list, list_append, new_list,
    outcome_bind, outcome_ret in *.

Lemma bind_run {A A'} (m : M B A) (f : A → M B A') w :
  (m ≫= f) w =
  match m w with
  | (Ret a, w') => f a w'
  | (Raise e, w') => (Raise e, w')
  end.
Proof. reflexivity. Qed.

Lemma with_heap_id w : with_heap (heap w) w = w.
Proof. by destruct w. Qed.

Lemma with_heap_twice h h' w : with_heap h (with_heap h' w) = with_heap h w.
Proof. reflexivity. Qed.

(** ** Accumulating predictions *)

Lemma add_run predictions : ∀ w old,
  heap w !! _results (self w) = Some old →
  add B predictions w =
  (add_outcome predictions,
   with_heap (<[_results (self w) := old ++ leading_dicts predictions]>
                (heap w)) w).
Proof.
  induction predictions as [|p rest IH]; intros w old Hl; simpl.
  - munfold. by rewrite app_nil_r, insert_id, with_heap_id.
  - destruct (is_dict p).
    + munfold. simpl. rewrite Hl. simpl.
      erewrite IH; [|simpl; apply lookup_insert_eq].
      simpl. unfold with_heap at 1. simpl.
      by rewrite insert_insert_eq, <-app_assoc.
    + munfold. by rewrite app_nil_r, insert_id, with_heap_id.
Qed.

Lemma leading_dicts_all predictions :
  Forall (λ p, is_dict p = true) predictions →
  leading_dicts predictions = predictions ∧
  add_outcome predictions = Ret tt.
Proof.
  induction 1 as [|p rest Hp _ [IH1 IH2]]; [done|].
  simpl. rewrite Hp. by rewrite IH1.
Qed.

Lemma leading_dicts_stop predictions bad rest :
  Forall (λ p, is_dict p = true) predictions →
  is_dict bad = false →
  leading_dicts (predictions ++ bad :: rest) = predictions ∧
  add_outcome (predictions ++ bad :: rest)
  = Raise (AssertionError (not_a_dict_msg bad)).
Proof.
  intros Hd Hbad.
  induction Hd as [|p pre Hp _ [IH1 IH2]]; simpl.
  - by rewrite Hbad.
  - rewrite Hp. by rewrite IH1.
Qed.

#[local] Instance same_but_trace_preorder : PreOrder (@same_but_trace B).
Proof.
  split.
  - by intros w.
  - intros w1 w2 w3 (?&?&?) (?&?&?). unfold same_but_trace.
    by repeat split; etrans.
Qed.

(** The world after [eval_metric] differs from the one before by its
    trace only, and its outcome is a function of the object's attributes. *)
Lemma run_eval_same iou ev w :
  same_but_trace w (snd (run_eval B iou ev w)).
Proof.
  unfold run_eval. munfold. simpl. by repeat case_match; simplify_eq/=.
Qed.

Lemma run_eval_outcome iou ev w w' :
  fst (run_eval B iou ev w) = fst (run_eval B iou ev w').
Proof.
  unfold run_eval. munfold. simpl. by repeat case_match; simplify_eq/=.
Qed.

Lemma eval_metric_same gt dt metric er w :
  same_but_trace w (snd (eval_metric B gt dt metric er w)).
Proof.
  unfold eval_metric, run_eval. munfold. simpl.
  by repeat (case_match; simplify_eq/=).
Qed.

Lemma eval_metric_outcome gt dt metric er w w' :
  attrs B (self w) = attrs B (self w') →
  fst (eval_metric B gt dt metric er w) = fst (eval_metric B gt dt metric er w').
Proof.
  destruct w as [[] ? ? ?], w' as [[] ? ? ?]. unfold attrs. simpl.
  intros Hs. simplify_eq. unfold eval_metric, run_eval. munfold. simpl.
  repeat (case_match; simplify_eq/=); done.
Qed.

Lemma new_LVISResults_run gt rf metric w :
  new_LVISResults B gt rf metric w = (loaded B gt rf (files w) metric, w).
Proof.
  unfold new_LVISResults, loaded, load_results. munfold.
  by destruct (getitem rf metric).
Qed.

Lemma metrics_loop_cons gt rf m ms er w :
  metrics_loop B gt rf (m :: ms) er w =
  let w1 := emit (LogInfo ("Evaluating " +:+ m +:+ "...")) w in
  match loaded B gt rf (files w) m with
  | Ret dt =>
      match eval_metric B gt dt m er w1 with
      | (Ret er', w2) => metrics_loop B gt rf ms er' w2
      | (Raise e, w2) => (Raise e, w2)
      end
  | Raise IndexError => (Ret er, emit (LogWarning empty_msg) w1)
  | Raise e => (Raise e, w1)
  end.
Proof.
  simpl. rewrite !bind_run. unfold log_info at 1, modify at 1.
  rewrite bind_run. unfold try. rewrite new_LVISResults_run. simpl.
  destruct (loaded _ _ _ _ _) as [dt|e]; simpl; [done|].
  by destruct e.
Qed.

Lemma metrics_loop_same gt rf ms : ∀ er w,
  same_but_trace w (snd (metrics_loop B gt rf ms er w)).
Proof.
  induction ms as [|m ms IH]; intros er w; [done|].
  rewrite metrics_loop_cons. simpl.
  destruct (loaded _ _ _ _ _) as [dt|e]; simpl.
  - pose proof (eval_metric_same gt dt m er
                  (emit (LogInfo ("Evaluating " +:+ m +:+ "...")) w)) as Hs.
    destruct (eval_metric _ _ _ _ _ _) as [[er'|e] w1]; simpl in *.
    + etrans; [|apply IH]. etrans; [|apply Hs]. done.
    + etrans; [|apply Hs]. done.
  - by destruct e.
Qed.

Lemma metrics_loop_outcome gt rf rf' ms : ∀ er w w',
  attrs B (self w) = attrs B (self w') →
  (∀ m, loaded B gt rf (files w) m = loaded B gt rf' (files w') m) →
  fst (metrics_loop B gt rf ms er w) = fst (metrics_loop B gt rf' ms er w').
Proof.
  induction ms as [|m ms IH]; intros er w w' Hs Hl; [done|].
  rewrite !metrics_loop_cons. simpl. rewrite Hl.
  destruct (loaded _ _ _ _ _) as [dt|e]; simpl.
  - set (w1 := emit _ w). set (w1' := emit _ w').
    pose proof (eval_metric_same gt dt m er w1) as (Hs1&_&Hf1).
    pose proof (eval_metric_same gt dt m er w1') as (Hs1'&_&Hf1').
    pose proof (eval_metric_outcome gt dt m er w1 w1' Hs) as Ho.
    destruct (eval_metric _ _ _ _ _ w1) as [o1 w2].
    destruct (eval_metric _ _ _ _ _ w1') as [o1' w2']. simpl in *. subst o1'.
    destruct o1 as [er'|e]; [|done].
    apply IH; [congruence|]. intros m'. rewrite Hf1, Hf1'. apply Hl.
  - by destruct e.
Qed.

(** [compute_metric], step by step. *)
Lemma compute_metric_run l w :
  compute_metric B l w =
  let '(tmp_dir, prefix, _) := choose_prefix B w in
  match after_dump B w l with
  | (Raise e, w2) => (Raise e, w2)
  | (Ret rf, w2) =>
      if format_only (self w2) then
        let w3 := emit (LogInfo ("results are saved in "
                                  +:+ osp_dirname B prefix)) w2 in
        (Ret [],
         match tmp_dir with
         | Some d => with_files (cleanup B d (files w3)) w3
         | None => w3
         end)
      else
        match metrics_loop B (_lvis_api (self w2)) rf (metrics (self w2)) [] w2 with
        | (Ret er, w3) =>
            (Ret er,
             match tmp_dir with
             | Some d =>
                 emit (TmpDirCleanup d) (with_files (cleanup B d (files w3)) w3)
             | None => w3
             end)
        | (Raise e, w3) => (Raise e, w3)
        end
  end.
Proof.
  unfold compute_metric, after_dump, choose_prefix, lazy_init,
    call_results2json, dump_results, new_TemporaryDirectory, tmp_cleanup,
    drop_local.
  munfold. destruct w as [s h fs t]. simpl.
  destruct (outfile_prefix s) as [p|] eqn:Hp; simpl;
    [|destruct (TemporaryDirectory B fs) as [name fs1] eqn:Ht; simpl];
    destruct (bool_decide (length (cat_ids s) = 0));
    destruct (bool_decide (length (img_ids s) = 0)); simpl;
    (destruct (results2json B _ _ _ _) as [[rf|e] fs2]; simpl).
  all: try done.
  all: (destruct (format_only s); simpl).
  all: unfold emit, with_files, with_self; simpl;
    rewrite <-?app_assoc; simpl.
  all: try done.
  all: by destruct (metrics_loop _ _ _ _ _ _) as [[er|e] w3].
Qed.

Lemma after_dump_frame l w :
  self (snd (after_dump B w l)) = lazy_init B (self w) ∧
  heap (snd (after_dump B w l)) = heap w.
Proof.
  unfold after_dump. destruct (choose_prefix B w) as [[tmp prefix] fs1].
  by destruct (results2json B _ _ _ _) as [o fs2].
Qed.

(** [compute_metric] leaves the heap alone, and changes the attributes by
    the lazy initialisation only. *)
Lemma compute_metric_frame l w :
  self (snd (compute_metric B l w)) = lazy_init B (self w) ∧
  heap (snd (compute_metric B l w)) = heap w.
Proof.
  rewrite compute_metric_run.
  destruct (after_dump_frame l w) as [Hs Hh].
  destruct (choose_prefix B w) as [[tmp prefix] fs1].
  destruct (after_dump B w l) as [[rf|e] w2]; simpl in *; [|done].
  destruct (format_only (self w2)); [by destruct tmp|].
  pose proof (metrics_loop_same (_lvis_api (self w2)) rf (metrics (self w2))
                [] w2) as (Hs3&Hh3&_).
  destruct (metrics_loop _ _ _ _ _ _) as [[er|e] w3]; simpl in *.
  - destruct tmp; simpl; split; congruence.
  - split; congruence.
Qed.

Lemma lazy_init_attrs s s' :
  attrs B s = attrs B s' → attrs B (lazy_init B s) = attrs B (lazy_init B s').
Proof.
  destruct s, s'. unfold attrs, lazy_init. simpl. intros ?. simplify_eq.
  by repeat case_bool_decide.
Qed.

Lemma lazy_init_idemp s : lazy_init B (lazy_init B s) = lazy_init B s.
Proof.
  destruct s. unfold lazy_init. simpl.
  repeat (case_bool_decide; simpl in * ); try done; congruence.
Qed.

Lemma lazy_init_results s : _results (lazy_init B s) = _results s.
Proof. unfold lazy_init. by repeat case_bool_decide. Qed.

Lemma attrs_set_results l s : attrs B (set_results l s) = attrs B s.
Proof. done. Qed.

(** The outcome of [compute_metric] is a function of the records in the
    list it is given and of the attributes. *)
Lemma compute_metric_det l l' w w' :
  dump_load_stable B →
  default [] (heap w !! l) = default [] (heap w' !! l') →
  attrs B (lazy_init B (self w)) = attrs B (lazy_init B (self w')) →
  fst (compute_metric B l w) = fst (compute_metric B l' w').
Proof.
  intros Hstable Hrs Hattrs. rewrite !compute_metric_run.
  unfold after_dump. rewrite <-Hrs.
  assert (cat_ids (lazy_init B (self w)) = cat_ids (lazy_init B (self w')))
    as <- by (unfold attrs in Hattrs; by simplify_eq).
  assert (format_only (lazy_init B (self w))
          = format_only (lazy_init B (self w')))
    as Hfo by (unfold attrs in Hattrs; by simplify_eq).
  assert (_lvis_api (lazy_init B (self w))
          = _lvis_api (lazy_init B (self w')))
    as Hapi by (unfold attrs in Hattrs; by simplify_eq).
  assert (metrics (lazy_init B (self w)) = metrics (lazy_init B (self w')))
    as Hms by (unfold attrs in Hattrs; by simplify_eq).
  set (rs := default [] (heap w !! l)).
  set (cats := cat_ids (lazy_init B (self w))).
  destruct (choose_prefix B w) as [[tmp p] fs1],
           (choose_prefix B w') as [[tmp' p'] fs1'].
  pose proof (Hstable (_lvis_api (lazy_init B (self w))) cats rs p fs1 p' fs1')
    as Hst.
  destruct (results2json B cats rs p fs1) as [[rf|e] fs2],
           (results2json B cats rs p' fs1') as [[rf'|e'] fs2'];
    simpl in *; try done; [|by subst].
  rewrite <-Hfo. destruct (format_only _); [done|].
  rewrite <-Hapi, <-Hms.
  match goal with
  | |- fst (match metrics_loop B ?g rf ?ms [] ?w2 with _ => _ end) =
       fst (match metrics_loop B _ rf' _ [] ?w2' with _ => _ end) =>
      pose proof (metrics_loop_outcome g rf rf' ms [] w2 w2' Hattrs Hst) as Hml;
      destruct (metrics_loop B g rf ms [] w2) as [[?|?] ?],
               (metrics_loop B g rf' ms [] w2') as [[?|?] ?]
  end; simpl in *; done.
Qed.

(** [compute_metric] reads the heap at the list it is given, and nowhere
    else. *)
Lemma compute_metric_heap l l' w h' :
  default [] (heap w !! l) = default [] (h' !! l') →
  fst (compute_metric B l w) = fst (compute_metric B l' (with_heap h' w)).
Proof.
  intros Hrs. rewrite !compute_metric_run.
  unfold after_dump, choose_prefix. simpl. rewrite <-Hrs.
  destruct (match outfile_prefix (self w) with
            | Some p => (None, p, files w)
            | None => let '(name, fs) := TemporaryDirectory B (files w) in
                      (Some name, osp_join B name "results", fs)
            end) as [[tmp p] fs1].
  destruct (results2json B _ _ _ _) as [[rf|e] fs2]; simpl; [|done].
  destruct (format_only _); [done|].
  match goal with
  | |- fst (match metrics_loop B ?g rf ?ms [] ?w2 with _ => _ end) =
       fst (match metrics_loop B _ rf _ [] ?w2' with _ => _ end) =>
      pose proof (metrics_loop_outcome g rf rf ms [] w2 w2' eq_refl
                    (λ _, eq_refl)) as Hml;
      destruct (metrics_loop B g rf ms [] w2) as [[?|?] ?],
               (metrics_loop B g rf ms [] w2') as [[?|?] ?]
  end; simpl in *; done.
Qed.

(** [__call__], step by step. *)
Lemma call_run predictions w :
  __call__ B predictions w =
  let w1 := one_off B w predictions in
  match add_outcome predictions with
  | Raise e => (Raise e, w1)
  | Ret _ =>
      match compute_metric B (fresh (dom (heap w))) w1 with
      | (Ret r, w2) => (Ret r, restore B (self w) w2)
      | (Raise e, w2) => (Raise e, w2)
      end
  end.
Proof.
  unfold __call__, one_off. rewrite bind_run. unfold get_self at 1.
  rewrite bind_run. unfold new_list at 1. rewrite bind_run.
  unfold modify at 1. rewrite bind_run.
  erewrite add_run; [|simpl; apply lookup_insert_eq]. simpl.
  rewrite insert_insert_eq. unfold with_heap, with_self. simpl.
  destruct (add_outcome predictions) as [[]|e]; [|done].
  rewrite bind_run. unfold get_self at 1. simpl. rewrite bind_run.
  destruct (compute_metric B _ _) as [[r|e] w2]; [|done].
  done.
Qed.

Lemma restore_lazy_init s l w2 :
  self w2 = lazy_init B (set_results l s) →
  self (restore B s w2) = s.
Proof.
  intros Hs. unfold restore, with_self. simpl. rewrite Hs.
  destruct s. unfold lazy_init. simpl. by repeat case_bool_decide.
Qed.

Lemma add_outcome_Ret predictions :
  add_outcome predictions = Ret tt →
  Forall (λ p, is_dict p = true) predictions.
Proof.
  induction predictions as [|p rest IH]; simpl; [done|].
  destruct (is_dict p) eqn:Hp; [|done]. intros ?. constructor; auto.
Qed.

(** ** The stateless call *)

(** C1: when [__call__] returns, the attributes of the object
    ([_results], [_lvis_api], [cat_ids], [img_ids] and the others) are what
    they were before the call, the accumulated list object and every other
    list object that existed still hold the same records, and the metrics
    returned are those [compute_metric] computes from a list that holds the
    passed-in predictions and nothing else. *)
Theorem call_is_stateless w predictions old r w' :
  heap w !! _results (self w) = Some old →
  __call__ B predictions w = (Ret r, w') →
  self w' = self w ∧
  heap w' !! _results (self w') = Some old ∧
  (∀ l, is_Some (heap w !! l) → heap w' !! l = heap w !! l) ∧
  Forall (λ p, is_dict p = true) predictions ∧
  let l := fresh (dom (heap w)) in
  fst (compute_metric B l
         (with_self (set_results l) (with_heap {[l := predictions]} w)))
  = Ret r.
Proof.
  intros Hold Hcall. rewrite call_run in Hcall. simpl in Hcall.
  destruct (add_outcome predictions) as [[]|e] eqn:Hadd; [|done].
  pose proof (add_outcome_Ret _ Hadd) as Hdicts.
  destruct (leading_dicts_all _ Hdicts) as [Hlead _].
  set (l := fresh (dom (heap w))) in *.
  pose proof (compute_metric_frame l (one_off B w predictions)) as [Hs Hh].
  destruct (compute_metric B l (one_off B w predictions)) as [[r'|e] w2] eqn:Hcm;
    simplify_eq/=.
  assert (∀ l', is_Some (heap w !! l') → l ≠ l') as Hfresh.
  { intros l' Hl' <-. apply elem_of_dom in Hl'. by apply is_fresh in Hl'. }
  assert (self (restore B (self w) w2) = self w) as Hself
    by (by eapply restore_lazy_init).
  split_and!.
  - done.
  - simpl. rewrite Hh, Hlead.
    rewrite lookup_insert_ne; [done|]. apply Hfresh. by rewrite Hold.
  - intros l' Hl'. rewrite Hh, Hlead. rewrite lookup_insert_ne; [done|].
    by apply Hfresh.
  - done.
  - transitivity (fst (compute_metric B l (one_off B w predictions)));
      [|by rewrite Hcm].
    symmetry.
    refine (compute_metric_heap l l (one_off B w predictions)
              {[l := predictions]} _).
    unfold one_off; simpl; fold l.
    by rewrite lookup_insert_eq, lookup_singleton_eq, Hlead.
Qed.

(** ** Determinism *)

Lemma lazy_init_set_results l s :
  lazy_init B (set_results l s) = set_results l (lazy_init B s).
Proof. unfold lazy_init. simpl. by repeat case_bool_decide. Qed.

Lemma call_outcome predictions w w' :
  dump_load_stable B →
  attrs B (lazy_init B (self w)) = attrs B (lazy_init B (self w')) →
  fst (__call__ B predictions w) = fst (__call__ B predictions w').
Proof.
  intros Hstable Hattrs. rewrite !call_run. simpl.
  destruct (add_outcome predictions) as [[]|e]; [|done].
  pose proof (compute_metric_det (fresh (dom (heap w))) (fresh (dom (heap w')))
                (one_off B w predictions) (one_off B w' predictions) Hstable)
    as Hdet.
  destruct (compute_metric B _ (one_off B w predictions)) as [[r|e] w2],
           (compute_metric B _ (one_off B w' predictions)) as [[r'|e'] w2'];
    simpl in *; apply Hdet; unfold one_off; simpl;
    rewrite ?lookup_insert_eq; try done;
    by rewrite !lazy_init_set_results, !attrs_set_results.
Qed.

(** Whatever the outcome of [__call__], the attributes it leaves behind
    initialise to the same values as those it found. *)
Lemma call_attrs predictions w :
  attrs B (lazy_init B (self (snd (__call__ B predictions w))))
  = attrs B (lazy_init B (self w)).
Proof.
  rewrite call_run. simpl.
  destruct (add_outcome predictions) as [[]|e].
  - pose proof (compute_metric_frame (fresh (dom (heap w)))
                  (one_off B w predictions)) as [Hs _].
    destruct (compute_metric B _ _) as [[r|e] w2]; cbn [fst snd] in *.
    + by rewrite (restore_lazy_init (self w) _ w2 Hs).
    + rewrite Hs. unfold one_off. simpl.
      by rewrite lazy_init_idemp, lazy_init_set_results, attrs_set_results.
  - unfold one_off. simpl.
    by rewrite lazy_init_set_results, attrs_set_results.
Qed.

(** C2: for fixed predictions and a fixed ground-truth index, two
    evaluation runs give the same outcome: two runs of [compute_metric] (or
    of [__call__]) in worlds that agree on the predictions and on the
    attributes, two calls of [compute_metric] in a row, and two stateless
    calls in a row with the same predictions. *)
Theorem evaluation_is_deterministic l l' w w' predictions :
  dump_load_stable B →
  (default [] (heap w !! l) = default [] (heap w' !! l') →
   attrs B (self w) = attrs B (self w') →
   fst (compute_metric B l w) = fst (compute_metric B l' w')) ∧
  (attrs B (self w) = attrs B (self w') →
   fst (__call__ B predictions w) = fst (__call__ B predictions w')) ∧
  fst (compute_metric B l (snd (compute_metric B l w)))
  = fst (compute_metric B l w) ∧
  fst (__call__ B predictions (snd (__call__ B predictions w)))
  = fst (__call__ B predictions w).
Proof.
  intros Hstable. split_and!.
  - intros Hrs Hattrs. apply compute_metric_det; [done..|].
    by apply lazy_init_attrs.
  - intros Hattrs. apply call_outcome; [done|]. by apply lazy_init_attrs.
  - destruct (compute_metric_frame l w) as [Hs Hh].
    apply compute_metric_det; [done| |].
    + by rewrite Hh.
    + by rewrite Hs, lazy_init_idemp.
  - apply call_outcome; [done|]. apply call_attrs.
Qed.

(** ** Format-only mode *)

Lemma lazy_init_format_only s :
  format_only (lazy_init B s) = format_only s.
Proof. unfold lazy_init. by repeat case_bool_decide. Qed.

(** C3: in format-only mode [compute_metric] converts the results with
    [results2json] and, when the conversion returns, returns the empty
    dictionary; besides the conversion it only makes the temporary
    directory (when no prefix is configured) and logs where the files are:
    the engine is never asked to evaluate. *)
Theorem format_only_computes_no_metric l w :
  format_only (self w) = true →
  let '(tmp_dir, prefix, fs1) := choose_prefix B w in
  let '(o, fs2) :=
    results2json B (cat_ids (lazy_init B (self w)))
      (default [] (heap w !! l)) prefix fs1 in
  let new := drop (length (trace w)) (trace (snd (compute_metric B l w))) in
  fst (compute_metric B l w) = (o ≫= λ _, Ret []) ∧
  new = from_option (λ d, [TmpDirCreated d]) [] tmp_dir
        ++ [Results2Json prefix]
        ++ (if is_Ret o
            then [LogInfo ("results are saved in " +:+ osp_dirname B prefix)]
            else []) ∧
  Forall (λ e, is_evaluate e = false) new.
Proof.
  intros Hfo. rewrite compute_metric_run. unfold after_dump.
  destruct (choose_prefix B w) as [[tmp prefix] fs1].
  destruct (results2json B _ _ _ _) as [[rf|e] fs2]; simpl.
  - rewrite lazy_init_format_only, Hfo.
    destruct tmp; simpl; rewrite <-!app_assoc, drop_app_length;
      (split_and!; [done..|]); by repeat constructor.
  - rewrite drop_app_length.
    split_and!; [done|done|].
    destruct tmp; simpl; by repeat constructor.
Qed.

(** ** Empty results *)

Lemma metrics_loop_app gt rf pre post : ∀ er w,
  Forall (λ m, loaded B gt rf (files w) m ≠ Raise IndexError) pre →
  metrics_loop B gt rf (pre ++ post) er w =
  match metrics_loop B gt rf pre er w with
  | (Ret er1, w1) => metrics_loop B gt rf post er1 w1
  | (Raise e, w1) => (Raise e, w1)
  end.
Proof.
  induction pre as [|m pre IH]; intros er w Hpre; [done|].
  apply Forall_cons in Hpre as [Hm Hpre].
  rewrite <-app_comm_cons, !metrics_loop_cons. simpl.
  destruct (loaded B gt rf (files w) m) as [dt|e]; simpl.
  - pose proof (eval_metric_same gt dt m er
                  (emit (LogInfo ("Evaluating " +:+ m +:+ "...")) w))
      as (_&_&Hf).
    destruct (eval_metric _ _ _ _ _ _) as [[er'|e] w2]; [|done].
    apply IH. simpl in Hf. by rewrite Hf.
  - by destruct e.
Qed.

(** C4 (as the code has it): when the engine finds the results of a metric
    empty, a warning is logged and the loop over the metrics ends there:
    the entries of the metrics before it are returned and none of the
    metrics after it is started. *)
Theorem empty_results_end_the_loop gt rf pre m post er w er1 w1 :
  Forall (λ m, loaded B gt rf (files w) m ≠ Raise IndexError) pre →
  metrics_loop B gt rf pre er w = (Ret er1, w1) →
  loaded B gt rf (files w) m = Raise IndexError →
  metrics_loop B gt rf (pre ++ m :: post) er w =
  (Ret er1, emit (LogWarning empty_msg) (emit (evaluating m) w1)).
Proof.
  intros Hpre Hrun Hm. rewrite metrics_loop_app, Hrun by done.
  rewrite metrics_loop_cons. simpl.
  pose proof (metrics_loop_same gt rf pre er w) as (_&_&Hf).
  rewrite Hrun in Hf. simpl in Hf. by rewrite Hf, Hm.
Qed.

(** ** One metric *)

(** [eval_metric], step by step. *)
Lemma eval_metric_run gt dt metric er w :
  eval_metric B gt dt metric er w =
  let iou_type := if String.eqb metric "proposal" then "bbox" else metric in
  match LVISEval_new B gt dt iou_type with
  | Raise e => (Raise e, w)
  | Ret lvis_eval =>
      let lvis_eval := configured B (self w) metric lvis_eval in
      let w1 := emit (Evaluate iou_type (params_imgIds lvis_eval)
                        (params_max_dets lvis_eval)) w in
      match engine_run B lvis_eval with
      | Raise e => (Raise e, w1)
      | Ret lvis_eval =>
          match report B (self w) metric lvis_eval er with
          | Raise e => (Raise e, w1)
          | Ret out =>
              (Ret out,
               emit (LogInfo (newline +:+ print_results B lvis_eval)) w1)
          end
      end
  end.
Proof.
  unfold eval_metric, run_eval, report, engine_run, configured.
  munfold. simpl.
  destruct (LVISEval_new B gt dt _) as [ev0|e]; [|done]. simpl.
  destruct (String.eqb metric "proposal"); simpl.
  - destruct (evaluate B _) as [ev1|e]; [|done]. simpl.
    destruct (accumulate B _) as [ev2|e]; [|done]. simpl.
    by destruct (summarize B _) as [ev3|e].
  - destruct (evaluate B _) as [ev1|e]; [|done]. simpl.
    destruct (accumulate B _) as [ev2|e]; [|done]. simpl.
    destruct (summarize B _) as [ev3|e]; [|done]. simpl.
    destruct (collect_items B _ _ _ _ _) as [rl er1]. simpl.
    destruct (classwise (self w)); [|done]. simpl.
    destruct (eval_precision B ev3) as [pr|e]; [|done]. simpl.
    case_bool_decide; [|done]. simpl.
    by destruct (classwise_loop B _ _ _ _ _ _ _) as [[rpc er2]|e].
Qed.

Lemma eval_metric_report gt dt metric er w out w' :
  eval_metric B gt dt metric er w = (Ret out, w') →
  let iou_type := if String.eqb metric "proposal" then "bbox" else metric in
  ∃ ev0 ev,
    LVISEval_new B gt dt iou_type = Ret ev0 ∧
    engine_run B (configured B (self w) metric ev0) = Ret ev ∧
    report B (self w) metric ev er = Ret out ∧
    w' = emit (LogInfo (newline +:+ print_results B ev))
           (emit (Evaluate iou_type
                    (params_imgIds (configured B (self w) metric ev0))
                    (params_max_dets (configured B (self w) metric ev0))) w).
Proof.
  rewrite eval_metric_run. simpl.
  destruct (LVISEval_new B gt dt _) as [ev0|e]; [|done].
  destruct (engine_run B _) as [ev|e] eqn:Hrun; [|done].
  destruct (report B _ _ _ _) as [out'|e] eqn:Hrep; [|done].
  intros Heq. simplify_eq. by exists ev0, ev.
Qed.

(** ** Ordered dictionaries *)

Lemma od_get_set_eq {V} (d : odict V) k v : od_get (od_set d k v) k = Some v.
Proof.
  induction d as [|[k' v'] d IH]; simpl.
  - by rewrite String.eqb_refl.
  - destruct (String.eqb k' k) eqn:Hk; simpl.
    + by rewrite String.eqb_refl.
    + by rewrite Hk.
Qed.

Lemma od_get_set_ne {V} (d : odict V) k k' v :
  k ≠ k' → od_get (od_set d k v) k' = od_get d k'.
Proof.
  intros Hne. induction d as [|[k0 v0] d IH]; simpl.
  - by apply String.eqb_neq in Hne as ->.
  - destruct (String.eqb k0 k) eqn:Hk; simpl.
    + apply String.eqb_eq in Hk as ->.
      by apply String.eqb_neq in Hne as ->.
    + by rewrite IH.
Qed.

Lemma od_set_fresh {V} (d : odict V) k v :
  k ∉ d.*1 → od_set d k v = d ++ [(k, v)].
Proof.
  induction d as [|[k0 v0] d IH]; simpl; [done|].
  intros Hk. apply not_elem_of_cons in Hk as [Hne Hk].
  assert (String.eqb k0 k = false) as -> by (by apply String.eqb_neq).
  by rewrite IH.
Qed.

Lemma od_update_cons {V} (d : odict V) k v es :
  od_update d ((k, v) :: es) = od_update (od_set d k v) es.
Proof. done. Qed.

Lemma od_get_update_notin {V} (es : list (string * V)) : ∀ d k,
  k ∉ es.*1 → od_get (od_update d es) k = od_get d k.
Proof.
  induction es as [|[k0 v0] es IH]; intros d k Hk; [done|].
  simpl in Hk. apply not_elem_of_cons in Hk as [Hne Hk].
  rewrite od_update_cons, IH by done.
  by apply od_get_set_ne.
Qed.

Lemma od_get_update_in {V} (es : list (string * V)) : ∀ d k v,
  NoDup es.*1 → (k, v) ∈ es → od_get (od_update d es) k = Some v.
Proof.
  induction es as [|[k0 v0] es IH]; intros d k v Hnd Hin.
  - by apply elem_of_nil in Hin.
  - simpl in Hnd. apply NoDup_cons in Hnd as [Hk0 Hnd].
    rewrite od_update_cons.
    apply elem_of_cons in Hin as [[= -> ->]|Hin].
    + rewrite od_get_update_notin by done. apply od_get_set_eq.
    + by apply IH.
Qed.

Lemma od_update_fresh {V} (es : list (string * V)) : ∀ d,
  NoDup es.*1 → (∀ k, k ∈ es.*1 → k ∉ d.*1) → od_update d es = d ++ es.
Proof.
  induction es as [|[k0 v0] es IH]; intros d Hnd Hfresh.
  - by rewrite app_nil_r.
  - simpl in Hnd. apply NoDup_cons in Hnd as [Hk0 Hnd].
    rewrite od_update_cons.
    rewrite od_set_fresh by (apply Hfresh; simpl; apply list_elem_of_here).
    rewrite IH; [by rewrite <-app_assoc|done|].
    intros k Hk. rewrite fmap_app, elem_of_app. simpl.
    intros [Hd|Hd%list_elem_of_singleton].
    + by apply (Hfresh k); [simpl; apply list_elem_of_further|].
    + by subst.
Qed.

Lemma od_update_app {V} (d : odict V) es es' :
  od_update d (es ++ es') = od_update (od_update d es) es'.
Proof. apply foldl_app. Qed.

(** ** The reporting loops *)

Lemma selected_cons items k v results :
  selected items ((k, v) :: results) =
  if str_in k items then (k, v) :: selected items results
  else selected items results.
Proof.
  unfold selected. rewrite filter_cons. simpl.
  destruct (str_in k items); by case_decide.
Qed.

Lemma selected_keys items results k :
  k ∈ (selected items results).*1 ↔
  str_in k items = true ∧ k ∈ results.*1.
Proof.
  unfold selected. rewrite !list_elem_of_fmap. split.
  - intros ([k' v]&->&[Hin ?]%list_elem_of_filter). split; [done|].
    by exists (k', v).
  - intros (Hin&[k' v]&->&?). exists (k', v). split; [done|].
    by apply list_elem_of_filter.
Qed.

Lemma str_in_elem_of k items : str_in k items = true ↔ k ∈ items.
Proof.
  unfold str_in. rewrite existsb_exists. split.
  - intros (k'&Hin&->%String.eqb_eq). by apply list_elem_of_In.
  - intros Hin. exists k. split; [by apply list_elem_of_In|].
    apply String.eqb_refl.
Qed.

Lemma selected_NoDup items results :
  NoDup results.*1 → NoDup (selected items results).*1.
Proof.
  induction results as [|[k v] results IH]; [done|].
  simpl. intros [Hk Hnd]%NoDup_cons. rewrite selected_cons.
  destruct (str_in k items); [|by apply IH].
  simpl. apply NoDup_cons. split; [|by apply IH].
  rewrite selected_keys. by intros [_ ?].
Qed.

Lemma collect_items_spec metric items results : ∀ rl er,
  collect_items B metric items results rl er =
  (rl ++ map (λ kv, py_str (py_round (kv.2 * 100) 2))
           (selected items results),
   od_update er (item_entries metric (selected items results))).
Proof.
  induction results as [|[k v] results IH]; intros rl er; simpl.
  - by rewrite app_nil_r.
  - rewrite selected_cons. destruct (str_in k items); [|apply IH].
    rewrite IH. simpl. by rewrite <-app_assoc.
Qed.

Lemma collect_proposal_spec items results : ∀ er,
  collect_proposal items results er =
  od_update er (proposal_entries (selected items results)).
Proof.
  induction results as [|[k v] results IH]; intros er; simpl; [done|].
  rewrite selected_cons. destruct (str_in k items); [|apply IH].
  by rewrite IH.
Qed.

Lemma classwise_loop_spec api metric precisions cats : ∀ idx rpc er,
  classwise_loop B api metric precisions idx cats rpc er =
  rows ← category_rows B api precisions idx cats;
  Ret (rpc ++ classwise_list B rows,
       od_update er (classwise_entries metric rows)).
Proof.
  induction cats as [|catId cats IH]; intros idx rpc er; simpl.
  - munfold. by rewrite app_nil_r.
  - unfold category_row. munfold.
    destruct (load_cats B api [catId]) as [[|nm nms]|e]; simpl; [done| |done].
    destruct (category_ap B precisions idx) as [ap|e]; simpl; [|done].
    rewrite IH. munfold.
    destruct (category_rows B api precisions (S idx) cats) as [rows|e];
      simpl; [|done].
    by rewrite <-app_assoc.
Qed.

Lemma category_rows_lookup api precisions cats : ∀ idx rows,
  category_rows B api precisions idx cats = Ret rows →
  length rows = length cats ∧
  ∀ i catId, cats !! i = Some catId →
    ∃ row, rows !! i = Some row ∧
           category_row B api precisions (idx + i) catId = Ret row.
Proof.
  induction cats as [|c cats IH]; intros idx rows; simpl.
  - intros [= <-]. split; [done|]. intros i catId Hi. done.
  - munfold.
    destruct (category_row B api precisions idx c) as [r|e] eqn:Hr; [|done].
    destruct (category_rows B api precisions (S idx) cats) as [rs|e] eqn:Hrs;
      [|done].
    intros [= <-]. destruct (IH _ _ Hrs) as [Hlen Hrows].
    split; [simpl; by rewrite Hlen|].
    intros [|i] catId Hi; simpl in *.
    + simplify_eq. exists r. by rewrite Nat.add_0_r.
    + destruct (Hrows i catId Hi) as (row&?&?). exists row.
      by rewrite Nat.add_succ_r.
Qed.

(** ** Keys *)

Ltac literal_mismatch H c :=
  do 20 (try discriminate H;
         try (destruct c as [|? c]; simpl in H; try discriminate H;
              let Ha := fresh in injection H as Ha H; clear Ha)).

Lemma result_not_precision c : "result" ≠ c +:+ "_precision".
Proof. intros H. literal_mismatch H c. Qed.

Lemma classwise_result_not_precision c :
  "classwise_result" ≠ c +:+ "_precision".
Proof. intros H. literal_mismatch H c. Qed.

Lemma append_cons a s t : String a s +:+ t = String a (s +:+ t).
Proof. done. Qed.

Lemma append_length s t :
  String.length (s +:+ t) = String.length s + String.length t.
Proof.
  induction s as [|a s IH]; [done|].
  rewrite append_cons. simpl. by rewrite IH.
Qed.

Lemma append_inj_r t : ∀ s1 s2, s1 +:+ t = s2 +:+ t → s1 = s2.
Proof.
  induction s1 as [|a s1 IH]; intros [|b s2] H; [done|..].
  - apply (f_equal String.length) in H.
    rewrite !append_length in H. simpl in H. lia.
  - apply (f_equal String.length) in H.
    rewrite !append_length in H. simpl in H. lia.
  - rewrite !append_cons in H. injection H as -> H. f_equal. by apply IH.
Qed.

#[local] Instance precision_key_inj metric :
  Inj (=) (=) (λ c, metric +:+ "_" +:+ c +:+ "_precision").
Proof.
  intros a b H. apply String.app_inj in H. injection H as H.
  change (a +:+ "_precision" = b +:+ "_precision") in H.
  by apply append_inj_r in H.
Qed.

#[local] Instance item_key_inj metric :
  Inj (=) (=) (λ k, metric +:+ "_" +:+ k).
Proof. intros a b H. apply String.app_inj in H. by injection H. Qed.

Lemma item_entries_keys metric sel :
  (item_entries metric sel).*1 = (λ k, metric +:+ "_" +:+ k) <$> sel.*1.
Proof. unfold item_entries. by rewrite <-!list_fmap_compose. Qed.

Lemma classwise_entries_keys metric rows :
  (classwise_entries metric rows).*1 =
  (λ c, metric +:+ "_" +:+ c +:+ "_precision") <$> rows.*1.
Proof. unfold classwise_entries. by rewrite <-!list_fmap_compose. Qed.

(** Reading the report of a bbox/segm metric at a key the classwise part
    does not assign. *)
Lemma report_get s metric ev er out key :
  String.eqb metric "proposal" = false →
  report B s metric ev er = Ret out →
  (classwise s = true →
   key ≠ metric +:+ "_classwise_result" ∧
   ∀ c, key ≠ metric +:+ "_" +:+ c +:+ "_precision") →
  od_get out key =
  od_get (od_set
            (od_update er
               (item_entries metric
                  (selected (default default_ap_items (metric_items s))
                     (get_results B ev))))
            (metric +:+ "_result")
            (VStrList (map (λ kv, py_str (py_round (kv.2 * 100) 2))
                         (selected (default default_ap_items (metric_items s))
                            (get_results B ev))))) key.
Proof.
  intros Hm Hrep Hkey. unfold report in Hrep. rewrite Hm in Hrep.
  rewrite collect_items_spec in Hrep. simpl in Hrep.
  destruct (classwise s); [|by simplify_eq].
  destruct (Hkey eq_refl) as [Hcw Hprec].
  destruct (eval_precision B ev) as [pr|e]; [|done]. simpl in Hrep.
  case_bool_decide; [|done].
  rewrite classwise_loop_spec in Hrep. munfold.
  destruct (category_rows B _ _ _ _) as [rows|e]; [|done].
  simpl in Hrep. simplify_eq.
  rewrite od_get_set_ne by done. rewrite od_get_update_notin; [done|].
  unfold classwise_entries. rewrite <-list_fmap_compose.
  intros ([c ap]&->&_)%list_elem_of_fmap. simpl in Hprec.
  by apply (Hprec c).
Qed.

(** ** The classwise report *)

Lemma category_ap_spec precisions idx samples :
  slice_cat_area precisions idx 0 = Ret samples →
  category_ap B precisions idx =
  Ret (if bool_decide (valid_samples samples = [])
       then PyFloat nan
       else NpFloat64 (np_mean B (valid_samples samples))).
Proof.
  intros Hs. unfold category_ap. rewrite Hs. munfold.
  destruct (valid_samples samples) as [|p ps]; simpl; [done|].
  by repeat case_bool_decide.
Qed.

Lemma category_row_inv api precisions idx catId name ap :
  category_row B api precisions idx catId = Ret (name, ap) →
  ∃ nm nms samples,
    load_cats B api [catId] = Ret (nm :: nms) ∧
    name = cat_name nm ∧
    slice_cat_area precisions idx 0 = Ret samples ∧
    ap = (if bool_decide (valid_samples samples = [])
          then PyFloat nan
          else NpFloat64 (np_mean B (valid_samples samples))).
Proof.
  unfold category_row. munfold.
  destruct (load_cats B api [catId]) as [[|nm nms]|e]; simpl; [done| |done].
  destruct (slice_cat_area precisions idx 0) as [samples|e] eqn:Hs.
  - rewrite (category_ap_spec _ _ _ Hs). intros [= <- <-].
    by exists nm, nms, samples.
  - unfold category_ap. rewrite Hs. by munfold.
Qed.

(** C7: in the classwise report of a bbox/segm metric, the row of each
    category gives its name and its precision: the mean of the samples of
    the slice [precisions[:, :, idx, 0]] that are greater than -1 when
    there is one, and NaN (which is not zero) when there is none.  The
    rows, formatted, are the value of ['<metric>_classwise_result'], and
    the precision is stored under ['<metric>_<name>_precision'] (names
    being distinct). *)
Theorem classwise_precision_is_mean_or_nan gt dt metric er w out w' :
  String.eqb metric "proposal" = false →
  classwise (self w) = true →
  eval_metric B gt dt metric er w = (Ret out, w') →
  ∃ ev0 ev precisions rows,
    LVISEval_new B gt dt metric = Ret ev0 ∧
    engine_run B (configured B (self w) metric ev0) = Ret ev ∧
    eval_precision B ev = Ret precisions ∧
    category_rows B (_lvis_api (self w)) precisions 0 (cat_ids (self w))
    = Ret rows ∧
    length rows = length (cat_ids (self w)) ∧
    od_get out (metric +:+ "_classwise_result")
    = Some (VPairList (classwise_list B rows)) ∧
    ∀ idx catId, cat_ids (self w) !! idx = Some catId →
      ∃ nm nms samples ap,
        load_cats B (_lvis_api (self w)) [catId] = Ret (nm :: nms) ∧
        slice_cat_area precisions idx 0 = Ret samples ∧
        (valid_samples samples ≠ [] →
         ap = NpFloat64 (np_mean B (valid_samples samples))) ∧
        (valid_samples samples = [] →
         ap = PyFloat nan ∧
         PrimFloat.is_nan (float_of ap) = true ∧
         PrimFloat.eqb (float_of ap) 0 = false) ∧
        rows !! idx = Some (cat_name nm, ap) ∧
        classwise_list B rows !! idx = Some (cat_name nm, percent B ap) ∧
        (NoDup rows.*1 →
         od_get out (metric +:+ "_" +:+ cat_name nm +:+ "_precision")
         = Some (VFloat ap)).
Proof.
  intros Hm Hcw Hrun.
  destruct (eval_metric_report _ _ _ _ _ _ _ Hrun) as (ev0&ev&Hnew&Heng&Hrep&_).
  rewrite Hm in Hnew. simpl in *. exists ev0, ev.
  unfold report in Hrep. rewrite Hm, Hcw in Hrep.
  rewrite collect_items_spec in Hrep. simpl in Hrep.
  destruct (eval_precision B ev) as [pr|e]; [|done]. simpl in Hrep.
  case_bool_decide; [|done].
  rewrite classwise_loop_spec in Hrep. munfold.
  destruct (category_rows B _ _ _ _) as [rows|e] eqn:Hrows; [|done].
  simpl in Hrep. simplify_eq.
  destruct (category_rows_lookup _ _ _ _ _ Hrows) as [Hlen Hlook].
  exists pr, rows. split_and!; [done..|apply od_get_set_eq|].
  intros idx catId Hidx.
  destruct (Hlook idx catId Hidx) as ([name ap]&Hrow&Hcr).
  apply category_row_inv in Hcr as (nm&nms&samples&Hload&->&Hslice&Hap).
  exists nm, nms, samples, ap. split_and!; [done..| | |done| |].
  - intros Hne. by rewrite bool_decide_false in Hap.
  - intros He. rewrite bool_decide_true in Hap by done. by subst.
  - unfold classwise_list. by rewrite list_lookup_fmap, Hrow.
  - intros Hnd. rewrite od_get_set_ne.
    + apply od_get_update_in.
      * rewrite classwise_entries_keys.
        apply NoDup_fmap_2; [apply _|done].
      * unfold classwise_entries. apply list_elem_of_fmap.
        exists (cat_name nm, ap). split; [done|].
        by eapply list_elem_of_lookup_2.
    + intros H0%String.app_inj. injection H0 as H0.
      change ("classwise_result" = cat_name nm +:+ "_precision") in H0.
      by apply classwise_result_not_precision in H0.
Qed.

(** ** The proposal metric *)

Lemma init_proposal_nums HAS_LVISAPI args h fs w :
  __init__ B HAS_LVISAPI args h fs = Ret w →
  proposal_nums (self w) = default 300%Z (arg_proposal_nums args).
Proof.
  unfold __init__. destruct (negb HAS_LVISAPI); [done|]. munfold.
  destruct (COCODetection_init B args) as [b|e]; [|done]. simpl.
  destruct (get_local_path B _ _) as [path|e]; [|done]. simpl.
  destruct (LVIS_new B _ _) as [api|e]; [|done]. simpl.
  by intros [= <-].
Qed.

(** The loop only adds events to the trace. *)
Lemma eval_metric_trace gt dt metric er w :
  ∃ t, trace (snd (eval_metric B gt dt metric er w)) = trace w ++ t.
Proof.
  rewrite eval_metric_run. simpl.
  destruct (LVISEval_new B gt dt _) as [ev0|e];
    [|by exists []; rewrite app_nil_r].
  destruct (engine_run B _) as [ev|e]; [|by eexists].
  destruct (report B _ _ _ _) as [out|e]; [|by eexists].
  simpl. rewrite <-app_assoc. by eexists.
Qed.

Lemma metrics_loop_trace gt rf ms : ∀ er w,
  ∃ t, trace (snd (metrics_loop B gt rf ms er w)) = trace w ++ t.
Proof.
  induction ms as [|m ms IH]; intros er w.
  - exists []. by rewrite app_nil_r.
  - rewrite metrics_loop_cons. simpl.
    destruct (loaded _ _ _ _ _) as [dt|e]; simpl.
    + destruct (eval_metric_trace gt dt m er
                  (emit (LogInfo ("Evaluating " +:+ m +:+ "...")) w))
        as [t1 Ht1].
      destruct (eval_metric _ _ _ _ _ _) as [[er'|e] w2]; simpl in *.
      * destruct (IH er' w2) as [t2 Ht2]. rewrite Ht2, Ht1.
        rewrite <-!app_assoc. by eexists.
      * rewrite Ht1, <-app_assoc. by eexists.
    + destruct e; simpl; rewrite <-?app_assoc; by eexists.
Qed.

(** ** The report in the mapping [compute_metric] returns *)

Lemma prefix_append a : ∀ b, String.prefix a (a +:+ b) = true.
Proof.
  induction a as [|c a IH]; intros b; [by destruct b|].
  rewrite append_cons. simpl. by destruct (Ascii.ascii_dec c c).
Qed.

Lemma append_assoc a b c : (a +:+ b) +:+ c = a +:+ (b +:+ c).
Proof.
  induction a as [|x a IH]; [done|]. rewrite !append_cons. by rewrite IH.
Qed.

Lemma may_assign_own s metric x :
  String.eqb metric "proposal" = false →
  may_assign B s metric (metric +:+ "_" +:+ x) = true.
Proof.
  intros Hm. unfold may_assign. rewrite Hm, <-append_assoc.
  apply prefix_append.
Qed.

Lemma may_assign_lazy_init s metric key :
  may_assign B (lazy_init B s) metric key = may_assign B s metric key.
Proof. unfold may_assign, lazy_init. by repeat case_bool_decide. Qed.

Lemma proposal_entries_keys sel : (proposal_entries sel).*1 = sel.*1.
Proof. unfold proposal_entries. by rewrite <-list_fmap_compose. Qed.

(** The report of a metric assigns no key but those it may assign. *)
Lemma report_keeps s metric ev er out key :
  report B s metric ev er = Ret out →
  may_assign B s metric key = false →
  od_get out key = od_get er key.
Proof.
  intros Hrep Hkey.
  destruct (String.eqb metric "proposal") eqn:Hm.
  - unfold report in Hrep. unfold may_assign in Hkey.
    rewrite Hm in Hrep, Hkey. injection Hrep as <-.
    rewrite collect_proposal_spec. apply od_get_update_notin.
    rewrite proposal_entries_keys. intros [Hin _]%selected_keys.
    by rewrite Hin in Hkey.
  - assert (∀ x, metric +:+ "_" +:+ x ≠ key) as Hne.
    { intros x <-. by rewrite may_assign_own in Hkey. }
    assert (od_get (od_set
              (od_update er
                 (item_entries metric
                    (selected (default default_ap_items (metric_items s))
                       (get_results B ev))))
              (metric +:+ "_result")
              (VStrList (map (λ kv, py_str (py_round (kv.2 * 100) 2))
                           (selected (default default_ap_items (metric_items s))
                              (get_results B ev))))) key = od_get er key)
      as Hitems.
    { rewrite od_get_set_ne by apply (Hne "result").
      apply od_get_update_notin. rewrite item_entries_keys.
      intros (k&->&_)%list_elem_of_fmap. by apply (Hne k). }
    rewrite <-Hitems. apply (report_get _ _ _ _ _ _ Hm Hrep).
    intros _. split.
    + intros ->. by apply (Hne "classwise_result").
    + intros c ->. by apply (Hne (c +:+ "_precision")).
Qed.

(** The loop keeps the entries that none of its metrics may assign. *)
Lemma metrics_loop_keeps gt rf key ms : ∀ er w out w',
  metrics_loop B gt rf ms er w = (Ret out, w') →
  Forall (λ m, may_assign B (self w) m key = false) ms →
  od_get out key = od_get er key.
Proof.
  induction ms as [|m ms IH]; intros er w out w' Hrun Hall.
  - by injection Hrun as <- _.
  - apply Forall_cons in Hall as [Hm Hall].
    rewrite metrics_loop_cons in Hrun. simpl in Hrun.
    destruct (loaded B gt rf (files w) m) as [dt|e].
    + destruct (eval_metric B gt dt m er _) as [[er'|e] w2] eqn:Hev; [|done].
      destruct (eval_metric_report _ _ _ _ _ _ _ Hev)
        as (ev0&ev&_&_&Hrep&Hw2).
      simpl in Hrep.
      rewrite (IH _ _ _ _ Hrun) by (by subst w2).
      by eapply report_keeps.
    + destruct e; try done. by injection Hrun as <- _.
Qed.

(** A run of the loop that returns, seen at a metric it reaches. *)
Lemma metrics_loop_reaches gt rf pre m post er w out w' :
  Forall (λ m', loaded B gt rf (files w) m' ≠ Raise IndexError)
    (pre ++ [m]) →
  metrics_loop B gt rf (pre ++ m :: post) er w = (Ret out, w') →
  ∃ er1 w1 dt ev0 ev er2 w2,
    metrics_loop B gt rf pre er w = (Ret er1, w1) ∧
    loaded B gt rf (files w) m = Ret dt ∧
    LVISEval_new B gt dt (if String.eqb m "proposal" then "bbox" else m)
    = Ret ev0 ∧
    engine_run B (configured B (self w) m ev0) = Ret ev ∧
    report B (self w) m ev er1 = Ret er2 ∧
    metrics_loop B gt rf post er2 w2 = (Ret out, w') ∧
    self w2 = self w ∧
    Evaluate (if String.eqb m "proposal" then "bbox" else m)
      (params_imgIds (configured B (self w) m ev0))
      (params_max_dets (configured B (self w) m ev0)) ∈ trace w2.
Proof.
  intros [Hpre Hm]%Forall_app Hrun.
  rewrite Forall_singleton in Hm.
  rewrite metrics_loop_app in Hrun by done.
  pose proof (metrics_loop_same gt rf pre er w) as (Hs1&_&Hf1).
  destruct (metrics_loop B gt rf pre er w) as [[er1|e] w1]; [|done].
  simpl in Hs1, Hf1.
  rewrite metrics_loop_cons in Hrun. simpl in Hrun. rewrite Hf1 in Hrun.
  destruct (loaded B gt rf (files w) m) as [dt|e];
    [|destruct e; try done; by destruct Hm].
  destruct (eval_metric B gt dt m er1 _) as [[er2|e] w2] eqn:Hev; [|done].
  destruct (eval_metric_report _ _ _ _ _ _ _ Hev)
    as (ev0&ev&Hnew&Heng&Hrep&Hw2).
  simpl in Hnew, Heng, Hrep, Hw2. rewrite Hs1 in Heng, Hrep, Hw2.
  exists er1, w1, dt, ev0, ev, er2, w2.
  split_and!; [done..| |].
  - subst w2. simpl. by rewrite Hs1.
  - subst w2. simpl. rewrite !elem_of_app. left. right.
    apply list_elem_of_here.
Qed.

Lemma lazy_init_fields s :
  _lvis_api (lazy_init B s) = _lvis_api s ∧
  metrics (lazy_init B s) = metrics s ∧
  metric_items (lazy_init B s) = metric_items s ∧
  classwise (lazy_init B s) = classwise s ∧
  proposal_nums (lazy_init B s) = proposal_nums s.
Proof. unfold lazy_init. by repeat case_bool_decide. Qed.

(** [compute_metric] returns what the loop over the metrics returns. *)
Lemma compute_metric_loop l w out w' rf w2 :
  compute_metric B l w = (Ret out, w') →
  format_only (self w) = false →
  after_dump B w l = (Ret rf, w2) →
  self w2 = lazy_init B (self w) ∧
  ∃ w3 t,
    metrics_loop B (_lvis_api (self w)) rf (metrics (self w)) [] w2
    = (Ret out, w3) ∧
    trace w' = trace w3 ++ t.
Proof.
  intros Hrun Hfo Hdump. rewrite compute_metric_run in Hrun.
  destruct (after_dump_frame l w) as [Hs _]. rewrite Hdump in *.
  simpl in Hs. split; [done|].
  destruct (lazy_init_fields (self w)) as (Hapi&Hms&_).
  destruct (choose_prefix B w) as [[tmp prefix] fs1].
  rewrite Hs, lazy_init_format_only, Hfo, Hapi, Hms in Hrun.
  destruct (metrics_loop B _ rf _ [] w2) as [[er|e] w3]; [|done].
  injection Hrun as <- <-. exists w3.
  destruct tmp; simpl; [by eexists|]. exists []. by rewrite app_nil_r.
Qed.

(** C6: when [compute_metric] returns and its loop has reached a
    bbox/segm metric, the mapping it returns holds under
    ['<metric>_result'] the list of the selected values of that metric,
    each multiplied by 100, rounded to two decimals and printed, in the
    order in which the engine lists the selected items, provided no later
    metric assigns that key; the i-th string is that of the value of the
    i-th selected item, which is also the float the mapping holds under
    ['<metric>_<item>'].  When that metric is the only one, the mapping is
    the float entries in that same order followed by the
    ['<metric>_result'] entry. *)
Theorem result_entry_lists_percentages l w out w' rf w2 pre m post :
  compute_metric B l w = (Ret out, w') →
  format_only (self w) = false →
  after_dump B w l = (Ret rf, w2) →
  metrics (self w) = pre ++ m :: post →
  String.eqb m "proposal" = false →
  Forall (λ m', loaded B (_lvis_api (self w)) rf (files w2) m'
                 ≠ Raise IndexError) (pre ++ [m]) →
  Forall (λ m', may_assign B (self w) m' (m +:+ "_result") = false) post →
  ∃ dt ev0 ev,
    loaded B (_lvis_api (self w)) rf (files w2) m = Ret dt ∧
    LVISEval_new B (_lvis_api (self w)) dt m = Ret ev0 ∧
    engine_run B (configured B (self w2) m ev0) = Ret ev ∧
    let sel := selected (default default_ap_items (metric_items (self w)))
                 (get_results B ev) in
    let strings := map (λ kv, py_str (py_round (kv.2 * 100) 2)) sel in
    od_get out (m +:+ "_result") = Some (VStrList strings) ∧
    (∀ i k v, sel !! i = Some (k, v) →
       strings !! i = Some (py_str (py_round (v * 100) 2)) ∧
       (NoDup (get_results B ev).*1 →
        k ≠ "result" →
        (classwise (self w) = true →
         k ≠ "classwise_result" ∧ ∀ c, k ≠ c +:+ "_precision") →
        Forall (λ m', may_assign B (self w) m' (m +:+ "_" +:+ k) = false)
          post →
        od_get out (m +:+ "_" +:+ k) = Some (VFloat (PyFloat v)))) ∧
    (pre = [] → post = [] → classwise (self w) = false →
     NoDup (get_results B ev).*1 → "result" ∉ sel.*1 →
     out = item_entries m sel ++ [(m +:+ "_result", VStrList strings)]).
Proof.
  intros Hrun Hfo Hdump Hms Hm Hreach Hlater.
  destruct (compute_metric_loop _ _ _ _ _ _ Hrun Hfo Hdump)
    as (Hs&w3&t&Hloop&_).
  destruct (lazy_init_fields (self w)) as (Hapi&_&Hitems&Hcw&_).
  rewrite Hms in Hloop.
  destruct (metrics_loop_reaches _ _ _ _ _ _ _ _ _ Hreach Hloop)
    as (er1&w1&dt&ev0&ev&er2&w4&Hpre&Hdt&Hnew&Heng&Hrep&Hpost&Hs4&_).
  rewrite Hm in Hnew.
  exists dt, ev0, ev. split; [done|]. split; [done|]. split; [done|].
  assert (∀ key,
            Forall (λ m', may_assign B (self w) m' key = false) post →
            od_get out key = od_get er2 key) as Hkeep.
  { intros key Hall. eapply metrics_loop_keeps; [done|].
    rewrite Hs4, Hs. eapply Forall_impl; [done|].
    intros m' Hm'. simpl. by rewrite may_assign_lazy_init. }
  cbv zeta. split_and!.
  - rewrite Hkeep by done. rewrite (report_get _ _ _ _ _ _ Hm Hrep).
    + rewrite Hs, Hitems. apply od_get_set_eq.
    + intros _. split.
      * intros H%String.app_inj. discriminate H.
      * intros c H%String.app_inj. injection H as H.
        by apply result_not_precision in H.
  - intros i k v Hi. split; [by rewrite list_lookup_fmap, Hi|].
    intros Hnd Hk Hclass Hall. rewrite Hkeep by done.
    rewrite (report_get _ _ _ _ _ _ Hm Hrep).
    + rewrite Hs, Hitems. rewrite od_get_set_ne
        by (intros H%String.app_inj; injection H as H; by subst).
      apply od_get_update_in.
      * rewrite item_entries_keys. apply NoDup_fmap_2; [apply _|].
        by apply selected_NoDup.
      * unfold item_entries. apply list_elem_of_fmap.
        exists (k, v). split; [done|]. by eapply list_elem_of_lookup_2.
    + rewrite Hs, Hcw. intros Hc. destruct (Hclass Hc) as [Hk1 Hk2]. split.
      * intros H%String.app_inj. injection H as H. by subst.
      * intros c H. apply (inj (λ k, m +:+ "_" +:+ k)) in H.
        by apply (Hk2 c).
  - intros -> -> Hclass Hnd Hres. simpl in Hpre, Hpost.
    injection Hpre as <- _. injection Hpost as <- _.
    unfold report in Hrep. rewrite Hm, Hs, Hitems, Hcw, Hclass in Hrep.
    rewrite collect_items_spec in Hrep.
    simpl in Hrep. injection Hrep as <-.
    rewrite od_update_fresh.
    + simpl. apply od_set_fresh. rewrite item_entries_keys.
      intros (k&H&Hk)%list_elem_of_fmap. apply String.app_inj in H.
      injection H as H. change ("result" = k) in H. by subst.
    + rewrite item_entries_keys. apply NoDup_fmap_2; [apply _|].
      by apply selected_NoDup.
    + intros k _. simpl. apply not_elem_of_nil.
Qed.

(** C8: the constructor stores [proposal_nums], 300 when it is not given.
    When [compute_metric] returns and its loop has reached the proposal
    metric, the engine's [max_dets] was set to [proposal_nums] before
    [evaluate()] was called.  Without an allow-list the entries assigned
    are those of the engine's results named [AR@K], [ARs@K], [ARm@K] or
    [ARl@K] (K being [proposal_nums]), under these names, each value
    rounded to three decimals (ties to even): the entries assigned before
    the proposal metric with these assigned are what the rest of the loop
    starts from, and they are in the mapping returned unless a later
    metric assigns their name. *)
Theorem proposal_metric_uses_proposal_nums
    HAS_LVISAPI args h fs w0 l w out w' rf w2 pre post :
  __init__ B HAS_LVISAPI args h fs = Ret w0 →
  compute_metric B l w = (Ret out, w') →
  format_only (self w) = false →
  after_dump B w l = (Ret rf, w2) →
  metrics (self w) = pre ++ "proposal" :: post →
  Forall (λ m', loaded B (_lvis_api (self w)) rf (files w2) m'
                 ≠ Raise IndexError) (pre ++ ["proposal"]) →
  proposal_nums (self w0) = default 300%Z (arg_proposal_nums args) ∧
  ∃ dt ev0 ev er1 w1 w4,
    loaded B (_lvis_api (self w)) rf (files w2) "proposal" = Ret dt ∧
    LVISEval_new B (_lvis_api (self w)) dt "bbox" = Ret ev0 ∧
    let lvis_eval := configured B (self w2) "proposal" ev0 in
    params_max_dets lvis_eval = proposal_nums (self w) ∧
    engine_run B lvis_eval = Ret ev ∧
    Evaluate "bbox" (img_ids (self w2)) (proposal_nums (self w)) ∈ trace w' ∧
    metrics_loop B (_lvis_api (self w)) rf pre [] w2 = (Ret er1, w1) ∧
    (metric_items (self w) = None →
     let K := pretty (proposal_nums (self w)) in
     let items := ["AR@" +:+ K; "ARs@" +:+ K; "ARm@" +:+ K; "ARl@" +:+ K] in
     let sel := selected items (get_results B ev) in
     let entries :=
       map (λ kv, (kv.1, VFloat (PyFloat (decimal_round kv.2 3)))) sel in
     (∀ k, k ∈ sel.*1 ↔ k ∈ items ∧ k ∈ (get_results B ev).*1) ∧
     fst (metrics_loop B (_lvis_api (self w)) rf post
            (od_update er1 entries) w4) = Ret out ∧
     (post = [] → out = od_update er1 entries) ∧
     (NoDup (get_results B ev).*1 →
      ∀ k v, (k, v) ∈ sel →
        Forall (λ m', may_assign B (self w) m' k = false) post →
        od_get out k = Some (VFloat (PyFloat (decimal_round v 3))))).
Proof.
  intros Hinit Hrun Hfo Hdump Hms Hreach.
  split; [by eapply init_proposal_nums|].
  destruct (compute_metric_loop _ _ _ _ _ _ Hrun Hfo Hdump)
    as (Hs&w3&t&Hloop&Ht).
  destruct (lazy_init_fields (self w)) as (Hapi&_&Hitems&_&Hnums).
  rewrite Hms in Hloop.
  destruct (metrics_loop_reaches _ _ _ _ _ _ _ _ _ Hreach Hloop)
    as (er1&w1&dt&ev0&ev&er2&w4&Hpre&Hdt&Hnew&Heng&Hrep&Hpost&Hs4&Hev).
  simpl in Hnew, Hev.
  exists dt, ev0, ev, er1, w1, w4.
  split; [done|]. split; [done|]. cbv zeta.
  split; [simpl; by rewrite Hs, Hnums|]. split; [done|]. split.
  { destruct (metrics_loop_trace (_lvis_api (self w)) rf post er2 w4)
      as [t' Ht'].
    rewrite Hpost in Ht'. simpl in Ht'. rewrite Ht, Ht', !elem_of_app.
    left. left. rewrite <-Hnums, <-Hs. exact Hev. }
  split; [done|]. intros Hnone.
  assert (er2 = od_update er1
            (map (λ kv, (kv.1, VFloat (PyFloat (decimal_round kv.2 3))))
               (selected (default_proposal_items (proposal_nums (self w)))
                  (get_results B ev)))) as ->.
  { unfold report in Hrep. simpl in Hrep.
    rewrite Hs, Hitems, Hnums, Hnone in Hrep. simpl in Hrep.
    injection Hrep as <-. rewrite collect_proposal_spec.
    f_equal. unfold proposal_entries. apply map_ext. intros [k v]. simpl.
    by rewrite round3_spec. }
  unfold default_proposal_items in *. split_and!.
  - intros k. by rewrite selected_keys, str_in_elem_of.
  - by rewrite Hpost.
  - intros ->. simpl in Hpost. by injection Hpost as <- _.
  - intros Hnd k v Hin Hall.
    rewrite (metrics_loop_keeps _ _ k _ _ _ _ _ Hpost).
    + apply od_get_update_in.
      * rewrite <-list_fmap_compose. by apply selected_NoDup.
      * apply list_elem_of_fmap. by exists (k, v).
    + rewrite Hs4, Hs. eapply Forall_impl; [done|].
      intros m' Hm'. simpl. by rewrite may_assign_lazy_init.
Qed.

(** ** Accumulation, as the claims state it *)

(** C10: when every element of the sequence is a dict, [add] (and
    [add_predictions]) completes and the list object behind [_results]
    holds the records it held followed by the new ones, in order; no other
    list object and nothing else in the world changes. *)
Theorem add_appends_in_order w old predictions :
  heap w !! _results (self w) = Some old →
  Forall (λ p, is_dict p = true) predictions →
  let w' :=
    with_heap (<[_results (self w) := old ++ predictions]> (heap w)) w in
  add B predictions w = (Ret tt, w') ∧
  add_predictions B predictions w = (Ret tt, w') ∧
  heap w' !! _results (self w') = Some (old ++ predictions) ∧
  ∀ l, l ≠ _results (self w) → heap w' !! l = heap w !! l.
Proof.
  intros Hold Hdicts. destruct (leading_dicts_all _ Hdicts) as [Hlead Hout].
  unfold add_predictions. rewrite (add_run _ _ _ Hold), Hlead, Hout.
  split_and!; [done..| |].
  - simpl. apply lookup_insert_eq.
  - intros l Hl. simpl. by rewrite lookup_insert_ne.
Qed.

(** C5 (as the code has it): [add] checks that each record is a dict and
    nothing else.  At the first record that is not a dict it raises
    [AssertionError]: the records before it have been appended, that record
    and the ones after it have not. *)
Theorem add_stops_at_first_non_dict w old predictions bad rest :
  heap w !! _results (self w) = Some old →
  Forall (λ p, is_dict p = true) predictions →
  is_dict bad = false →
  add B (predictions ++ bad :: rest) w =
  (Raise (AssertionError (not_a_dict_msg bad)),
   with_heap (<[_results (self w) := old ++ predictions]> (heap w)) w).
Proof.
  intros Hold Hdicts Hbad.
  destruct (leading_dicts_stop _ _ rest Hdicts Hbad) as [Hlead Hout].
  by rewrite (add_run _ _ _ Hold), Hlead, Hout.
Qed.

(** ** The temporary directory *)

(** When the loop over the metrics is reached and [compute_metric]
    returns, the directory it made is cleaned up last. *)
Lemma tmp_dir_cleaned_after_loop l w r w' :
  outfile_prefix (self w) = None →
  format_only (self w) = false →
  compute_metric B l w = (Ret r, w') →
  ∃ d t, trace w' = trace w ++ TmpDirCreated d :: t ++ [TmpDirCleanup d] ∧
         d = (TemporaryDirectory B (files w)).1.
Proof.
  intros Hp Hfo. rewrite compute_metric_run.
  unfold after_dump, choose_prefix. rewrite Hp.
  destruct (TemporaryDirectory B (files w)) as [d fs1].
  destruct (results2json B _ _ _ _) as [[rf|e] fs2]; simpl; [|done].
  rewrite lazy_init_format_only, Hfo.
  match goal with
  | |- context [metrics_loop B ?g rf ?ms [] ?w2] =>
      pose proof (metrics_loop_trace g rf ms [] w2) as [t Ht];
      destruct (metrics_loop B g rf ms [] w2) as [[er|e] w3]
  end; [|done].
  intros [= <- <-]. simpl in *. exists d, (Results2Json (osp_join B d "results") :: t).
  split; [|done]. rewrite Ht. by rewrite <-!app_assoc.
Qed.

(** * Further properties of the wrapper *)

(** ** Accumulation composes *)

(** Adding a sequence in two parts is adding the first part and then, if
    that completed, the second; when the first part raises, nothing of the
    second part is looked at. *)
Theorem add_app p1 p2 : ∀ w,
  add B (p1 ++ p2) w =
  match add B p1 w with
  | (Ret _, w1) => add B p2 w1
  | (Raise e, w1) => (Raise e, w1)
  end.
Proof.
  induction p1 as [|p p1 IH]; intros w; [done|].
  simpl. destruct (is_dict p); [|done].
  rewrite !bind_run. unfold get_self at 1 2.
  rewrite !bind_run. unfold list_append at 1 2, modify at 1 2.
  apply IH.
Qed.

(** ** The stateless call when it raises, and beside accumulation *)

Lemma compute_metric_outcome l l' w w' :
  files w = files w' →
  attrs B (self w) = attrs B (self w') →
  default [] (heap w !! l) = default [] (heap w' !! l') →
  fst (compute_metric B l w) = fst (compute_metric B l' w').
Proof.
  intros Hfiles Hattrs Hrs. rewrite !compute_metric_run.
  pose proof (lazy_init_attrs _ _ Hattrs) as Hlazy.
  unfold after_dump, choose_prefix. rewrite <-Hrs, <-Hfiles.
  assert (outfile_prefix (self w) = outfile_prefix (self w')) as <-
    by (unfold attrs in Hattrs; by simplify_eq).
  assert (cat_ids (lazy_init B (self w)) = cat_ids (lazy_init B (self w')))
    as <- by (unfold attrs in Hlazy; by simplify_eq).
  assert (format_only (lazy_init B (self w))
          = format_only (lazy_init B (self w')))
    as Hfo by (unfold attrs in Hlazy; by simplify_eq).
  assert (_lvis_api (lazy_init B (self w))
          = _lvis_api (lazy_init B (self w')))
    as Hapi by (unfold attrs in Hlazy; by simplify_eq).
  assert (metrics (lazy_init B (self w)) = metrics (lazy_init B (self w')))
    as Hms by (unfold attrs in Hlazy; by simplify_eq).
  destruct (match outfile_prefix (self w) with
            | Some p => (None, p, files w)
            | None => let '(name, fs) := TemporaryDirectory B (files w) in
                      (Some name, osp_join B name "results", fs)
            end) as [[tmp p] fs1].
  destruct (results2json B _ _ _ _) as [[rf|e] fs2]; simpl; [|done].
  rewrite <-Hfo. destruct (format_only _); [done|].
  rewrite <-Hapi, <-Hms.
  match goal with
  | |- fst (match metrics_loop B ?g rf ?ms [] ?w2 with _ => _ end) =
       fst (match metrics_loop B _ rf _ [] ?w2' with _ => _ end) =>
      pose proof (metrics_loop_outcome g rf rf ms [] w2 w2' Hlazy
                    (λ _, eq_refl)) as Hml;
      destruct (metrics_loop B g rf ms [] w2) as [[?|?] ?],
               (metrics_loop B g rf ms [] w2') as [[?|?] ?]
  end; simpl in *; done.
Qed.

Lemma fresh_not_allocated w l :
  is_Some (heap w !! l) → fresh (dom (heap w)) ≠ l.
Proof. intros Hl <-. apply elem_of_dom in Hl. by apply is_fresh in Hl. Qed.

Lemma call_returns w predictions r w' :
  __call__ B predictions w = (Ret r, w') →
  self w' = self w ∧
  heap w' = <[fresh (dom (heap w)) := predictions]> (heap w) ∧
  Forall (λ p, is_dict p = true) predictions.
Proof.
  rewrite call_run. simpl.
  destruct (add_outcome predictions) as [[]|e] eqn:Hadd; [|done].
  pose proof (add_outcome_Ret _ Hadd) as Hdicts.
  destruct (leading_dicts_all _ Hdicts) as [Hlead _].
  pose proof (compute_metric_frame (fresh (dom (heap w)))
                (one_off B w predictions)) as [Hs Hh].
  destruct (compute_metric B _ _) as [[r'|e] w2]; [|done].
  intros [= <- <-]. simpl in *. split_and!; [|by rewrite Hh, Hlead|done].
  by eapply restore_lazy_init.
Qed.

(** When [__call__] raises, nothing is put back: the object is left
    pointing at the list made for the call, which holds the records added
    before the failure; the list accumulated before is no longer the
    object's, though it still holds its records.  The attributes are those
    found when [add] raised, and those after the lazy initialisation when
    [compute_metric] raised. *)
Theorem failed_call_keeps_one_off_buffer w predictions old e w' :
  heap w !! _results (self w) = Some old →
  __call__ B predictions w = (Raise e, w') →
  let l := fresh (dom (heap w)) in
  _results (self w') = l ∧ l ≠ _results (self w) ∧
  heap w' !! l = Some (leading_dicts predictions) ∧
  heap w' !! _results (self w) = Some old ∧
  ((add_outcome predictions = Raise e ∧ self w' = set_results l (self w)) ∨
   (add_outcome predictions = Ret tt ∧
    self w' = lazy_init B (set_results l (self w)))).
Proof.
  intros Hold. rewrite call_run. simpl.
  assert (fresh (dom (heap w)) ≠ _results (self w)) as Hne
    by (apply fresh_not_allocated; by rewrite Hold).
  destruct (add_outcome predictions) as [[]|e'] eqn:Hadd.
  - pose proof (compute_metric_frame (fresh (dom (heap w)))
                  (one_off B w predictions)) as [Hs Hh].
    destruct (compute_metric B _ _) as [[r|e'] w2]; [done|].
    intros [= <- <-]. simpl in *. rewrite Hs, Hh, lazy_init_results.
    unfold one_off. simpl. rewrite lookup_insert_eq, lookup_insert_ne by done.
    split_and!; [done..|]. by right.
  - intros [= <- <-]. unfold one_off. simpl.
    rewrite lookup_insert_eq, lookup_insert_ne by done.
    split_and!; [done..|]. by left.
Qed.

(** On an evaluator that has accumulated nothing, the stateless call on a
    sequence of dicts returns what [add] followed by [compute_metric] on
    the accumulated list returns. *)
Theorem call_agrees_with_add_then_compute w predictions :
  heap w !! _results (self w) = Some [] →
  Forall (λ p, is_dict p = true) predictions →
  fst (__call__ B predictions w) =
  fst (compute_metric B (_results (self w)) (snd (add B predictions w))).
Proof.
  intros Hold Hdicts. destruct (leading_dicts_all _ Hdicts) as [Hlead Hout].
  rewrite call_run, (add_run _ _ _ Hold), Hout, Hlead. simpl.
  transitivity (fst (compute_metric B (fresh (dom (heap w)))
                       (one_off B w predictions))).
  - by destruct (compute_metric B _ _) as [[r|e] w2].
  - apply compute_metric_outcome; [done..|].
    unfold one_off. simpl. by rewrite !lookup_insert_eq, Hlead.
Qed.

(** A stateless call leaves no mark on the next one, whatever its
    predictions were and whether it returned or raised. *)
Theorem calls_do_not_interfere w p1 p2 :
  dump_load_stable B →
  fst (__call__ B p2 (snd (__call__ B p1 w))) = fst (__call__ B p2 w).
Proof. intros Hstable. apply call_outcome; [done|]. apply call_attrs. Qed.

(** Accumulation goes on across a stateless call that returned: records
    added afterwards extend the list accumulated before the call. *)
Theorem accumulation_survives_call w old p1 p2 r w1 :
  heap w !! _results (self w) = Some old →
  __call__ B p1 w = (Ret r, w1) →
  Forall (λ p, is_dict p = true) p2 →
  fst (add B p2 w1) = Ret tt ∧
  self (snd (add B p2 w1)) = self w ∧
  heap (snd (add B p2 w1)) !! _results (self w) = Some (old ++ p2).
Proof.
  intros Hold Hcall Hdicts.
  destruct (call_returns _ _ _ _ Hcall) as (Hs&Hh&_).
  destruct (leading_dicts_all _ Hdicts) as [Hlead Hout].
  assert (heap w1 !! _results (self w1) = Some old) as Hold1.
  { rewrite Hs, Hh, lookup_insert_ne; [done|].
    apply fresh_not_allocated. by rewrite Hold. }
  rewrite (add_run _ _ _ Hold1), Hout, Hlead. simpl.
  split_and!; [done..|]. by rewrite Hs, lookup_insert_eq.
Qed.

(** ** What [compute_metric] changes *)

(** Whatever its outcome, [compute_metric] leaves every list object as it
    was and changes no attribute but [cat_ids] and [img_ids], and those
    only when they are empty: a non-empty list of ids is kept, an empty one
    is replaced by the ids of the ground-truth index. *)
Theorem compute_metric_touches_only_empty_ids l w :
  let w' := snd (compute_metric B l w) in
  let api := _lvis_api (self w) in
  heap w' = heap w ∧
  set_img_ids [] (set_cat_ids [] (self w'))
  = set_img_ids [] (set_cat_ids [] (self w)) ∧
  cat_ids (self w') =
  (if bool_decide (cat_ids (self w) = []) then get_cat_ids B api
   else cat_ids (self w)) ∧
  img_ids (self w') =
  (if bool_decide (img_ids (self w) = []) then get_img_ids B api
   else img_ids (self w)).
Proof.
  destruct (compute_metric_frame l w) as [Hs Hh]. simpl.
  rewrite Hs, Hh. destruct (self w) as [? ? cats imgs ? ? ? ? ? ?].
  unfold lazy_init. simpl.
  destruct cats, imgs; simpl; by repeat case_bool_decide.
Qed.

(** ** Events of the loop *)

Lemma eval_metric_events gt dt metric er w :
  ∃ t, trace (snd (eval_metric B gt dt metric er w)) = trace w ++ t ∧
       Forall (λ e, is_loop_event e = true) t.
Proof.
  rewrite eval_metric_run. simpl.
  destruct (LVISEval_new B gt dt _) as [ev0|e].
  - destruct (engine_run B _) as [ev|e].
    + destruct (report B _ _ _ _) as [out|e]; simpl.
      * rewrite <-app_assoc. eexists. split; [done|]. by repeat constructor.
      * eexists. split; [done|]. by repeat constructor.
    + eexists. split; [done|]. by repeat constructor.
  - exists []. by rewrite app_nil_r.
Qed.

Lemma metrics_loop_events gt rf ms : ∀ er w,
  ∃ t, trace (snd (metrics_loop B gt rf ms er w)) = trace w ++ t ∧
       Forall (λ e, is_loop_event e = true) t.
Proof.
  induction ms as [|m ms IH]; intros er w.
  - exists []. by rewrite app_nil_r.
  - rewrite metrics_loop_cons. simpl.
    destruct (loaded _ _ _ _ _) as [dt|e]; simpl.
    + destruct (eval_metric_events gt dt m er
                  (emit (LogInfo ("Evaluating " +:+ m +:+ "...")) w))
        as (t1&Ht1&Hall1).
      destruct (eval_metric _ _ _ _ _ _) as [[er'|e] w2]; simpl in *.
      * destruct (IH er' w2) as (t2&Ht2&Hall2). rewrite Ht2, Ht1.
        rewrite <-!app_assoc. eexists. split; [done|].
        apply Forall_app. split; [by repeat constructor|].
        by apply Forall_app.
      * rewrite Ht1, <-app_assoc. eexists. split; [done|].
        apply Forall_app. split; [by repeat constructor|done].
    + destruct e; simpl; rewrite <-?app_assoc; eexists;
        (split; [done|]); by repeat constructor.
Qed.

Lemma loop_event_not_cleanup e : is_loop_event e = true → is_cleanup e = false.
Proof. by destruct e. Qed.

(** ** What is caught and what is not *)

(** Of the exceptions of the loop over the metrics, only an [IndexError]
    raised while the results of a metric are loaded is caught.  Any other
    exception of the loading, such as the [KeyError] for a metric that has
    no result file, ends [compute_metric] with that exception, and so does
    every exception raised while the metric is evaluated and reported, an
    [IndexError] included. *)
Theorem only_loading_IndexError_is_caught gt rf m rest er w :
  let w1 := emit (evaluating m) w in
  (∀ e, loaded B gt rf (files w) m = Raise e → e ≠ IndexError →
        metrics_loop B gt rf (m :: rest) er w = (Raise e, w1)) ∧
  (rf !! m = None →
   metrics_loop B gt rf (m :: rest) er w = (Raise (KeyError m), w1)) ∧
  (∀ dt e w2, loaded B gt rf (files w) m = Ret dt →
              eval_metric B gt dt m er w1 = (Raise e, w2) →
              metrics_loop B gt rf (m :: rest) er w = (Raise e, w2)).
Proof.
  cbv zeta. split_and!.
  - intros e He Hne. rewrite metrics_loop_cons, He. simpl. by destruct e.
  - intros Hm. rewrite metrics_loop_cons. unfold loaded, getitem.
    by rewrite Hm.
  - intros dt e w2 Hdt Hev. rewrite metrics_loop_cons, Hdt. simpl.
    unfold evaluating in Hev. by rewrite Hev.
Qed.

(** ** The temporary directory and the result files *)

(** When [compute_metric] raises, [cleanup] is never called: the events of
    the call hold no cleanup, the temporary directory made for it (when no
    prefix is configured) has been created, and the file system is the one
    the conversion left. *)
Theorem raising_compute_metric_skips_cleanup l w e w' :
  compute_metric B l w = (Raise e, w') →
  ∃ t, trace w' = trace w ++ t ∧
       Forall (λ ev, is_cleanup ev = false) t ∧
       (outfile_prefix (self w) = None →
        TmpDirCreated (TemporaryDirectory B (files w)).1 ∈ t) ∧
       files w' = files (snd (after_dump B w l)).
Proof.
  rewrite compute_metric_run. unfold after_dump, choose_prefix.
  destruct (outfile_prefix (self w)) as [p|];
    [|destruct (TemporaryDirectory B (files w)) as [d fs1]];
    (destruct (results2json B _ _ _ _) as [[rf|e'] fs2]; simpl;
     [rewrite lazy_init_format_only; destruct (format_only (self w)); [done|];
      match goal with
      | |- context [metrics_loop B ?g rf ?ms [] ?w2] =>
          destruct (metrics_loop_events g rf ms [] w2) as (t&Ht&Hall);
          pose proof (metrics_loop_same g rf ms [] w2) as (_&_&Hf);
          destruct (metrics_loop B g rf ms [] w2) as [[er|e'] w3]
      end; [done|]; intros [= <- <-]; simpl in *; rewrite Ht, <-app_assoc
     |intros [= <- <-]; simpl]);
    eexists; (split; [done|]); split_and!; try done.
  - apply Forall_app. split; [by repeat constructor|].
    eapply Forall_impl; [done|]. apply loop_event_not_cleanup.
  - by repeat constructor.
  - apply Forall_app. split; [by repeat constructor|].
    eapply Forall_impl; [done|]. apply loop_event_not_cleanup.
  - intros _. apply list_elem_of_here.
  - by repeat constructor.
  - intros _. apply list_elem_of_here.
Qed.

(** C9: when no prefix is configured and [compute_metric] returns, it
    has made a temporary directory and converted the results under it, and
    the directory is removed by the time it has returned, on both return
    paths: after the loop over the metrics by [tmp_dir.cleanup()], the last
    event of the call; in format-only mode, where [cleanup()] is not
    called, by the finalisation of the [TemporaryDirectory] object when the
    function returns.  The file system is then the one the conversion left,
    without the directory. *)
Theorem tmp_dir_removed_on_return l w r w' :
  outfile_prefix (self w) = None →
  compute_metric B l w = (Ret r, w') →
  let d := (TemporaryDirectory B (files w)).1 in
  let prefix := osp_join B d "results" in
  (∃ t, trace w' =
        trace w ++ [TmpDirCreated d; Results2Json prefix] ++ t
          ++ (if format_only (self w) then [] else [TmpDirCleanup d]) ∧
        Forall (λ e, is_loop_event e = true) t) ∧
  files w' = cleanup B d (files (snd (after_dump B w l))).
Proof.
  intros Hp. rewrite compute_metric_run.
  unfold after_dump, choose_prefix. rewrite Hp.
  destruct (TemporaryDirectory B (files w)) as [d fs1].
  destruct (results2json B _ _ _ _) as [[rf|e] fs2]; simpl; [|done].
  rewrite lazy_init_format_only. destruct (format_only (self w)).
  - intros [= <- <-]. simpl. split; [|done].
    exists [LogInfo ("results are saved in "
                     +:+ osp_dirname B (osp_join B d "results"))].
    rewrite <-!app_assoc. split; [done|]. by repeat constructor.
  - match goal with
    | |- context [metrics_loop B ?g rf ?ms [] ?w2] =>
        destruct (metrics_loop_events g rf ms [] w2) as (t&Ht&Hall);
        pose proof (metrics_loop_same g rf ms [] w2) as (_&_&Hf);
        destruct (metrics_loop B g rf ms [] w2) as [[er|e] w3]
    end; [|done].
    intros [= <- <-]. simpl in *. split; [|by rewrite Hf].
    exists t. rewrite Ht, <-!app_assoc. by split.
Qed.

(** With a prefix configured, [compute_metric] makes no temporary
    directory and cleans nothing up, whatever its outcome: its first event
    is the conversion under that very prefix, the others are log lines and
    evaluations, and the file system is the one the conversion left. *)
Theorem configured_prefix_makes_no_tmp_dir l w p :
  outfile_prefix (self w) = Some p →
  let w' := snd (compute_metric B l w) in
  ∃ t, trace w' = trace w ++ Results2Json p :: t ∧
       Forall (λ e, is_loop_event e = true) t ∧
       files w' =
       snd (results2json B (cat_ids (lazy_init B (self w)))
              (default [] (heap w !! l)) p (files w)).
Proof.
  intros Hp. simpl. rewrite compute_metric_run.
  unfold after_dump, choose_prefix. rewrite Hp.
  destruct (results2json B _ _ _ _) as [[rf|e'] fs2]; simpl.
  - rewrite lazy_init_format_only. destruct (format_only (self w)); simpl.
    + rewrite <-app_assoc. eexists. split; [done|].
      split; [by repeat constructor|done].
    + match goal with
      | |- context [metrics_loop B ?g rf ?ms [] ?w2] =>
          destruct (metrics_loop_events g rf ms [] w2) as (t&Ht&Hall);
          pose proof (metrics_loop_same g rf ms [] w2) as (_&_&Hf);
          destruct (metrics_loop B g rf ms [] w2) as [[er|e'] w3]
      end; simpl in *; rewrite Ht, <-app_assoc; by eexists.
  - exists []. by split_and!.
Qed.

(** When the results of the first configured metric are empty,
    [compute_metric] returns the empty dictionary: after the conversion it
    logs the metric and the warning, cleans up the temporary directory if
    it made one, and starts no other metric. *)
Theorem empty_dataset_gives_empty_report l w rf w2 m rest :
  after_dump B w l = (Ret rf, w2) →
  format_only (self w) = false →
  metrics (self w) = m :: rest →
  loaded B (_lvis_api (self w)) rf (files w2) m = Raise IndexError →
  fst (compute_metric B l w) = Ret [] ∧
  trace (snd (compute_metric B l w)) =
  trace w2 ++ [evaluating m; LogWarning empty_msg]
    ++ from_option (λ d, [TmpDirCleanup d]) [] (choose_prefix B w).1.1.
Proof.
  intros Hdump Hfo Hms Hempty. rewrite compute_metric_run.
  destruct (after_dump_frame l w) as [Hs _]. rewrite Hdump in *. simpl in Hs.
  destruct (choose_prefix B w) as [[tmp prefix] fs1]. simpl.
  assert (format_only (self w2) = false) as ->
    by (by rewrite Hs, lazy_init_format_only).
  assert (metrics (self w2) = m :: rest) as ->
    by (rewrite Hs; unfold lazy_init; by repeat case_bool_decide).
  assert (_lvis_api (self w2) = _lvis_api (self w)) as ->
    by (rewrite Hs; unfold lazy_init; by repeat case_bool_decide).
  rewrite metrics_loop_cons, Hempty. simpl.
  split; [done|]. destruct tmp; simpl; by rewrite <-?app_assoc, ?app_nil_r.
Qed.

(** ** One metric, once *)

(** A metric that is reported has been evaluated exactly once, over the
    image ids of the object, with the IoU type 'bbox' for the proposal
    metric and the metric itself otherwise; [max_dets] is overridden for
    the proposal metric only, the other metrics run with the value the
    engine object was made with.  Nothing but the trace changes. *)
Theorem each_metric_is_evaluated_once gt dt metric er w out w' :
  eval_metric B gt dt metric er w = (Ret out, w') →
  let proposal := String.eqb metric "proposal" in
  let iou_type := if proposal then "bbox" else metric in
  ∃ ev0 ev,
    LVISEval_new B gt dt iou_type = Ret ev0 ∧
    engine_run B (configured B (self w) metric ev0) = Ret ev ∧
    trace w' =
    trace w ++ [Evaluate iou_type (img_ids (self w))
                  (if proposal then proposal_nums (self w)
                   else params_max_dets ev0);
                LogInfo (newline +:+ print_results B ev)] ∧
    self w' = self w ∧ heap w' = heap w ∧ files w' = files w.
Proof.
  intros Hrun.
  destruct (eval_metric_report _ _ _ _ _ _ _ Hrun) as (ev0&ev&Hnew&Heng&_&->).
  simpl in *. exists ev0, ev. split_and!; [done..| |done|done|done].
  rewrite <-app_assoc. simpl. unfold configured.
  by destruct (String.eqb metric "proposal").
Qed.

Lemma selected_none items results :
  (∀ k, k ∈ items → k ∉ results.*1) → selected items results = [].
Proof.
  intros Hno. induction results as [|[k v] results IH]; [done|].
  rewrite selected_cons. destruct (str_in k items) eqn:Hk.
  - apply str_in_elem_of in Hk. destruct (Hno k Hk). simpl. left.
  - apply IH. intros k' Hk' Hin. apply (Hno k' Hk'). simpl. by right.
Qed.

(** Names on the allow-list that the engine does not report are passed
    over without an error: when none of them is reported, the proposal
    metric assigns nothing and a bbox/segm metric assigns only an empty
    ['<metric>_result'] list. *)
Theorem unreported_items_are_passed_over gt dt metric er w out w' items :
  classwise (self w) = false →
  metric_items (self w) = Some items →
  eval_metric B gt dt metric er w = (Ret out, w') →
  ∃ ev,
    (∃ ev0, LVISEval_new B gt dt
              (if String.eqb metric "proposal" then "bbox" else metric)
            = Ret ev0 ∧
            engine_run B (configured B (self w) metric ev0) = Ret ev) ∧
    ((∀ k, k ∈ items → k ∉ (get_results B ev).*1) →
     out = if String.eqb metric "proposal" then er
           else od_set er (metric +:+ "_result") (VStrList [])).
Proof.
  intros Hcw Hitems Hrun.
  destruct (eval_metric_report _ _ _ _ _ _ _ Hrun) as (ev0&ev&Hnew&Heng&Hrep&_).
  simpl in *. exists ev. split; [by exists ev0|]. intros Hno.
  unfold report in Hrep. rewrite Hitems, Hcw in Hrep. simpl in Hrep.
  destruct (String.eqb metric "proposal").
  - rewrite collect_proposal_spec, (selected_none _ _ Hno) in Hrep.
    by injection Hrep as <-.
  - rewrite collect_items_spec, (selected_none _ _ Hno) in Hrep.
    simpl in Hrep. by injection Hrep as <-.
Qed.

(** ** Failures of the classwise report *)

(** When the number of category ids of the object differs from the number
    of categories of the precision array, the classwise report raises an
    [AssertionError]: the metric has been evaluated, but none of its
    entries is returned and its summary is not logged. *)
Theorem classwise_shape_mismatch_raises gt dt metric er w ev0 ev precisions :
  String.eqb metric "proposal" = false →
  classwise (self w) = true →
  LVISEval_new B gt dt metric = Ret ev0 →
  engine_run B (configured B (self w) metric ev0) = Ret ev →
  eval_precision B ev = Ret precisions →
  length (cat_ids (self w)) ≠ shape_2 precisions →
  eval_metric B gt dt metric er w =
  (Raise (AssertionError ""),
   emit (Evaluate metric (img_ids (self w)) (params_max_dets ev0)) w).
Proof.
  intros Hm Hcw Hnew Heng Hpr Hlen. rewrite eval_metric_run. simpl.
  rewrite Hm, Hnew, Heng. unfold report. rewrite Hm, Hcw.
  rewrite collect_items_spec. simpl. rewrite Hpr. simpl.
  rewrite bool_decide_false by done. unfold configured. by rewrite Hm.
Qed.

(** ** Samples that do not count *)

Lemma nan_is_not_greater y p :
  PrimFloat.is_nan p = true → PrimFloat.ltb y p = false.
Proof.
  unfold PrimFloat.is_nan.
  rewrite FloatAxioms.ltb_spec, FloatAxioms.eqb_spec.
  destruct (Prim2SF p) as [s|s| |s m e]; simpl.
  - done.
  - by destruct s.
  - intros _. by destruct (Prim2SF y).
  - unfold SFeqb. simpl.
    rewrite Z.compare_refl, Pos.compare_cont_refl. by destruct s.
Qed.

(** A sample that is NaN never enters the mean, and when every sample of
    the slice of a category is NaN or the sentinel -1, the precision of the
    category is NaN. *)
Theorem nan_and_sentinel_samples_do_not_count precisions idx samples :
  slice_cat_area precisions idx 0 = Ret samples →
  Forall (λ p, PrimFloat.is_nan p = false) (valid_samples samples) ∧
  (Forall (λ p, PrimFloat.is_nan p = true ∨ p = (-1)%float) samples →
   category_ap B precisions idx = Ret (PyFloat nan)).
Proof.
  intros Hslice. split.
  - apply Forall_forall. intros p [Hp _]%list_elem_of_filter.
    destruct (PrimFloat.is_nan p) eqn:Hnan; [|done].
    by rewrite (nan_is_not_greater _ _ Hnan) in Hp.
  - intros Hall. rewrite (category_ap_spec _ _ _ Hslice).
    rewrite bool_decide_true; [done|].
    unfold valid_samples. clear Hslice.
    induction Hall as [|p ps Hp _ IH]; [done|].
    rewrite filter_cons_False; [exact IH|].
    destruct Hp as [Hnan| ->].
    + by rewrite (nan_is_not_greater _ _ Hnan).
    + by vm_compute.
Qed.

End Properties.

(** * Examples on the small backend *)

Lemma demo_dump_load_stable : dump_load_stable Demo.backend.
Proof.
  intros gt cats rs p fs p' fs'. simpl. unfold Demo.dump.
  assert (∀ q : string, q +:+ ".segm.json" ≠ q +:+ ".bbox.json") as Hne
    by (intros q H%String.app_inj; discriminate H).
  destruct (_ ≫= _) as [[[] [bs ss]]|e]; [..|done]; intros m;
    unfold loaded, getitem; simpl; unfold Demo.load; simpl;
    rewrite !lookup_insert; repeat case_decide; simplify_eq/=;
    rewrite ?lookup_insert; repeat case_decide; simplify_eq/=; try done;
    try (by destruct (Hne p)); by destruct (Hne p').
Qed.

Lemma add_appends_in_order_witness :
  let w := Demo.accumulated in
  let predictions := [Demo.pred1; Demo.pred_mismatch] in
  heap w !! _results (self w) = Some [Demo.pred_empty] ∧
  Forall (λ p, is_dict p = true) predictions ∧
  fst (add Demo.backend predictions w) = Ret tt ∧
  heap (snd (add Demo.backend predictions w)) !! _results (self w)
  = Some [Demo.pred_empty; Demo.pred1; Demo.pred_mismatch].
Proof.
  intros w predictions.
  assert (heap w !! _results (self w) = Some [Demo.pred_empty]) as Hold
    by (vm_compute; reflexivity).
  assert (Forall (λ p, is_dict p = true) predictions) as Hdicts
    by (repeat constructor).
  destruct (add_appends_in_order Demo.backend w [Demo.pred_empty] predictions
              Hold Hdicts) as (Hadd&_&Hnew&_).
  split_and!; [exact Hold|exact Hdicts|by rewrite Hadd|].
  rewrite Hadd. exact Hnew.
Defined.

Lemma add_rejects_whole_tail :
  ¬ skips_invalid_records Demo.backend Demo.accumulated
      [PInt 0; Demo.pred1].
Proof.
  intros (w'&Hadd&_).
  assert (is_Ret (fst (add Demo.backend [PInt 0; Demo.pred1]
                         Demo.accumulated)) = false) as Hraise
    by (vm_compute; reflexivity).
  rewrite Hadd in Hraise. discriminate Hraise.
Qed.

Lemma add_stops_at_first_non_dict_witness :
  let w := Demo.accumulated in
  heap w !! _results (self w) = Some [Demo.pred_empty] ∧
  Forall (λ p, is_dict p = true) [Demo.pred_mismatch] ∧
  is_dict (PInt 0) = false ∧
  add Demo.backend ([Demo.pred_mismatch] ++ PInt 0 :: [Demo.pred1]) w =
  (Raise (AssertionError (not_a_dict_msg (PInt 0))),
   with_heap (<[_results (self w) := [Demo.pred_empty] ++ [Demo.pred_mismatch]]>
                (heap w)) w).
Proof.
  intros w.
  assert (heap w !! _results (self w) = Some [Demo.pred_empty]) as Hold
    by (vm_compute; reflexivity).
  assert (Forall (λ p, is_dict p = true) [Demo.pred_mismatch]) as Hdicts
    by (repeat constructor).
  split_and!; [exact Hold|exact Hdicts|reflexivity|].
  exact (add_stops_at_first_non_dict Demo.backend w [Demo.pred_empty]
           [Demo.pred_mismatch] (PInt 0) [Demo.pred1] Hold Hdicts eq_refl).
Defined.

Lemma call_is_stateless_witness :
  let w := Demo.accumulated in
  let res := __call__ Demo.backend [Demo.pred1] w in
  heap w !! _results (self w) = Some [Demo.pred_empty] ∧
  is_Ret (fst res) = true ∧
  self (snd res) = self w ∧
  heap (snd res) !! _results (self (snd res)) = Some [Demo.pred_empty].
Proof.
  intros w res.
  assert (heap w !! _results (self w) = Some [Demo.pred_empty]) as Hold
    by (vm_compute; reflexivity).
  assert (is_Ret (fst res) = true) as Hret by (vm_compute; reflexivity).
  subst res. destruct (__call__ Demo.backend [Demo.pred1] w) as [[r|e] w']
    eqn:Hres; [|discriminate Hret].
  destruct (call_is_stateless Demo.backend w [Demo.pred1] [Demo.pred_empty]
              r w' Hold Hres) as (Hself&Hheap&_).
  split_and!; [exact Hold|reflexivity|exact Hself|exact Hheap].
Defined.

Lemma evaluation_is_deterministic_witness :
  let w := Demo.accumulated in
  let l := _results (self w) in
  dump_load_stable Demo.backend ∧
  is_Ret (fst (__call__ Demo.backend [Demo.pred1] w)) = true ∧
  fst (compute_metric Demo.backend l (snd (compute_metric Demo.backend l w)))
  = fst (compute_metric Demo.backend l w) ∧
  fst (__call__ Demo.backend [Demo.pred1]
         (snd (__call__ Demo.backend [Demo.pred1] w)))
  = fst (__call__ Demo.backend [Demo.pred1] w).
Proof.
  intros w l.
  destruct (evaluation_is_deterministic Demo.backend l l w w [Demo.pred1]
              demo_dump_load_stable) as (_&_&Hseq&Hcall).
  split_and!; [exact demo_dump_load_stable|vm_compute; reflexivity|
               exact Hseq|exact Hcall].
Defined.

Lemma format_only_computes_no_metric_witness :
  let w := Demo.format_only_world in
  let l := _results (self w) in
  let new :=
    drop (length (trace w)) (trace (snd (compute_metric Demo.backend l w))) in
  format_only (self w) = true ∧
  fst (compute_metric Demo.backend l w) = Ret [] ∧
  new = [Results2Json "out/results"; LogInfo "results are saved in out"] ∧
  Forall (λ e, is_evaluate e = false) new.
Proof.
  intros w l new. split; [reflexivity|].
  exact (format_only_computes_no_metric Demo.backend l w eq_refl).
Defined.

Lemma break_skips_later_metrics :
  ¬ every_metric_is_started Demo.backend Demo.accumulated
      (_results (self Demo.accumulated)).
Proof.
  intros Hall.
  assert (metrics (self Demo.accumulated) = ["bbox"; "proposal"]) as Hms
    by (vm_compute; reflexivity).
  specialize (Hall "proposal"). rewrite Hms in Hall.
  specialize (Hall ltac:(apply list_elem_of_further, list_elem_of_here)).
  assert (trace (snd (compute_metric Demo.backend
                        (_results (self Demo.accumulated)) Demo.accumulated))
          = [TmpDirCreated "/tmp/tmp0"; Results2Json "/tmp/tmp0/results";
             LogInfo "Evaluating bbox..."; LogWarning empty_msg;
             TmpDirCleanup "/tmp/tmp0"]) as Htrace
    by (vm_compute; reflexivity).
  rewrite Htrace in Hall.
  repeat (apply elem_of_cons in Hall as [Hall|Hall]; [discriminate Hall|]).
  by apply elem_of_nil in Hall.
Qed.

Lemma empty_results_end_the_loop_witness :
  let w := Demo.mixed_dump in
  let loop := metrics_loop Demo.backend Demo.lvis_v1 Demo.mixed_files in
  Forall (λ m, loaded Demo.backend Demo.lvis_v1 Demo.mixed_files (files w) m
               ≠ Raise IndexError) ["segm"] ∧
  is_Ret (fst (loop ["segm"] [] w)) = true ∧
  loaded Demo.backend Demo.lvis_v1 Demo.mixed_files (files w) "bbox"
  = Raise IndexError ∧
  fst (loop (["segm"] ++ "bbox" :: ["proposal"]) [] w)
  = fst (loop ["segm"] [] w) ∧
  trace (snd (loop (["segm"] ++ "bbox" :: ["proposal"]) [] w))
  = trace (snd (loop ["segm"] [] w))
    ++ [evaluating "bbox"; LogWarning empty_msg].
Proof.
  intros w loop. subst loop. cbv beta.
  assert (Forall (λ m, loaded Demo.backend Demo.lvis_v1 Demo.mixed_files
                         (files w) m ≠ Raise IndexError) ["segm"]) as Hpre.
  { repeat constructor. vm_compute. discriminate. }
  assert (is_Ret (fst (metrics_loop Demo.backend Demo.lvis_v1 Demo.mixed_files
                        ["segm"] [] w)) = true) as Hret
    by (vm_compute; reflexivity).
  assert (loaded Demo.backend Demo.lvis_v1 Demo.mixed_files (files w) "bbox"
          = Raise IndexError) as Hempty by (vm_compute; reflexivity).
  split_and!; [exact Hpre|exact Hret|exact Hempty|..];
    destruct (metrics_loop Demo.backend Demo.lvis_v1 Demo.mixed_files
                        ["segm"] [] w) as [[er1|e] w1] eqn:Hrun;
    try discriminate Hret;
    rewrite (empty_results_end_the_loop Demo.backend Demo.lvis_v1
               Demo.mixed_files ["segm"] "bbox" ["proposal"] [] w er1 w1
               Hpre Hrun Hempty); simpl.
  - reflexivity.
  - by rewrite <-app_assoc.
Defined.

Lemma result_entry_lists_percentages_witness :
  let w := Demo.scored in
  let l := _results (self w) in
  let dump := after_dump Demo.backend w l in
  let rf := match fst dump with Ret rf => rf | Raise _ => ∅ end in
  let res := compute_metric Demo.backend l w in
  is_Ret (fst res) = true ∧
  format_only (self w) = false ∧
  is_Ret (fst dump) = true ∧
  metrics (self w) = [] ++ "bbox" :: ["proposal"] ∧
  String.eqb "bbox" "proposal" = false ∧
  Forall (λ m', loaded Demo.backend (_lvis_api (self w)) rf
                  (files (snd dump)) m' ≠ Raise IndexError) ([] ++ ["bbox"]) ∧
  Forall (λ m', may_assign Demo.backend (self w) m' "bbox_result" = false)
    ["proposal"] ∧
  ∃ out,
    fst res = Ret out ∧
    od_get out "bbox_result"
    = Some (VStrList ["37.12"; "56.79"; "40.0"; "12.35"; "0.38"; "100.0";
                      "-100.0"; "0.12"; "100.0"]) ∧
    od_get out "bbox_AP" = Some (VFloat (PyFloat 0.3712345)) ∧
    od_get out "bbox_APl" = Some (VFloat (PyFloat 0.99999)).
Proof.
  intros w l dump rf res.
  assert (is_Ret (fst res) = true) as Hret by (vm_compute; reflexivity).
  assert (is_Ret (fst dump) = true) as Hdret by (vm_compute; reflexivity).
  assert (metrics (self w) = [] ++ "bbox" :: ["proposal"]) as Hms
    by (vm_compute; reflexivity).
  assert (Forall (λ m', loaded Demo.backend (_lvis_api (self w)) rf
                          (files (snd dump)) m' ≠ Raise IndexError)
            ([] ++ ["bbox"])) as Hreach.
  { repeat constructor. vm_compute. discriminate. }
  assert (Forall (λ m', may_assign Demo.backend (self w) m' "bbox_result"
                        = false) ["proposal"]) as Hlater.
  { repeat constructor. }
  assert (dump = (Ret rf, snd dump)) as Hdump.
  { subst rf. destruct dump as [[rf|e] w2]; [done|discriminate Hdret]. }
  split_and!; [exact Hret|reflexivity|exact Hdret|exact Hms|reflexivity|
               exact Hreach|exact Hlater|].
  subst res.
  destruct (compute_metric Demo.backend l w) as [[out|e] w'] eqn:Hrun;
    [|discriminate Hret].
  destruct (result_entry_lists_percentages Demo.backend l w out w' rf
              (snd dump) [] "bbox" ["proposal"] Hrun eq_refl Hdump Hms
              eq_refl Hreach Hlater)
    as (dt&ev0&ev&Hdt&Hnew&Heng&Hres&Hitem&_).
  vm_compute in Hdt. injection Hdt as <-.
  vm_compute in Hnew. injection Hnew as <-.
  vm_compute in Heng. injection Heng as <-.
  assert (NoDup (get_results Demo.backend Demo.eval0).*1) as Hnd
    by (apply (bool_decide_unpack _); vm_compute; exact I).
  exists out. split_and!; [reflexivity| | |].
  - etrans; [exact Hres|]. vm_compute. reflexivity.
  - destruct (Hitem 0 "AP" 0.3712345%float) as [_ Hget];
      [vm_compute; reflexivity|].
    apply Hget.
    + exact Hnd.
    + discriminate.
    + intros Hcw. vm_compute in Hcw. discriminate Hcw.
    + repeat constructor.
  - destruct (Hitem 5 "APl" 0.99999%float) as [_ Hget];
      [vm_compute; reflexivity|].
    apply Hget.
    + exact Hnd.
    + discriminate.
    + intros Hcw. vm_compute in Hcw. discriminate Hcw.
    + repeat constructor.
Defined.

Lemma classwise_precision_is_mean_or_nan_witness :
  let w := Demo.classwise_ready in
  let run := eval_metric Demo.backend Demo.lvis_v1 Demo.dets1 "bbox" [] w in
  String.eqb "bbox" "proposal" = false ∧
  classwise (self w) = true ∧
  ∃ out,
    fst run = Ret out ∧
    od_get out "bbox_classwise_result"
    = Some (VPairList [("cat", "37.12"); ("dog", "nan")]) ∧
    od_get out "bbox_cat_precision" = Some (VFloat (NpFloat64 0.371225)) ∧
    od_get out "bbox_dog_precision" = Some (VFloat (PyFloat nan)).
Proof.
  intros w run. split; [reflexivity|]. split; [reflexivity|].
  assert (is_Ret (fst run) = true) as Hret by (vm_compute; reflexivity).
  subst run.
  destruct (eval_metric Demo.backend Demo.lvis_v1 Demo.dets1 "bbox" [] w)
    as [[out|e] w'] eqn:Hrun; [|discriminate Hret].
  destruct (classwise_precision_is_mean_or_nan Demo.backend Demo.lvis_v1
              Demo.dets1 "bbox" [] w out w' eq_refl eq_refl Hrun)
    as (ev0&ev&pr&rows&Hnew&Heng&Hpr&Hrows&_&Hlist&Hcat).
  vm_compute in Hnew. injection Hnew as <-.
  vm_compute in Heng. injection Heng as <-.
  vm_compute in Hpr. injection Hpr as <-.
  vm_compute in Hrows. injection Hrows as <-.
  assert (NoDup ["cat"; "dog"]) as Hnd
    by (apply (bool_decide_unpack _); vm_compute; exact I).
  exists out. split_and!; [reflexivity| | |].
  - etrans; [exact Hlist|]. vm_compute. reflexivity.
  - destruct (Hcat 0 7%Z eq_refl) as (nm&nms&samples&ap&_&_&_&_&Hrow&_&Hget).
    injection Hrow as Hname <-. specialize (Hget Hnd).
    rewrite <-Hname in Hget. exact Hget.
  - destruct (Hcat 1 9%Z eq_refl) as (nm&nms&samples&ap&_&_&_&_&Hrow&_&Hget).
    injection Hrow as Hname <-. specialize (Hget Hnd).
    rewrite <-Hname in Hget. exact Hget.
Defined.

Lemma proposal_metric_uses_proposal_nums_witness :
  let args := Demo.args ["proposal"] in
  let w0 := Demo.world_of args in
  let w := Demo.proposal_world in
  let l := _results (self w) in
  let dump := after_dump Demo.backend w l in
  let rf := match fst dump with Ret rf => rf | Raise _ => ∅ end in
  let res := compute_metric Demo.backend l w in
  __init__ Demo.backend true args ∅ (0, ∅) = Ret w0 ∧
  is_Ret (fst res) = true ∧
  format_only (self w) = false ∧
  is_Ret (fst dump) = true ∧
  metrics (self w) = ["bbox"] ++ "proposal" :: [] ∧
  Forall (λ m', loaded Demo.backend (_lvis_api (self w)) rf
                  (files (snd dump)) m' ≠ Raise IndexError)
    (["bbox"] ++ ["proposal"]) ∧
  proposal_nums (self w0) = 300%Z ∧
  proposal_nums (self w) = 100%Z ∧
  Evaluate "bbox" [1; 2]%Z 100 ∈ trace (snd res) ∧
  ∃ out,
    fst res = Ret out ∧
    od_get out "AR@100" = Some (VFloat (PyFloat 0.457)) ∧
    od_get out "ARs@100" = Some (VFloat (PyFloat 0.188)) ∧
    od_get out "ARm@100" = Some (VFloat (PyFloat 0.062)) ∧
    od_get out "ARl@100" = Some (VFloat (PyFloat (-1))) ∧
    od_get out "AR@300" = None.
Proof.
  intros args w0 w l dump rf res.
  assert (__init__ Demo.backend true args ∅ (0, ∅) = Ret w0) as Hinit.
  { subst w0. unfold Demo.world_of.
    assert (is_Ret (__init__ Demo.backend true args ∅ (0, ∅)) = true) as Hok
      by (vm_compute; reflexivity).
    by destruct (__init__ Demo.backend true args ∅ (0, ∅)). }
  assert (is_Ret (fst res) = true) as Hret by (vm_compute; reflexivity).
  assert (is_Ret (fst dump) = true) as Hdret by (vm_compute; reflexivity).
  assert (metrics (self w) = ["bbox"] ++ "proposal" :: []) as Hms
    by (vm_compute; reflexivity).
  assert (Forall (λ m', loaded Demo.backend (_lvis_api (self w)) rf
                          (files (snd dump)) m' ≠ Raise IndexError)
            (["bbox"] ++ ["proposal"])) as Hreach.
  { repeat constructor; vm_compute; discriminate. }
  assert (dump = (Ret rf, snd dump)) as Hdump.
  { subst rf. destruct dump as [[rf|e] w2]; [done|discriminate Hdret]. }
  assert (od_get (default [] (match fst res with Ret out => Some out
                              | Raise _ => None end)) "AR@300" = None)
    as Hnone by (vm_compute; reflexivity).
  subst res.
  destruct (compute_metric Demo.backend l w) as [[out|e] w'] eqn:Hrun;
    [|discriminate Hret].
  destruct (proposal_metric_uses_proposal_nums Demo.backend true args ∅
              (0, ∅) w0 l w out w' rf (snd dump) ["bbox"] [] Hinit Hrun
              eq_refl Hdump Hms Hreach)
    as (Hdefault&dt&ev0&ev&er1&w1&w4&Hdt&Hnew&_&Heng&Hevent&_&Hitems).
  vm_compute in Hdt. injection Hdt as <-.
  vm_compute in Hnew. injection Hnew as <-.
  vm_compute in Heng. injection Heng as <-.
  destruct (Hitems eq_refl) as (_&_&_&Hget).
  assert (NoDup (get_results Demo.backend
                   (set_max_dets 100 (set_imgIds [1; 2]%Z Demo.eval0))).*1)
    as Hnd by (apply (bool_decide_unpack _); vm_compute; exact I).
  specialize (Hget Hnd).
  split_and!; [exact Hinit|reflexivity|reflexivity|exact Hdret|exact Hms|
               exact Hreach|exact Hdefault|reflexivity|exact Hevent|].
  exists out. split_and!; [reflexivity| | | | |exact Hnone].
  - apply (Hget "AR@100" 0.45678%float); [|constructor].
    vm_compute. apply list_elem_of_here.
  - apply (Hget "ARs@100" 0.1875%float); [|constructor].
    vm_compute. apply list_elem_of_further, list_elem_of_here.
  - apply (Hget "ARm@100" 0.0625%float); [|constructor].
    vm_compute. do 2 apply list_elem_of_further. apply list_elem_of_here.
  - apply (Hget "ARl@100" (-1)%float); [|constructor].
    vm_compute. do 3 apply list_elem_of_further. apply list_elem_of_here.
Defined.

Lemma tmp_dir_removed_on_return_witness :
  let dir_of (w : World Demo.backend) :=
    filter (λ kv, String.prefix "/tmp/tmp0" kv.1 = true)
      (map_to_list (files w).2) in
  let run (w : World Demo.backend) :=
    compute_metric Demo.backend (_results (self w)) w in
  let dumped (w : World Demo.backend) :=
    snd (after_dump Demo.backend w (_results (self w))) in
  outfile_prefix (self Demo.scored) = None ∧
  outfile_prefix (self Demo.format_only_forced) = None ∧
  format_only (self Demo.scored) = false ∧
  format_only (self Demo.format_only_forced) = true ∧
  is_Ret (fst (run Demo.scored)) = true ∧
  fst (run Demo.format_only_forced) = Ret [] ∧
  dir_of (dumped Demo.scored)
  = [("/tmp/tmp0/results.bbox.json", Demo.dets1)] ∧
  dir_of (dumped Demo.format_only_forced)
  = [("/tmp/tmp0/results.bbox.json", Demo.dets1)] ∧
  dir_of (snd (run Demo.scored)) = [] ∧
  dir_of (snd (run Demo.format_only_forced)) = [] ∧
  last (trace (snd (run Demo.scored))) = Some (TmpDirCleanup "/tmp/tmp0") ∧
  trace (snd (run Demo.format_only_forced))
  = [TmpDirCreated "/tmp/tmp0"; Results2Json "/tmp/tmp0/results";
     LogInfo "results are saved in /tmp/tmp0"].
Proof.
  intros dir_of run dumped. subst run dumped. cbv beta.
  assert (is_Ret (fst (compute_metric Demo.backend
                         (_results (self Demo.scored)) Demo.scored)) = true)
    as Hret1 by (vm_compute; reflexivity).
  assert (fst (compute_metric Demo.backend
                 (_results (self Demo.format_only_forced))
                 Demo.format_only_forced) = Ret [])
    as Hret2 by (vm_compute; reflexivity).
  split_and!; [reflexivity|reflexivity|reflexivity|reflexivity|exact Hret1|
               exact Hret2|vm_compute; reflexivity|vm_compute; reflexivity|
               | | |vm_compute; reflexivity].
  - destruct (compute_metric Demo.backend (_results (self Demo.scored))
                Demo.scored) as [[r|e] w'] eqn:Hrun; [|discriminate Hret1].
    destruct (tmp_dir_removed_on_return Demo.backend _ Demo.scored r w'
                eq_refl Hrun) as [_ Hfiles].
    subst dir_of. cbv beta. cbn [snd]. rewrite Hfiles.
    vm_compute. reflexivity.
  - destruct (compute_metric Demo.backend
                (_results (self Demo.format_only_forced))
                Demo.format_only_forced) as [[r|e] w'] eqn:Hrun;
      [|discriminate Hret2].
    destruct (tmp_dir_removed_on_return Demo.backend _
                Demo.format_only_forced r w' eq_refl Hrun) as [_ Hfiles].
    subst dir_of. cbv beta. cbn [snd]. rewrite Hfiles.
    vm_compute. reflexivity.
  - destruct (compute_metric Demo.backend (_results (self Demo.scored))
                Demo.scored) as [[r|e] w'] eqn:Hrun; [|discriminate Hret1].
    destruct (tmp_dir_removed_on_return Demo.backend _ Demo.scored r w'
                eq_refl Hrun) as [(t&Ht&_) _].
    cbn [snd]. rewrite Ht.
    change (format_only (self Demo.scored)) with false. cbv iota.
    rewrite !app_assoc. apply last_snoc.
Defined.

Lemma failed_call_keeps_one_off_buffer_witness :
  let w := Demo.accumulated in
  let res := __call__ Demo.backend [Demo.pred1; PInt 0] w in
  heap w !! _results (self w) = Some [Demo.pred_empty] ∧
  is_Ret (fst res) = false ∧
  _results (self (snd res)) ≠ _results (self w) ∧
  heap (snd res) !! _results (self (snd res)) = Some [Demo.pred1] ∧
  heap (snd res) !! _results (self w) = Some [Demo.pred_empty].
Proof.
  intros w res.
  assert (heap w !! _results (self w) = Some [Demo.pred_empty]) as Hold
    by (vm_compute; reflexivity).
  assert (is_Ret (fst res) = false) as Hret by (vm_compute; reflexivity).
  subst res.
  destruct (__call__ Demo.backend [Demo.pred1; PInt 0] w) as [[r|e] w']
    eqn:Hres; [discriminate Hret|].
  destruct (failed_call_keeps_one_off_buffer Demo.backend w
              [Demo.pred1; PInt 0] [Demo.pred_empty] e w' Hold Hres)
    as (Hl&Hne&Hnew&Hkept&_).
  simpl. rewrite Hl. by split_and!.
Defined.

Lemma call_agrees_with_add_then_compute_witness :
  let w := Demo.new_world in
  heap w !! _results (self w) = Some [] ∧
  Forall (λ p, is_dict p = true) [Demo.pred1] ∧
  is_Ret (fst (__call__ Demo.backend [Demo.pred1] w)) = true ∧
  fst (__call__ Demo.backend [Demo.pred1] w) =
  fst (compute_metric Demo.backend (_results (self w))
         (snd (add Demo.backend [Demo.pred1] w))).
Proof.
  intros w.
  assert (heap w !! _results (self w) = Some []) as Hold
    by (vm_compute; reflexivity).
  assert (Forall (λ p, is_dict p = true) [Demo.pred1]) as Hdicts
    by (repeat constructor).
  split_and!; [exact Hold|exact Hdicts|vm_compute; reflexivity|].
  exact (call_agrees_with_add_then_compute Demo.backend w [Demo.pred1]
           Hold Hdicts).
Defined.

Lemma calls_do_not_interfere_witness :
  let w := Demo.accumulated in
  dump_load_stable Demo.backend ∧
  is_Ret (fst (__call__ Demo.backend [PInt 0] w)) = false ∧
  is_Ret (fst (__call__ Demo.backend [Demo.pred1] w)) = true ∧
  fst (__call__ Demo.backend [Demo.pred1]
         (snd (__call__ Demo.backend [PInt 0] w)))
  = fst (__call__ Demo.backend [Demo.pred1] w).
Proof.
  intros w.
  split_and!; [exact demo_dump_load_stable|vm_compute; reflexivity..|].
  exact (calls_do_not_interfere Demo.backend w [PInt 0] [Demo.pred1]
           demo_dump_load_stable).
Defined.

Lemma accumulation_survives_call_witness :
  let w := Demo.accumulated in
  let w1 := snd (__call__ Demo.backend [Demo.pred1] w) in
  heap w !! _results (self w) = Some [Demo.pred_empty] ∧
  is_Ret (fst (__call__ Demo.backend [Demo.pred1] w)) = true ∧
  Forall (λ p, is_dict p = true) [Demo.pred_mismatch] ∧
  heap (snd (add Demo.backend [Demo.pred_mismatch] w1)) !! _results (self w)
  = Some [Demo.pred_empty; Demo.pred_mismatch].
Proof.
  intros w w1.
  assert (heap w !! _results (self w) = Some [Demo.pred_empty]) as Hold
    by (vm_compute; reflexivity).
  assert (is_Ret (fst (__call__ Demo.backend [Demo.pred1] w)) = true) as Hret
    by (vm_compute; reflexivity).
  assert (Forall (λ p, is_dict p = true) [Demo.pred_mismatch]) as Hdicts
    by (repeat constructor).
  split_and!; [exact Hold|exact Hret|exact Hdicts|].
  subst w1.
  destruct (__call__ Demo.backend [Demo.pred1] w) as [[r|e] w1] eqn:Hres;
    [|discriminate Hret].
  exact (proj2 (proj2 (accumulation_survives_call Demo.backend w
                         [Demo.pred_empty] [Demo.pred1] [Demo.pred_mismatch]
                         r w1 Hold Hres Hdicts))).
Defined.

Lemma raising_compute_metric_skips_cleanup_witness :
  let w := Demo.segm_world in
  let res := compute_metric Demo.backend (_results (self w)) w in
  fst res = Raise (KeyError "segm") ∧
  outfile_prefix (self w) = None ∧
  ∃ t, trace (snd res) = trace w ++ t ∧
       Forall (λ ev, is_cleanup ev = false) t ∧
       TmpDirCreated "/tmp/tmp0" ∈ t.
Proof.
  intros w res.
  assert (fst res = Raise (KeyError "segm")) as Hraise
    by (vm_compute; reflexivity).
  split_and!; [exact Hraise|reflexivity|].
  subst res.
  destruct (compute_metric Demo.backend (_results (self w)) w) as [o w']
    eqn:Hres.
  simpl in Hraise. subst o.
  destruct (raising_compute_metric_skips_cleanup Demo.backend _ w _ w' Hres)
    as (t&Ht&Hall&Hmade&_).
  exists t. split_and!; [exact Ht|exact Hall|exact (Hmade eq_refl)].
Defined.

Lemma tmp_dir_cleaned_after_loop_witness :
  let w := Demo.accumulated in
  let res := compute_metric Demo.backend (_results (self w)) w in
  outfile_prefix (self w) = None ∧
  format_only (self w) = false ∧
  is_Ret (fst res) = true ∧
  ∃ t, trace (snd res) =
       trace w ++ TmpDirCreated "/tmp/tmp0" :: t ++ [TmpDirCleanup "/tmp/tmp0"].
Proof.
  intros w res.
  assert (is_Ret (fst res) = true) as Hret by (vm_compute; reflexivity).
  split_and!; [reflexivity|reflexivity|exact Hret|].
  subst res.
  destruct (compute_metric Demo.backend (_results (self w)) w) as [[r|e] w']
    eqn:Hres; [|discriminate Hret].
  destruct (tmp_dir_cleaned_after_loop Demo.backend _ w r w' eq_refl eq_refl
              Hres) as (d&t&Ht&Hd).
  assert ((TemporaryDirectory Demo.backend (files w)).1 = "/tmp/tmp0") as Hname
    by (vm_compute; reflexivity).
  rewrite Hname in Hd. subst d. by exists t.
Defined.

Lemma configured_prefix_makes_no_tmp_dir_witness :
  let w := Demo.classwise_world in
  let res := compute_metric Demo.backend (_results (self w)) w in
  outfile_prefix (self w) = Some "out/results" ∧
  is_Ret (fst res) = true ∧
  ∃ t, trace (snd res) = trace w ++ Results2Json "out/results" :: t ∧
       Forall (λ e, is_loop_event e = true) t.
Proof.
  intros w res.
  split_and!; [reflexivity|vm_compute; reflexivity|].
  destruct (configured_prefix_makes_no_tmp_dir Demo.backend
              (_results (self w)) w "out/results" eq_refl) as (t&Ht&Hall&_).
  by exists t.
Defined.

Lemma empty_dataset_gives_empty_report_witness :
  let w := Demo.accumulated in
  let l := _results (self w) in
  let dump := after_dump Demo.backend w l in
  let rf := match fst dump with Ret rf => rf | Raise _ => ∅ end in
  is_Ret (fst dump) = true ∧
  format_only (self w) = false ∧
  metrics (self w) = "bbox" :: ["proposal"] ∧
  loaded Demo.backend (_lvis_api (self w)) rf (files (snd dump)) "bbox"
  = Raise IndexError ∧
  fst (compute_metric Demo.backend l w) = Ret [] ∧
  trace (snd (compute_metric Demo.backend l w)) =
  [TmpDirCreated "/tmp/tmp0"; Results2Json "/tmp/tmp0/results";
   LogInfo "Evaluating bbox..."; LogWarning empty_msg;
   TmpDirCleanup "/tmp/tmp0"].
Proof.
  intros w l dump rf.
  assert (is_Ret (fst dump) = true) as Hret by (vm_compute; reflexivity).
  assert (metrics (self w) = "bbox" :: ["proposal"]) as Hms
    by (vm_compute; reflexivity).
  assert (loaded Demo.backend (_lvis_api (self w)) rf (files (snd dump)) "bbox"
          = Raise IndexError) as Hempty by (vm_compute; reflexivity).
  assert (dump = (Ret rf, snd dump)) as Hdump.
  { subst rf. destruct dump as [[rf|e] w2]; [done|discriminate Hret]. }
  destruct (empty_dataset_gives_empty_report Demo.backend l w rf (snd dump)
              "bbox" ["proposal"] Hdump eq_refl Hms Hempty) as [Hout Htrace].
  split_and!; [exact Hret|reflexivity|exact Hms|exact Hempty|exact Hout|].
  rewrite Htrace. vm_compute. reflexivity.
Defined.

Lemma each_metric_is_evaluated_once_witness :
  let w := Demo.classwise_ready in
  let run := eval_metric Demo.backend Demo.lvis_v1 Demo.dets1 "bbox" [] w in
  is_Ret (fst run) = true ∧
  drop (length (trace w)) (trace (snd run)) =
  [Evaluate "bbox" [1; 2]%Z 300; LogInfo (newline +:+ "summary")].
Proof.
  intros w run.
  assert (is_Ret (fst run) = true) as Hret by (vm_compute; reflexivity).
  split; [exact Hret|]. subst run.
  destruct (eval_metric Demo.backend Demo.lvis_v1 Demo.dets1 "bbox" [] w)
    as [[out|e] w'] eqn:Hrun; [|discriminate Hret].
  destruct (each_metric_is_evaluated_once Demo.backend Demo.lvis_v1
              Demo.dets1 "bbox" [] w out w' Hrun)
    as (ev0&ev&Hnew&Heng&Htrace&_).
  vm_compute in Hnew. injection Hnew as <-.
  vm_compute in Heng. injection Heng as <-.
  unfold snd. rewrite Htrace, drop_app_length. vm_compute. reflexivity.
Defined.

Lemma unreported_items_are_passed_over_witness :
  let w := Demo.items_world in
  let run := eval_metric Demo.backend Demo.lvis_v1 Demo.dets1 "bbox" [] w in
  classwise (self w) = false ∧
  metric_items (self w) = Some ["mAP"] ∧
  fst run = Ret [("bbox_result", VStrList [])].
Proof.
  intros w run.
  assert (is_Ret (fst run) = true) as Hret by (vm_compute; reflexivity).
  split_and!; [reflexivity|reflexivity|]. subst run.
  destruct (eval_metric Demo.backend Demo.lvis_v1 Demo.dets1 "bbox" [] w)
    as [[out|e] w'] eqn:Hrun; [|discriminate Hret].
  destruct (unreported_items_are_passed_over Demo.backend Demo.lvis_v1
              Demo.dets1 "bbox" [] w out w' ["mAP"] eq_refl eq_refl Hrun)
    as (ev&(ev0&Hnew&Heng)&Hout).
  vm_compute in Hnew. injection Hnew as <-.
  vm_compute in Heng. injection Heng as <-.
  simpl. f_equal. apply Hout.
  intros k ->%list_elem_of_singleton.
  apply (bool_decide_unpack _). vm_compute. exact I.
Defined.

Lemma classwise_shape_mismatch_raises_witness :
  let w := Demo.classwise_world in
  String.eqb "bbox" "proposal" = false ∧
  classwise (self w) = true ∧
  LVISEval_new Demo.backend Demo.lvis_v1 Demo.dets1 "bbox" = Ret Demo.eval0 ∧
  engine_run Demo.backend (configured Demo.backend (self w) "bbox" Demo.eval0)
  = Ret Demo.eval0 ∧
  eval_precision Demo.backend Demo.eval0 = Ret Demo.precisions0 ∧
  length (cat_ids (self w)) ≠ shape_2 Demo.precisions0 ∧
  eval_metric Demo.backend Demo.lvis_v1 Demo.dets1 "bbox" [] w =
  (Raise (AssertionError ""),
   emit (Evaluate "bbox" (img_ids (self w)) 300) w).
Proof.
  intros w.
  assert (engine_run Demo.backend
            (configured Demo.backend (self w) "bbox" Demo.eval0)
          = Ret Demo.eval0) as Heng by (vm_compute; reflexivity).
  assert (length (cat_ids (self w)) ≠ shape_2 Demo.precisions0) as Hlen
    by (vm_compute; discriminate).
  split_and!; [reflexivity|reflexivity|reflexivity|exact Heng|reflexivity|
               exact Hlen|].
  exact (classwise_shape_mismatch_raises Demo.backend Demo.lvis_v1 Demo.dets1
           "bbox" [] w Demo.eval0 Demo.eval0 Demo.precisions0
           eq_refl eq_refl eq_refl Heng eq_refl Hlen).
Defined.

Lemma nan_and_sentinel_samples_do_not_count_witness :
  let samples := [nan; -1; -1; nan]%float in
  slice_cat_area Demo.sparse_precisions 1 0 = Ret samples ∧
  Forall (λ p, PrimFloat.is_nan p = true ∨ p = (-1)%float) samples ∧
  category_ap Demo.backend Demo.sparse_precisions 1 = Ret (PyFloat nan).
Proof.
  intros samples.
  assert (slice_cat_area Demo.sparse_precisions 1 0 = Ret samples) as Hslice
    by (vm_compute; reflexivity).
  assert (Forall (λ p, PrimFloat.is_nan p = true ∨ p = (-1)%float) samples)
    as Hall by (repeat constructor; (by left) || (by right)).
  split_and!; [exact Hslice|exact Hall|].
  exact (proj2 (nan_and_sentinel_samples_do_not_count Demo.backend
                  Demo.sparse_precisions 1 samples Hslice) Hall).
Defined.
